(** * A shallow embedding of the inferprompt core: the ASP structure solver
    ([app/core/asp_engine.py]) and the prompt optimizer with its result
    cache ([app/services/prompt_optimizer.py]).

    Floats are modelled as rationals ([Q]); Python dicts whose insertion
    order is observable are association lists in insertion order; Python
    objects that are shared by reference live in an explicit heap. *)

From Stdlib Require Import List String Ascii QArith Qminmax Permutation Bool Lia NArith Arith Sorted.
Import ListNotations.
Local Open Scope nat_scope.
Local Open Scope string_scope.

(** ** Data model ([app/models/prompt.py]) *)

Inductive ComponentType :=
| INSTRUCTION | CONTEXT | EXAMPLE | CONSTRAINT | OUTPUT_FORMAT.

Definition ComponentType_value (c : ComponentType) : string :=
  match c with
  | INSTRUCTION => "instruction"
  | CONTEXT => "context"
  | EXAMPLE => "example"
  | CONSTRAINT => "constraint"
  | OUTPUT_FORMAT => "output_format"
  end.

Inductive TaskType :=
| DEDUCTION | INDUCTION | ABDUCTION | COMPARISON | COUNTERFACTUAL.

Definition TaskType_value (t : TaskType) : string :=
  match t with
  | DEDUCTION => "deduction"
  | INDUCTION => "induction"
  | ABDUCTION => "abduction"
  | COMPARISON => "comparison"
  | COUNTERFACTUAL => "counterfactual"
  end.

Inductive BehaviorType :=
| PRECISION | CREATIVITY | STEP_BY_STEP | CONCISENESS | ERROR_CHECKING.

Definition BehaviorType_value (b : BehaviorType) : string :=
  match b with
  | PRECISION => "precision"
  | CREATIVITY => "creativity"
  | STEP_BY_STEP => "step_by_step"
  | CONCISENESS => "conciseness"
  | ERROR_CHECKING => "error_checking"
  end.

(** [Union[TaskType, BehaviorType]], dispatched on with [isinstance]. *)
Inductive TaskOrBehavior :=
| Task (t : TaskType)
| Behavior (b : BehaviorType).

Definition ComponentType_eqb (a b : ComponentType) : bool :=
  match a, b with
  | INSTRUCTION, INSTRUCTION | CONTEXT, CONTEXT | EXAMPLE, EXAMPLE
  | CONSTRAINT, CONSTRAINT | OUTPUT_FORMAT, OUTPUT_FORMAT => true
  | _, _ => false
  end.

Definition TaskType_eqb (a b : TaskType) : bool :=
  String.eqb (TaskType_value a) (TaskType_value b).

Definition BehaviorType_eqb (a b : BehaviorType) : bool :=
  String.eqb (BehaviorType_value a) (BehaviorType_value b).

Definition TaskOrBehavior_eqb (x y : TaskOrBehavior) : bool :=
  match x, y with
  | Task a, Task b => TaskType_eqb a b
  | Behavior a, Behavior b => BehaviorType_eqb a b
  | _, _ => false
  end.

Record PromptComponent := mkPromptComponent {
  ptype : ComponentType;
  content : string;
  position : nat
}.

(** Python's [str.upper] on the ASCII letters of the enum values. *)
Definition ascii_upper (a : ascii) : ascii :=
  let n := nat_of_ascii a in
  if Nat.leb 97 n && Nat.leb n 122 then ascii_of_nat (Nat.sub n 32) else a.

Fixpoint str_upper (s : string) : string :=
  match s with
  | EmptyString => EmptyString
  | String a s' => String (ascii_upper a) (str_upper s')
  end.

(** [f"[{comp_type.value.upper()} CONTENT]"] *)
Definition placeholder_content (c : ComponentType) : string :=
  "[" ++ str_upper (ComponentType_value c) ++ " CONTENT]".

(** ** The ASP structure solver ([ASPEngine]) *)
Module ASP.

(** Ground atoms of [base_program] that the solver reports
    ([#show prompt_position/2. #show effectiveness/1.]). *)
Inductive Atom :=
| prompt_position (c : ComponentType) (p : nat)
| effectiveness (s : Z).

(** The [component/1] facts of [base_program]. *)
Definition components : list ComponentType :=
  [INSTRUCTION; CONTEXT; EXAMPLE; CONSTRAINT; OUTPUT_FORMAT].

Definition positions : list nat := [1; 2; 3; 4; 5].

(** A candidate of the choice rule
    [1 { prompt_position(C, P) : P = 1..5 } 1 :- component(C).]:
    one position in [1..5] for each component. *)
Fixpoint choices (cs : list ComponentType) : list (list (ComponentType * nat)) :=
  match cs with
  | [] => [[]]
  | c :: cs' =>
      flat_map (fun p => map (fun rest => (c, p) :: rest) (choices cs'))
               positions
  end.

Definition placed (a : list (ComponentType * nat)) (c : ComponentType) : bool :=
  existsb (fun cp => ComponentType_eqb (fst cp) c) a.

Definition pos_of (a : list (ComponentType * nat)) (c : ComponentType) : option nat :=
  match find (fun cp => ComponentType_eqb (fst cp) c) a with
  | Some (_, p) => Some p
  | None => None
  end.

(** [:- prompt_position(C1, P), prompt_position(C2, P), C1 != C2.] *)
Definition no_shared_position (a : list (ComponentType * nat)) : bool :=
  forallb (fun x => forallb (fun y =>
     negb (Nat.eqb (snd x) (snd y) && negb (ComponentType_eqb (fst x) (fst y)))) a) a.

(** The two integrity constraints on [example] and [constraint]. *)
Definition requires_instruction (a : list (ComponentType * nat)) : bool :=
  negb (placed a EXAMPLE && negb (placed a INSTRUCTION)) &&
  negb (placed a CONSTRAINT && negb (placed a INSTRUCTION)).

Definition feasible (a : list (ComponentType * nat)) : bool :=
  no_shared_position a && requires_instruction a.

(** The answer sets of [base_program], restricted to [prompt_position/2].
    The facts appended by [generate_asp_facts] ([target_task/1],
    [component_efficacy/3], [weight/2], ...) occur in no rule body of
    [base_program], so they add atoms to every answer set but neither
    remove nor create any [prompt_position] or [effectiveness] atom. *)
Definition answer_sets : list (list (ComponentType * nat)) :=
  filter feasible (choices components).

(** [instruction_first :- prompt_position(instruction, 1).] *)
Definition instruction_first (a : list (ComponentType * nat)) : bool :=
  existsb (fun cp => ComponentType_eqb (fst cp) INSTRUCTION && Nat.eqb (snd cp) 1) a.

(** [example_after_instruction :- prompt_position(instruction, P1),
     prompt_position(example, P2), P1 < P2.] *)
Definition example_after_instruction (a : list (ComponentType * nat)) : bool :=
  existsb (fun x => existsb (fun y =>
     ComponentType_eqb (fst x) INSTRUCTION && ComponentType_eqb (fst y) EXAMPLE
     && Nat.ltb (snd x) (snd y)) a) a.

(** The four [effectiveness/1] rules. *)
Definition effectiveness_atoms (a : list (ComponentType * nat)) : list Z :=
  ((if instruction_first a && example_after_instruction a then [100%Z] else []) ++
   (if instruction_first a && negb (example_after_instruction a) then [80%Z] else []) ++
   (if negb (instruction_first a) && example_after_instruction a then [60%Z] else []) ++
   (if negb (instruction_first a) && negb (example_after_instruction a) then [40%Z] else []))%list.

(** [#maximize { S : effectiveness(S) }.]: the sum over the derived
    [effectiveness] values (distinct constants, so the set is the list). *)
Definition objective (a : list (ComponentType * nat)) : Z :=
  fold_right Z.add 0%Z (effectiveness_atoms a).

(** An optimal answer set: no answer set has a larger objective. *)
Definition optimal (a : list (ComponentType * nat)) : Prop :=
  In a answer_sets /\
  forall b, In b answer_sets -> (objective b <= objective a)%Z.

Definition max_objective : Z :=
  fold_right Z.max 0%Z (map objective answer_sets).

(** [model.symbols(shown=True)] of an answer set. *)
Definition shown (a : list (ComponentType * nat)) : list Atom :=
  (map (fun cp => prompt_position (fst cp) (snd cp)) a ++
   map effectiveness (effectiveness_atoms a))%list.

(** What [control.solve] does with the program: it raises (a parse or
    grounding error), or it reports the models found, in order, to
    [on_model]; with [--opt-mode=opt] each reported model improves on the
    previous one, so the last one is optimal. *)
Inductive ClingoOutcome :=
| ClingoRaises
| ClingoModels (models : list (list Atom)).

(** [_fallback_solve] *)
Definition hardcoded_structure : list (ComponentType * nat) :=
  [(INSTRUCTION, 1); (CONTEXT, 2); (EXAMPLE, 3); (CONSTRAINT, 4); (OUTPUT_FORMAT, 5)].

Definition fallback_solve (target_tasks : list TaskType)
    (target_behaviors : list BehaviorType) (target_model domain : option string)
    : list PromptComponent * Q :=
  (map (fun cp => mkPromptComponent (fst cp) (placeholder_content (fst cp)) (snd cp))
       hardcoded_structure,
   100%Q).

(** The loop over [best_model]: collect components, keep the last score. *)
Fixpoint extract (atoms : list Atom) (acc : list PromptComponent) (score : Q)
    : list PromptComponent * Q :=
  match atoms with
  | [] => (acc, score)
  | prompt_position c p :: rest =>
      extract rest (acc ++ [mkPromptComponent c (placeholder_content c) p])%list score
  | effectiveness s :: rest => extract rest acc (inject_Z s)
  end.

(** [components.sort(key=lambda x: x.position)] as an insertion sort.
    Python's sort is stable and this one is not (on equal positions the
    later component comes first), but the components of an answer set
    have pairwise distinct positions ([no_shared_position]), where the
    two agree (lemma [sort_by_position_stable_distinct]). *)
Fixpoint insert_by_position (x : PromptComponent) (l : list PromptComponent)
    : list PromptComponent :=
  match l with
  | [] => [x]
  | y :: l' => if Nat.ltb (position x) (position y) then x :: l
               else y :: insert_by_position x l'
  end.

Fixpoint sort_by_position (l : list PromptComponent) : list PromptComponent :=
  match l with
  | [] => []
  | x :: l' => insert_by_position x (sort_by_position l')
  end.

(** [ASPEngine.solve]: every failure inside the [try] block, and an empty
    model list, end in [_fallback_solve]. *)
Definition solve (outcome : ClingoOutcome) (target_tasks : list TaskType)
    (target_behaviors : list BehaviorType) (target_model domain : option string)
    : list PromptComponent * Q :=
  match outcome with
  | ClingoRaises => fallback_solve target_tasks target_behaviors target_model domain
  | ClingoModels [] => fallback_solve target_tasks target_behaviors target_model domain
  | ClingoModels models =>
      let best_model := last models [] in
      let '(components, effectiveness_score) := extract best_model [] 0%Q in
      (sort_by_position components, effectiveness_score)
  end.

End ASP.

(** ** The efficacy store held by [ASPEngine] *)

(** Keys of [self.weights]: the string ["position"], a task or a behavior. *)
Inductive WeightKey :=
| WPosition
| WTask (t : TaskType)
| WBehavior (b : BehaviorType).

Definition WeightKey_eqb (x y : WeightKey) : bool :=
  match x, y with
  | WPosition, WPosition => true
  | WTask a, WTask b => TaskType_eqb a b
  | WBehavior a, WBehavior b => BehaviorType_eqb a b
  | _, _ => false
  end.

(** Dict lookup on an association list in insertion order. *)
Fixpoint assoc {K V : Type} (eqb : K -> K -> bool) (k : K) (l : list (K * V))
    : option V :=
  match l with
  | [] => None
  | (k', v) :: l' => if eqb k' k then Some v else assoc eqb k l'
  end.

(** [d[k] = v] on a dict: overwrite in place if present, append otherwise. *)
Fixpoint dict_set {K V : Type} (eqb : K -> K -> bool) (k : K) (v : V)
    (l : list (K * V)) : list (K * V) :=
  match l with
  | [] => [(k, v)]
  | (k', v') :: l' => if eqb k' k then (k', v) :: l' else (k', v') :: dict_set eqb k v l'
  end.

Definition efficacy_key_eqb (x y : ComponentType * TaskOrBehavior) : bool :=
  ComponentType_eqb (fst x) (fst y) && TaskOrBehavior_eqb (snd x) (snd y).

Definition position_key_eqb (x y : ComponentType * nat) : bool :=
  ComponentType_eqb (fst x) (fst y) && Nat.eqb (snd x) (snd y).

Record EngineTables := mkEngineTables {
  component_efficacy : list ((ComponentType * TaskOrBehavior) * Q);
  position_effects : list ((ComponentType * nat) * Q);
  weights : list (WeightKey * Q);
  model_adjustments : list (string * list ((ComponentType * BehaviorType) * Q));
  domain_adjustments : list (string * list ((ComponentType * BehaviorType) * Q))
}.

(** The defaults set in [ASPEngine.__init__]. *)
Definition default_tables : EngineTables := {|
  component_efficacy :=
    [((INSTRUCTION, Task DEDUCTION), 8 # 10);
     ((EXAMPLE, Task DEDUCTION), 9 # 10);
     ((CONSTRAINT, Behavior PRECISION), 7 # 10);
     ((OUTPUT_FORMAT, Behavior STEP_BY_STEP), 8 # 10);
     ((INSTRUCTION, Behavior PRECISION), 7 # 10);
     ((CONTEXT, Task ABDUCTION), 75 # 100);
     ((EXAMPLE, Behavior STEP_BY_STEP), 85 # 100)];
  position_effects :=
    [((INSTRUCTION, 1), 9 # 10); ((CONTEXT, 2), 7 # 10); ((EXAMPLE, 3), 8 # 10)];
  weights :=
    [(WPosition, 5 # 10);
     (WTask DEDUCTION, 1%Q); (WTask INDUCTION, 1%Q); (WTask ABDUCTION, 1%Q);
     (WTask COMPARISON, 1%Q); (WTask COUNTERFACTUAL, 1%Q);
     (WBehavior PRECISION, 1%Q); (WBehavior CREATIVITY, 1%Q);
     (WBehavior STEP_BY_STEP, 1%Q); (WBehavior CONCISENESS, 1%Q);
     (WBehavior ERROR_CHECKING, 1%Q)];
  model_adjustments :=
    [("gpt-4", [((INSTRUCTION, PRECISION), 9 # 10)]);
     ("claude", [((EXAMPLE, PRECISION), 85 # 100)]);
     ("llama", [((CONSTRAINT, PRECISION), 75 # 100)])];
  domain_adjustments :=
    [("legal", [((CONTEXT, PRECISION), 95 # 100)]);
     ("medical", [((CONSTRAINT, STEP_BY_STEP), 9 # 10)]);
     ("code", [((EXAMPLE, PRECISION), 85 # 100)])]
|}.

(** The objective in the words of the specification (§4.1), compared
    with the solver's [ASP.objective]: a weighted sum of component×task
    efficacy, component×position effect and component×behavior efficacy,
    plus the model and domain adjustments of a recognized model/domain.
    Missing table entries count as 0. *)
Module SpecObjective.
Local Open Scope Q_scope.

Definition Qsum (l : list Q) : Q := fold_right Qplus 0 l.

Definition get (o : option Q) : Q := match o with Some q => q | None => 0 end.

Definition adjustment (tbl : list (string * list ((ComponentType * BehaviorType) * Q)))
    (name : option string) (behaviors : list BehaviorType)
    (a : list (ComponentType * nat)) : Q :=
  match name with
  | None => 0
  | Some n =>
      match assoc String.eqb n tbl with
      | None => 0
      | Some adj =>
          Qsum (map snd (filter (fun e =>
                  ASP.placed a (fst (fst e)) &&
                  existsb (BehaviorType_eqb (snd (fst e))) behaviors) adj))
      end
  end.

Definition spec_objective (T : EngineTables) (tasks : list TaskType)
    (behaviors : list BehaviorType) (target_model domain : option string)
    (a : list (ComponentType * nat)) : Q :=
  Qsum (map (fun t => get (assoc WeightKey_eqb (WTask t) (weights T)) *
           Qsum (map (fun cp => get (assoc efficacy_key_eqb (fst cp, Task t)
                                      (component_efficacy T))) a)) tasks)
  + get (assoc WeightKey_eqb WPosition (weights T)) *
      Qsum (map (fun cp => get (assoc position_key_eqb cp (position_effects T))) a)
  + Qsum (map (fun b => get (assoc WeightKey_eqb (WBehavior b) (weights T)) *
           Qsum (map (fun cp => get (assoc efficacy_key_eqb (fst cp, Behavior b)
                                      (component_efficacy T))) a)) behaviors)
  + adjustment (model_adjustments T) target_model behaviors a
  + adjustment (domain_adjustments T) domain behaviors a.

Definition spec_max (T : EngineTables) (tasks : list TaskType)
    (behaviors : list BehaviorType) (target_model domain : option string) : Q :=
  fold_right Qmax 0 (map (spec_objective T tasks behaviors target_model domain)
                         ASP.answer_sets).

End SpecObjective.

(** ** The efficacy store update ([ASPEngine.update_efficacy]) *)
Module Store.

(** A row of [ComponentEfficacyDB] (its id is not modelled). The [Enum]
    columns are given by the value of the member they hold ([None] for
    NULL); SQLAlchemy stores the member's name, writes a member for its
    value and converts the name back to the member when it fetches. *)
Record ComponentEfficacyDB := mkComponentEfficacyDB {
  db_component_type : string;
  db_task_type : option string;
  db_behavior_type : option string;
  efficacy_value : Q
}.

Definition option_string_eqb (a b : option string) : bool :=
  match a, b with
  | Some x, Some y => String.eqb x y
  | _, _ => false   (* SQL: [NULL = x] is never true *)
  end.

(** The filter of the two [db.query(...).filter(...)] calls. *)
Definition matches (component : ComponentType) (tb : TaskOrBehavior)
    (r : ComponentEfficacyDB) : bool :=
  String.eqb (db_component_type r) (ComponentType_value component) &&
  match tb with
  | Task t => option_string_eqb (db_task_type r) (Some (TaskType_value t))
  | Behavior b => option_string_eqb (db_behavior_type r) (Some (BehaviorType_value b))
  end.

(** Updating the row that [.first()] returned. *)
Fixpoint update_first (p : ComponentEfficacyDB -> bool)
    (f : ComponentEfficacyDB -> ComponentEfficacyDB) (l : list ComponentEfficacyDB)
    : list ComponentEfficacyDB :=
  match l with
  | [] => []
  | r :: l' => if p r then f r :: l' else r :: update_first p f l'
  end.

Definition new_row (component : ComponentType) (tb : TaskOrBehavior) (v : Q)
    : ComponentEfficacyDB :=
  match tb with
  | Task t => mkComponentEfficacyDB (ComponentType_value component)
                (Some (TaskType_value t)) None v
  | Behavior b => mkComponentEfficacyDB (ComponentType_value component)
                    None (Some (BehaviorType_value b)) v
  end.

(** "Create or update record", then [db.commit()]. *)
Definition db_upsert (component : ComponentType) (tb : TaskOrBehavior) (v : Q)
    (db : list ComponentEfficacyDB) : list ComponentEfficacyDB :=
  match find (matches component tb) db with
  | Some _ => update_first (matches component tb)
                (fun r => mkComponentEfficacyDB (db_component_type r) (db_task_type r)
                            (db_behavior_type r) v) db
  | None => (db ++ [new_row component tb v])%list
  end.

(** The arguments of the calls cached by [@lru_cache] on [generate_asp_facts]. *)
Definition FactsKey : Type :=
  (list TaskType * list BehaviorType * option string * option string)%type.

Record EngineState := mkEngineState {
  tables : EngineTables;
  facts_cache : list FactsKey;
  db : list ComponentEfficacyDB
}.

Definition set_component_efficacy (T : EngineTables)
    (ce : list ((ComponentType * TaskOrBehavior) * Q)) : EngineTables :=
  mkEngineTables ce (position_effects T) (weights T) (model_adjustments T)
    (domain_adjustments T).

(** [update_efficacy]. [storage_ok] says whether durable storage works
    during the call; when it does not, the session is rolled back (the
    table is unchanged) and the exception is re-raised ([None]). The
    in-memory update and the [cache_clear()] happen before the session is
    opened. *)
Definition update_efficacy (storage_ok : bool) (component : ComponentType)
    (tb : TaskOrBehavior) (new_value : Q) (e : EngineState)
    : EngineState * option unit :=
  let T' := set_component_efficacy (tables e)
              (dict_set efficacy_key_eqb (component, tb) new_value
                 (component_efficacy (tables e))) in
  if storage_ok
  then (mkEngineState T' [] (db_upsert component tb new_value (db e)), Some tt)
  else (mkEngineState T' [] (db e), None).

End Store.

(** ** The prompt optimizer ([app/services/prompt_optimizer.py]) *)
Module Optimizer.

Record Analysis := mkAnalysis {
  detected_tasks : list TaskType;
  detected_behaviors : list BehaviorType;
  domain_hint : option string
}.

Record OptimizationRequest := mkOptimizationRequest {
  user_prompt : string;
  target_tasks : list TaskType;
  target_behaviors : list BehaviorType;
  target_model : string;
  domain : option string
}.

(** The returned [OptimizedPrompt] holds the component values at the time
    it is built. *)
Record OptimizedPrompt := mkOptimizedPrompt {
  components : list PromptComponent;
  full_prompt : string;
  rationale : string;
  effectiveness_score : Q
}.

(** The collaborators of [optimize]: the meta-LLM methods ([None] is a
    raised exception) and [self.asp_engine.solve], which never raises
    (theorem [solve_failure_fallback]). *)
Record Collaborators := mkCollaborators {
  analyze_task : string -> option Analysis;
  generate_component_content : string -> Analysis -> string -> option string;
  assemble_prompt : list PromptComponent -> option string;
  generate_rationale : list PromptComponent -> Analysis -> Q -> option string;
  asp_solve : list TaskType -> list BehaviorType -> string -> option string ->
              list PromptComponent * Q
}.

(** [PromptComponent] objects are shared by reference: they live in a heap
    and lists of components are lists of locations. *)
Definition loc := nat.

Definition OPTIMIZATION_CACHE_SIZE : nat := 32.

Record World := mkWorld {
  heap : list PromptComponent;
  (** the module-level dict [optimization_cache], in insertion order *)
  optimization_cache : list (string * (list loc * Q));
  (** how many times [asp_engine.solve] has been called *)
  solver_calls : nat;
  engine : Store.EngineState
}.

Definition dflt_component : PromptComponent := mkPromptComponent INSTRUCTION "" 0.

Definition read (h : list PromptComponent) (l : loc) : PromptComponent :=
  nth l h dflt_component.

Definition read_all (h : list PromptComponent) (ls : list loc) : list PromptComponent :=
  map (read h) ls.

(** Allocation of fresh objects at the end of the heap. *)
Definition alloc_all (h : list PromptComponent) (cs : list PromptComponent)
    : list PromptComponent * list loc :=
  ((h ++ cs)%list, seq (List.length h) (List.length cs)).

Fixpoint set_content (h : list PromptComponent) (l : loc) (c : string)
    : list PromptComponent :=
  match h, l with
  | [], _ => []
  | x :: h', 0 => mkPromptComponent (ptype x) c (position x) :: h'
  | x :: h', S l' => x :: set_content h' l' c
  end.

(** A small state and exception monad: the world changes made before an
    exception are kept, as they are in Python. *)
Definition M (A : Type) : Type := World -> World * option A.

Definition ret {A : Type} (x : A) : M A := fun w => (w, Some x).

Definition bind {A B : Type} (m : M A) (k : A -> M B) : M B :=
  fun w => match m w with
           | (w', Some x) => k x w'
           | (w', None) => (w', None)
           end.

Definition lift {A : Type} (o : option A) : M A :=
  fun w => (w, o).

Definition get : M World := fun w => (w, Some w).

Definition put (w : World) : M unit := fun _ => (w, Some tt).

Notation "x <- m ;; k" := (bind m (fun x => k))
  (at level 61, m at next level, right associativity).

(** [sorted(...)] on strings (code point order) as an insertion sort. *)
Fixpoint insert_str (x : string) (l : list string) : list string :=
  match l with
  | [] => [x]
  | y :: l' => if String.leb x y then x :: l else y :: insert_str x l'
  end.

Fixpoint sorted (l : list string) : list string :=
  match l with
  | [] => []
  | x :: l' => insert_str x (sorted l')
  end.

(** [domain or 'none']: [None] and the empty string are falsy. *)
Definition or_none (d : option string) : string :=
  match d with
  | Some s => if String.eqb s "" then "none" else s
  | None => "none"
  end.

(** [_generate_cache_key] *)
Definition generate_cache_key (target_tasks : list TaskType)
    (target_behaviors : list BehaviorType) (target_model : string)
    (domain : option string) : string :=
  let tasks_str := String.concat "," (sorted (map TaskType_value target_tasks)) in
  let behaviors_str := String.concat "," (sorted (map BehaviorType_value target_behaviors)) in
  tasks_str ++ "|" ++ behaviors_str ++ "|" ++ target_model ++ "|" ++ or_none domain.

(** [if len(cache) >= SIZE: cache.pop(next(iter(cache)))] then
    [cache[key] = value]. *)
Definition cache_put (key : string) (v : list loc * Q)
    (c : list (string * (list loc * Q))) : list (string * (list loc * Q)) :=
  let c' := if Nat.leb OPTIMIZATION_CACHE_SIZE (List.length c) then tl c else c in
  dict_set String.eqb key v c'.

(** Step 2: the cache hit copies the cached components into fresh objects;
    the miss calls the solver and caches the very list it returns. *)
Definition resolve_structure (llm : Collaborators) (cache_key : string)
    (target_tasks : list TaskType) (target_behaviors : list BehaviorType)
    (target_model : string) (domain : option string) : M (list loc * Q) :=
  fun w =>
    match assoc String.eqb cache_key (optimization_cache w) with
    | Some (cached, effectiveness_score) =>
        let copies := map (fun l => let c := read (heap w) l in
                             mkPromptComponent (ptype c) (content c) (position c)) cached in
        let '(h', ls) := alloc_all (heap w) copies in
        (mkWorld h' (optimization_cache w) (solver_calls w) (engine w),
         Some (ls, effectiveness_score))
    | None =>
        let '(cs, effectiveness_score) :=
          asp_solve llm target_tasks target_behaviors target_model domain in
        let '(h', ls) := alloc_all (heap w) cs in
        (mkWorld h' (cache_put cache_key (ls, effectiveness_score) (optimization_cache w))
                 (S (solver_calls w)) (engine w),
         Some (ls, effectiveness_score))
    end.

(** Step 3: [component.content = generate_component_content(...)], in place. *)
Fixpoint fill_contents (llm : Collaborators) (task_analysis : Analysis)
    (prompt : string) (ls : list loc) : M unit :=
  match ls with
  | [] => ret tt
  | l :: ls' =>
      w <- get ;;
      c <- lift (generate_component_content llm
                   (ComponentType_value (ptype (read (heap w) l))) task_analysis prompt) ;;
      w' <- get ;;
      _ <- put (mkWorld (set_content (heap w') l c) (optimization_cache w')
                        (solver_calls w') (engine w')) ;;
      fill_contents llm task_analysis prompt ls'
  end.

(** [request.target_tasks or task_analysis["detected_tasks"]], ... *)
Definition resolved_tasks (request : OptimizationRequest) (a : Analysis) : list TaskType :=
  match target_tasks request with [] => detected_tasks a | ts => ts end.

Definition resolved_behaviors (request : OptimizationRequest) (a : Analysis)
    : list BehaviorType :=
  match target_behaviors request with [] => detected_behaviors a | bs => bs end.

Definition resolved_domain (request : OptimizationRequest) (a : Analysis) : option string :=
  match domain request with
  | Some d => if String.eqb d "" then domain_hint a else Some d
  | None => domain_hint a
  end.

(** The body of the [try] block of [optimize]. Step 6 ([_save_to_db])
    catches every exception itself and its result is unused; it changes
    nothing that is modelled here. *)
Definition optimize_body (llm : Collaborators) (request : OptimizationRequest)
    : M OptimizedPrompt :=
  task_analysis <- lift (analyze_task llm (user_prompt request)) ;;
  let tasks := resolved_tasks request task_analysis in
  let behaviors := resolved_behaviors request task_analysis in
  let dom := resolved_domain request task_analysis in
  let cache_key := generate_cache_key tasks behaviors (target_model request) dom in
  r <- resolve_structure llm cache_key tasks behaviors (target_model request) dom ;;
  let '(ls, effectiveness_score) := r in
  _ <- fill_contents llm task_analysis (user_prompt request) ls ;;
  w <- get ;;
  full <- lift (assemble_prompt llm (read_all (heap w) ls)) ;;
  rat <- lift (generate_rationale llm (read_all (heap w) ls) task_analysis
                 effectiveness_score) ;;
  ret (mkOptimizedPrompt (read_all (heap w) ls) full rat effectiveness_score).

(** The [except] branch of [optimize]. *)
Definition fallback_prompt (prompt : string) : OptimizedPrompt :=
  let fallback_component :=
    mkPromptComponent INSTRUCTION ("Please respond to the following query: " ++ prompt) 1 in
  mkOptimizedPrompt [fallback_component] (content fallback_component)
    "Fallback optimization due to error in processing." 50.

(** [PromptOptimizer.optimize] *)
Definition optimize (llm : Collaborators) (request : OptimizationRequest) (w : World)
    : World * OptimizedPrompt :=
  match optimize_body llm request w with
  | (w', Some p) => (w', p)
  | (w', None) => (w', fallback_prompt (user_prompt request))
  end.

(** [PromptOptimizer.provide_feedback] *)
Definition provide_feedback (storage_ok : bool) (component_type : ComponentType)
    (task_or_behavior : TaskOrBehavior) (effectiveness : Q) (w : World)
    : World * bool :=
  match Store.update_efficacy storage_ok component_type task_or_behavior
          effectiveness (engine w) with
  | (e', Some _) => (mkWorld (heap w) [] (solver_calls w) e', true)
  | (e', None) => (mkWorld (heap w) (optimization_cache w) (solver_calls w) e', false)
  end.

(** Sequences of calls on the shared state. *)
Inductive Op :=
| OpOptimize (llm : Collaborators) (request : OptimizationRequest)
| OpFeedback (storage_ok : bool) (c : ComponentType) (tb : TaskOrBehavior) (v : Q).

Definition step (w : World) (op : Op) : World :=
  match op with
  | OpOptimize llm request => fst (optimize llm request w)
  | OpFeedback ok c tb v => fst (provide_feedback ok c tb v w)
  end.

Definition run (ops : list Op) (w : World) : World := fold_left step ops w.

(** The contents of the component objects cached under [key]. *)
Definition cached_contents (w : World) (key : string) : option (list string) :=
  match assoc String.eqb key (optimization_cache w) with
  | Some (ls, _) => Some (map (fun l => content (read (heap w) l)) ls)
  | None => None
  end.

Definition typepos (c : PromptComponent) : ComponentType * nat := (ptype c, position c).

Definition structure (h : list PromptComponent) (ls : list loc)
    : list (ComponentType * nat) :=
  map (fun l => typepos (read h l)) ls.

(** Every cached location points into the heap. *)
Definition cache_wf (w : World) : Prop :=
  Forall (fun e => Forall (fun l => l < List.length (heap w)) (fst (snd e)))
         (optimization_cache w).

End Optimizer.

(** ** Concrete calls *)
Module Scenarios.
Import Optimizer.

Definition empty_world : World :=
  mkWorld [] [] 0 (Store.mkEngineState default_tables [] []).

(** A meta-LLM that answers every call, over the solver's fallback path. *)
Definition echo_llm : Collaborators :=
  mkCollaborators
    (fun _ => Some (mkAnalysis [DEDUCTION] [PRECISION] None))
    (fun ty _ _ => Some ("generated " ++ ty))
    (fun _ => Some "assembled")
    (fun _ _ _ => Some "rationale")
    (fun ts bs m d => ASP.solve ASP.ClingoRaises ts bs (Some m) d).

(** The same, with an analyzer that raises. *)
Definition failing_analyzer : Collaborators :=
  mkCollaborators
    (fun _ => None)
    (generate_component_content echo_llm)
    (assemble_prompt echo_llm)
    (generate_rationale echo_llm)
    (asp_solve echo_llm).

Definition request_q : OptimizationRequest :=
  mkOptimizationRequest "q" [DEDUCTION] [PRECISION] "gpt-4" None.

Definition key_q : string := "deduction|precision|gpt-4|none".

(** Two requests naming the same tasks in different orders. *)
Definition request_cd : OptimizationRequest :=
  mkOptimizationRequest "compare" [COMPARISON; DEDUCTION] [] "gpt-4" None.

Definition request_dc : OptimizationRequest :=
  mkOptimizationRequest "compare again" [DEDUCTION; COMPARISON] [] "gpt-4" None.

(** The request [request_q] with the domain spelled "none". *)
Definition request_q_none : OptimizationRequest :=
  mkOptimizationRequest "q" [DEDUCTION] [PRECISION] "gpt-4" (Some "none").

(** A world whose result cache holds one entry. *)
Definition cached_world : World :=
  mkWorld [] [(key_q, ([], 100%Q))] 0 (Store.mkEngineState default_tables [] []).

End Scenarios.

(** ** Python's [sorted(components, key=lambda x: x.position)] *)
Module PySort.

(** [x] comes before every element of [l] in the input, so on equal
    positions it stays in front: Python's sort is stable. *)
Fixpoint insert (x : PromptComponent) (l : list PromptComponent) : list PromptComponent :=
  match l with
  | [] => [x]
  | y :: l' => if Nat.leb (position x) (position y) then x :: l else y :: insert x l'
  end.

Fixpoint sorted_by_position (l : list PromptComponent) : list PromptComponent :=
  match l with
  | [] => []
  | x :: l' => insert x (sorted_by_position l')
  end.

(** The order of the sort key, and the components one key value selects. *)
Definition pos_le (a b : PromptComponent) : Prop := position a <= position b.

Definition at_pos (p : nat) (c : PromptComponent) : bool := Nat.eqb (position c) p.

End PySort.

(** ["\n"] *)
Definition nl : string := String (ascii_of_nat 10) EmptyString.

(** [TaskType(s)], [BehaviorType(s)], [ComponentType(s)]: the member whose
    value is [s]; [None] is the [ValueError] raised otherwise. *)
Definition ComponentType_of_value (s : string) : option ComponentType :=
  find (fun c => String.eqb (ComponentType_value c) s)
       [INSTRUCTION; CONTEXT; EXAMPLE; CONSTRAINT; OUTPUT_FORMAT].

Definition TaskType_of_value (s : string) : option TaskType :=
  find (fun t => String.eqb (TaskType_value t) s)
       [DEDUCTION; INDUCTION; ABDUCTION; COMPARISON; COUNTERFACTUAL].

Definition BehaviorType_of_value (s : string) : option BehaviorType :=
  find (fun b => String.eqb (BehaviorType_value b) s)
       [PRECISION; CREATIVITY; STEP_BY_STEP; CONCISENESS; ERROR_CHECKING].

(** A list comprehension whose element conversion may raise: the first
    failure aborts it. *)
Fixpoint map_option {A B : Type} (f : A -> option B) (l : list A) : option (list B) :=
  match l with
  | [] => Some []
  | x :: l' =>
      match f x with
      | None => None
      | Some y => match map_option f l' with
                  | None => None
                  | Some ys => Some (y :: ys)
                  end
      end
  end.

(** ** The meta-LLM ([app/services/meta_llm.py]) *)
Module MetaLLM.
Import Optimizer.

(** A JSON value as [json.loads] returns it: [None], a bool, a finite
    number, a string, a list, or a dict given by its members in the
    order of the text. *)
#[warnings="-register-all"]
Inductive Json :=
| JNull
| JBool (b : bool)
| JNumber (q : Q)
| JString (s : string)
| JArray (items : list Json)
| JObject (members : list (string * Json)).

(** [d.get(k)] on the dict of an object: a later member with the same
    name overrides an earlier one. *)
Definition obj_get (members : list (string * Json)) (k : string) : option Json :=
  assoc String.eqb k (rev members).

(** [d.get(k, [])] *)
Definition get_or_empty (members : list (string * Json)) (k : string) : Json :=
  match obj_get members k with
  | Some v => v
  | None => JArray []
  end.

(** The keys of a dict, each once, in the order of their first member. *)
Fixpoint dict_keys (names : list string) : list string :=
  match names with
  | [] => []
  | k :: names' => k :: filter (fun k' => negb (String.eqb k k')) (dict_keys names')
  end.

(** [for x in v] in a list comprehension: a list yields its items, a
    string its characters and a dict its keys; [None] is the [TypeError]
    of [None], a bool or a number, which are not iterable. *)
Definition py_iter (v : Json) : option (list Json) :=
  match v with
  | JArray items => Some items
  | JString s => Some (map (fun a => JString (String a EmptyString)) (list_ascii_of_string s))
  | JObject members => Some (map JString (dict_keys (map fst members)))
  | JNull | JBool _ | JNumber _ => None
  end.

(** [TaskType(x)] and [BehaviorType(x)]: only a string equal to a value
    converts; any other value raises [ValueError]. *)
Definition enum_of_json {A : Type} (parse : string -> option A) (v : Json) : option A :=
  match v with
  | JString s => parse s
  | _ => None
  end.

(** Python truthiness of a JSON value. *)
Definition json_truthy (v : Json) : bool :=
  match v with
  | JNull => false
  | JBool b => b
  | JNumber q => negb (Qeq_bool q 0)
  | JString s => negb (String.eqb s "")
  | JArray items => match items with [] => false | _ => true end
  | JObject members => match members with [] => false | _ => true end
  end.

(** [analysis.get("domain")] as the optimizer uses it: only through
    [domain or 'none'] formatted into the cache key and through
    [solve], where a falsy domain adds no fact. A falsy value is [None];
    a string is itself; any other value is represented by its [str()],
    [py_str] (the value is no key of [domain_adjustments], and [solve]
    falls back whatever its domain: see [Engine.solve]). *)
Definition domain_hint_of (py_str : Json -> string) (v : option Json) : option string :=
  match v with
  | None => None
  | Some j =>
      if json_truthy j then Some (match j with JString s => s | _ => py_str j end)
      else None
  end.

(** What the chat completion of [analyze_task] yields: the call raises
    [OpenAIError]; [response.choices] is empty ([IndexError]); the
    message content is [None] ([json.loads(None)] raises [TypeError]);
    the text is no JSON ([JSONDecodeError], a [ValueError]); or the text
    is the JSON value [v]. *)
Inductive AnalysisReply :=
| ReplyApiError
| ReplyNoChoices
| ReplyNoContent
| ReplyNotJson
| ReplyJson (v : Json).

(** The dict returned in mock mode and in the [except] branch. *)
Definition mock_analysis : Analysis :=
  mkAnalysis [DEDUCTION] [PRECISION; STEP_BY_STEP] None.

(** [MetaLLMAnalyzer.analyze_task]; [None] is an exception that escapes
    (only [OpenAIError], [JSONDecodeError] and [ValueError] are caught).
    A value that is no object has no [get] ([AttributeError]). *)
Definition analyze_task (py_str : Json -> string) (use_mock : bool) (reply : AnalysisReply)
    : option Analysis :=
  if use_mock then Some mock_analysis else
  match reply with
  | ReplyApiError | ReplyNotJson => Some mock_analysis
  | ReplyNoChoices | ReplyNoContent => None
  | ReplyJson (JObject analysis) =>
      match py_iter (get_or_empty analysis "reasoning_tasks") with
      | None => None
      | Some tasks =>
          match map_option (enum_of_json TaskType_of_value) tasks with
          | None => Some mock_analysis
          | Some detected_tasks =>
              match py_iter (get_or_empty analysis "output_behaviors") with
              | None => None
              | Some behaviors =>
                  match map_option (enum_of_json BehaviorType_of_value) behaviors with
                  | None => Some mock_analysis
                  | Some detected_behaviors =>
                      Some (mkAnalysis
                              (match detected_tasks with [] => [DEDUCTION] | _ => detected_tasks end)
                              (match detected_behaviors with
                               | [] => [PRECISION] | _ => detected_behaviors end)
                              (domain_hint_of py_str (obj_get analysis "domain")))
                  end
              end
          end
      end
  | ReplyJson _ => None
  end.

(** [MetaLLMAnalyzer.generate_component_content]. [reply] is the message
    content of the chat completion, [None] when the call raises
    [OpenAIError]. [str_upper] is [str.upper] on the ASCII enum values the
    optimizer passes. *)
Definition generate_component_content (use_mock : bool) (reply : option string)
    (component_type : string) (original_prompt : string) : string :=
  if use_mock then
    if String.eqb component_type "instruction" then
      "Follow these instructions carefully to answer the query: " ++ original_prompt
    else if String.eqb component_type "context" then
      "Consider all relevant information and constraints before responding."
    else if String.eqb component_type "example" then
      "Here's an example of a good response: [Example response that demonstrates desired qualities]"
    else if String.eqb component_type "constraint" then
      "Important: Your response must be factual, precise, and include step-by-step reasoning."
    else if String.eqb component_type "output_format" then
      "Format your response as follows: 1) Initial analysis, 2) Step-by-step reasoning, 3) Final answer"
    else "[Content for this component type]"
  else
    match reply with
    | Some text => text
    | None => "[" ++ str_upper component_type ++ " CONTENT FOR: " ++ original_prompt ++ "]"
    end.

(** [MetaLLMAnalyzer.generate_rationale]; [fmt2] is the format spec [:.2f]. *)
Definition generate_rationale (fmt2 : Q -> string) (use_mock : bool) (reply : option string)
    (components : list PromptComponent) (effectiveness_score : Q) : string :=
  let ordered_types := map (fun c => ComponentType_value (ptype c)) components in
  if use_mock then
    "This prompt structure (ordering: " ++ String.concat ", " ordered_types ++
    ") was chosen because it optimizes for the detected reasoning tasks and desired behaviors. The effectiveness score is "
    ++ fmt2 effectiveness_score ++ "."
  else
    match reply with
    | Some text => text
    | None =>
        "This prompt structure (ordering: " ++ String.concat ", " ordered_types ++
        ") was chosen to optimize for the detected reasoning tasks and behaviors. Effectiveness score: "
        ++ fmt2 effectiveness_score ++ "."
    end.

(** [MetaLLMAnalyzer.assemble_prompt] *)
Definition assemble_prompt (components : list PromptComponent) : string :=
  String.concat (nl ++ nl) (map content (PySort.sorted_by_position components)).

(** A [PromptOptimizer] whose [meta_llm] is a [MetaLLMAnalyzer] in the
    given mode and whose [asp_engine.solve] sees the given clingo outcome.
    The model's answers are fixed per prompt (analysis), per component
    type and prompt (contents), and per call (rationale). *)
Definition collaborators (fmt2 : Q -> string) (py_str : Json -> string) (use_mock : bool)
    (analysis_reply : string -> AnalysisReply)
    (content_reply : string -> string -> option string)
    (rationale_reply : option string) (outcome : ASP.ClingoOutcome) : Collaborators :=
  mkCollaborators
    (fun p => analyze_task py_str use_mock (analysis_reply p))
    (fun ty _ p => Some (generate_component_content use_mock (content_reply ty p) ty p))
    (fun cs => Some (assemble_prompt cs))
    (fun cs _ s => Some (generate_rationale fmt2 use_mock rationale_reply cs s))
    (fun ts bs m d => ASP.solve outcome ts bs (Some m) d).

End MetaLLM.

(** ** The ASP facts ([ASPEngine.generate_asp_facts]) *)
Module AspFacts.

(** [str(n)] for an int. *)
Fixpoint digits (fuel n : nat) (acc : string) : string :=
  match fuel with
  | 0 => acc
  | S fuel' =>
      let acc' := String (ascii_of_nat (48 + Nat.modulo n 10)) acc in
      if Nat.ltb n 10 then acc' else digits fuel' (Nat.div n 10) acc'
  end.

Definition str_of_nat (n : nat) : string := digits (S n) n EmptyString.

Definition TaskOrBehavior_value (x : TaskOrBehavior) : string :=
  match x with
  | Task t => TaskType_value t
  | Behavior b => BehaviorType_value b
  end.

(** The member names of the enums. *)
Definition TaskType_name (t : TaskType) : string :=
  match t with
  | DEDUCTION => "DEDUCTION"
  | INDUCTION => "INDUCTION"
  | ABDUCTION => "ABDUCTION"
  | COMPARISON => "COMPARISON"
  | COUNTERFACTUAL => "COUNTERFACTUAL"
  end.

Definition BehaviorType_name (b : BehaviorType) : string :=
  match b with
  | PRECISION => "PRECISION"
  | CREATIVITY => "CREATIVITY"
  | STEP_BY_STEP => "STEP_BY_STEP"
  | CONCISENESS => "CONCISENESS"
  | ERROR_CHECKING => "ERROR_CHECKING"
  end.

(** [f"{key}"] in the weight loop. [TaskType] and [BehaviorType] mix in
    [str], so [isinstance(key, str)] holds for every key and the first
    branch is taken; since Python 3.11 [format()] of such a member is its
    [str()], the class and member name ([TaskType.DEDUCTION]). *)
Definition WeightKey_str (k : WeightKey) : string :=
  match k with
  | WPosition => "position"
  | WTask t => "TaskType." ++ TaskType_name t
  | WBehavior b => "BehaviorType." ++ BehaviorType_name b
  end.

Section WithRepr.
(** [str(x)] of a float, as the f-strings print it. *)
Variable float_repr : Q -> string.

(** The model or domain block: [if name and name in table: ...]. *)
Definition adjustment_facts (name : option string)
    (table : list (string * list ((ComponentType * BehaviorType) * Q)))
    (head body : string) : list string :=
  match name with
  | None => []
  | Some n =>
      if String.eqb n "" then [] else
      match assoc String.eqb n table with
      | None => []
      | Some adj =>
          (head ++ "(" ++ n ++ ")") ::
          map (fun e => body ++ "(" ++ n ++ ", " ++ ComponentType_value (fst (fst e)) ++ ", "
                        ++ BehaviorType_value (snd (fst e)) ++ ", " ++ float_repr (snd e) ++ ")")
              adj
      end
  end.

(** The list [facts] built by [generate_asp_facts]. *)
Definition facts (T : EngineTables) (tasks_tuple : list TaskType)
    (behaviors_tuple : list BehaviorType) (target_model domain : option string)
    : list string :=
  List.concat
    [map (fun t => "target_task(" ++ TaskType_value t ++ ")") tasks_tuple;
     map (fun b => "target_behavior(" ++ BehaviorType_value b ++ ")") behaviors_tuple;
     map (fun e => "component_efficacy(" ++ ComponentType_value (fst (fst e)) ++ ", "
                   ++ TaskOrBehavior_value (snd (fst e)) ++ ", " ++ float_repr (snd e) ++ ")")
         (component_efficacy T);
     map (fun e => "position_effect(" ++ ComponentType_value (fst (fst e)) ++ ", "
                   ++ str_of_nat (snd (fst e)) ++ ", " ++ float_repr (snd e) ++ ")")
         (position_effects T);
     map (fun e => "weight(" ++ WeightKey_str (fst e) ++ ", " ++ float_repr (snd e) ++ ")")
         (weights T);
     adjustment_facts target_model (model_adjustments T) "target_model" "model_specific_efficacy";
     adjustment_facts domain (domain_adjustments T) "target_domain" "domain_efficacy"].

(** [return "\n".join(facts)] *)
Definition generate_asp_facts (T : EngineTables) (tasks_tuple : list TaskType)
    (behaviors_tuple : list BehaviorType) (target_model domain : option string) : string :=
  String.concat nl (facts T tasks_tuple behaviors_tuple target_model domain).

End WithRepr.
End AspFacts.

(** ** [ASPEngine.solve] up to the clingo call ([app/core/asp_engine.py]) *)

Module Engine.

(** [self.base_program], verbatim. *)
Definition base_program : string := "
            % Define prompt components
            component(instruction).
            component(context).
            component(example).
            component(constraint).
            component(output_format).
            
            % Define tasks
            task(deduction).
            task(induction).
            task(abduction).
            task(comparison).
            task(counterfactual).
            
            % Define behaviors
            behavior(precision).
            behavior(creativity).
            behavior(step_by_step).
            behavior(conciseness).
            behavior(error_checking).
            
            % Each component must be assigned exactly one position (1-5)
            1 { prompt_position(C, P) : P = 1..5 } 1 :- component(C).
            
            % No two components can share the same position
            :- prompt_position(C1, P), prompt_position(C2, P), C1 != C2.
            
            % An example requires an instruction
            :- prompt_position(example, _), not prompt_position(instruction, _).
            
            % A constraint requires an instruction
            :- prompt_position(constraint, _), not prompt_position(instruction, _).
            
            % Preference for instruction at the beginning
            instruction_first :- prompt_position(instruction, 1).
            
            % Preference for examples after instructions
            example_after_instruction :- 
                prompt_position(instruction, P1), 
                prompt_position(example, P2), 
                P1 < P2.
            
            % Calculate a simple effectiveness score (without complex aggregates)
            % We'll add constant values for demonstration
            effectiveness(100) :- instruction_first, example_after_instruction.
            effectiveness(80) :- instruction_first, not example_after_instruction.
            effectiveness(60) :- not instruction_first, example_after_instruction.
            effectiveness(40) :- not instruction_first, not example_after_instruction.
            
            % Optimize for highest effectiveness
            #maximize { S : effectiveness(S) }.
            
            % Show results
            #show prompt_position/2.
            #show effectiveness/1.
        ".

Definition newline_char : ascii := ascii_of_nat 10.
Definition percent_char : ascii := ascii_of_nat 37.
Definition star_char : ascii := ascii_of_nat 42.
Definition period_char : ascii := ascii_of_nat 46.

Definition is_blank (a : ascii) : bool :=
  Ascii.eqb a (ascii_of_nat 32) || Ascii.eqb a (ascii_of_nat 9) || Ascii.eqb a (ascii_of_nat 13).

(** What the gringo parser needs to know of the text read so far: whether
    the previous character was a ['%'], whether a block comment (["%*"])
    has been opened anywhere, whether the current line holds a ['%'], and
    the last character of the current line that is not white space. *)
Record ScanState := mkScan {
  after_percent : bool;
  block_comment : bool;
  line_percent : bool;
  last_char : option ascii }.

Definition scan_char (st : ScanState) (a : ascii) : ScanState :=
  if Ascii.eqb a newline_char then mkScan false (block_comment st) false None
  else if Ascii.eqb a percent_char then mkScan true (block_comment st) true (last_char st)
  else mkScan false (block_comment st || (after_percent st && Ascii.eqb a star_char))
              (line_percent st) (if is_blank a then last_char st else Some a).

Definition scan_init : ScanState := mkScan false false false None.

Definition scan (s : string) : ScanState :=
  fold_left scan_char (list_ascii_of_string s) scan_init.

(** A sufficient condition for [control.add("base", [], program)] to raise
    a [RuntimeError]: without block comments, line comments end at the line
    break, so when the last line has no ['%'] its last non-blank character
    is the last token of the text; if that token is not ['.'] the final
    statement is not terminated and the text does not parse. *)
Definition add_raises (program : string) : bool :=
  let st := scan program in
  negb (block_comment st) && negb (line_percent st) &&
  match last_char st with
  | Some a => negb (Ascii.eqb a period_char)
  | None => false
  end.

(** [solve]: [generate_asp_facts], [full_program = f"{self.base_program}\n{facts}"],
    then [control.add]; when it raises, the [except] branch returns
    [_fallback_solve(...)]; otherwise the outcome of the grounding and
    solving is [outcome], read as in [ASP.solve]. *)
Definition solve (float_repr : Q -> string) (T : EngineTables) (outcome : ASP.ClingoOutcome)
    (target_tasks : list TaskType) (target_behaviors : list BehaviorType)
    (target_model domain : option string) : list PromptComponent * Q :=
  let facts := AspFacts.generate_asp_facts float_repr T target_tasks target_behaviors
                 target_model domain in
  let full_program := base_program ++ nl ++ facts in
  if add_raises full_program
  then ASP.solve ASP.ClingoRaises target_tasks target_behaviors target_model domain
  else ASP.solve outcome target_tasks target_behaviors target_model domain.

(** A text with no ['%'] in it. *)
Definition no_percent (s : string) : bool :=
  forallb (fun a => negb (Ascii.eqb a percent_char)) (list_ascii_of_string s).

End Engine.

(** ** Loading the efficacy tables ([ASPEngine.load_efficacy_from_db]) *)
Module Loader.

(** A row of [PositionEffectDB] (id omitted). *)
Record PositionEffectDB := mkPositionEffectDB {
  pe_component_type : string;
  pe_position : nat;
  effect_value : Q
}.

(** A row of [ModelEfficacyDB] with the [name] of its related [ModelDB]
    row; [None] when there is no related row ([model_efficacy.model] is
    [None] and [.name] raises). *)
Record ModelEfficacyDB := mkModelEfficacyDB {
  me_model_name : option string;
  me_component_type : string;
  me_behavior_type : option string;
  me_efficacy_value : Q
}.

(** A row of [DomainEfficacyDB]. *)
Record DomainEfficacyDB := mkDomainEfficacyDB {
  de_domain : string;
  de_component_type : string;
  de_behavior_type : option string;
  de_efficacy_value : Q
}.

(** The results of the four [db.query(...).all()] calls. *)
Record DBTables := mkDBTables {
  component_efficacy_rows : list Store.ComponentEfficacyDB;
  position_effect_rows : list PositionEffectDB;
  model_efficacy_rows : list ModelEfficacyDB;
  domain_efficacy_rows : list DomainEfficacyDB
}.

(** A [for] loop over query results whose body may raise: the rows
    before the failing one stay applied, and [false] reports the raise. *)
Fixpoint for_rows {S R : Type} (body : S -> R -> S * bool) (s : S) (rows : list R)
    : S * bool :=
  match rows with
  | [] => (s, true)
  | r :: rows' =>
      let '(s', ok) := body s r in
      if ok then for_rows body s' rows' else (s', false)
  end.

(** [db.query(Table).all()] converts the [Enum] columns of every row
    while it fetches, and raises [LookupError] for a stored text that is
    no member, so that a loop over the result runs no row at all. *)
Definition enum_ok {A : Type} (parse : string -> option A) (s : string) : bool :=
  match parse s with
  | Some _ => true
  | None => false
  end.

Definition opt_enum_ok {A : Type} (parse : string -> option A) (o : option string) : bool :=
  match o with
  | Some s => enum_ok parse s
  | None => true
  end.

Definition efficacy_row_fetchable (r : Store.ComponentEfficacyDB) : bool :=
  enum_ok ComponentType_of_value (Store.db_component_type r) &&
  opt_enum_ok TaskType_of_value (Store.db_task_type r) &&
  opt_enum_ok BehaviorType_of_value (Store.db_behavior_type r).

Definition position_row_fetchable (r : PositionEffectDB) : bool :=
  enum_ok ComponentType_of_value (pe_component_type r).

Definition model_row_fetchable (r : ModelEfficacyDB) : bool :=
  enum_ok ComponentType_of_value (me_component_type r) &&
  opt_enum_ok BehaviorType_of_value (me_behavior_type r).

Definition domain_row_fetchable (r : DomainEfficacyDB) : bool :=
  enum_ok ComponentType_of_value (de_component_type r) &&
  opt_enum_ok BehaviorType_of_value (de_behavior_type r).

(** [for row in db.query(Table).all(): body] *)
Definition query_loop {S R : Type} (fetchable : R -> bool) (body : S -> R -> S * bool)
    (s : S) (rows : list R) : S * bool :=
  if forallb fetchable rows then for_rows body s rows else (s, false).

(** Truthiness of a nullable string column. *)
Definition truthy (o : option string) : bool :=
  match o with
  | Some s => negb (String.eqb s "")
  | None => false
  end.

(** [TaskType(x)] and the like on a nullable column ([None] raises). *)
Definition parse_opt {A : Type} (parse : string -> option A) (o : option string) : option A :=
  match o with
  | Some s => parse s
  | None => None
  end.

Definition adj_key_eqb (x y : ComponentType * BehaviorType) : bool :=
  ComponentType_eqb (fst x) (fst y) && BehaviorType_eqb (snd x) (snd y).

Definition load_efficacy_row (ce : list ((ComponentType * TaskOrBehavior) * Q))
    (r : Store.ComponentEfficacyDB) : list ((ComponentType * TaskOrBehavior) * Q) * bool :=
  if truthy (Store.db_task_type r) then
    match ComponentType_of_value (Store.db_component_type r),
          parse_opt TaskType_of_value (Store.db_task_type r) with
    | Some c, Some t => (dict_set efficacy_key_eqb (c, Task t) (Store.efficacy_value r) ce, true)
    | _, _ => (ce, false)
    end
  else if truthy (Store.db_behavior_type r) then
    match ComponentType_of_value (Store.db_component_type r),
          parse_opt BehaviorType_of_value (Store.db_behavior_type r) with
    | Some c, Some b => (dict_set efficacy_key_eqb (c, Behavior b) (Store.efficacy_value r) ce, true)
    | _, _ => (ce, false)
    end
  else (ce, true).

Definition load_position_row (pe : list ((ComponentType * nat) * Q)) (r : PositionEffectDB)
    : list ((ComponentType * nat) * Q) * bool :=
  match ComponentType_of_value (pe_component_type r) with
  | Some c => (dict_set position_key_eqb (c, pe_position r) (effect_value r) pe, true)
  | None => (pe, false)
  end.

(** [if name not in table: table[name] = {}] and then
    [table[name][(component, behavior)] = value]; the empty dict is
    created before the enum conversions, which may raise. *)
Definition load_adjustment (table : list (string * list ((ComponentType * BehaviorType) * Q)))
    (name : string) (component_type : string) (behavior_type : option string) (v : Q)
    : list (string * list ((ComponentType * BehaviorType) * Q)) * bool :=
  let table1 := match assoc String.eqb name table with
                | Some _ => table
                | None => dict_set String.eqb name [] table
                end in
  match ComponentType_of_value component_type, parse_opt BehaviorType_of_value behavior_type with
  | Some c, Some b =>
      let inner := match assoc String.eqb name table1 with Some d => d | None => [] end in
      (dict_set String.eqb name (dict_set adj_key_eqb (c, b) v inner) table1, true)
  | _, _ => (table1, false)
  end.

Definition load_model_row (ma : list (string * list ((ComponentType * BehaviorType) * Q)))
    (r : ModelEfficacyDB) : list (string * list ((ComponentType * BehaviorType) * Q)) * bool :=
  match me_model_name r with
  | None => (ma, false)
  | Some model_name =>
      load_adjustment ma model_name (me_component_type r) (me_behavior_type r)
        (me_efficacy_value r)
  end.

Definition load_domain_row (da : list (string * list ((ComponentType * BehaviorType) * Q)))
    (r : DomainEfficacyDB) : list (string * list ((ComponentType * BehaviorType) * Q)) * bool :=
  load_adjustment da (de_domain r) (de_component_type r) (de_behavior_type r)
    (de_efficacy_value r).

(** [load_efficacy_from_db]: the four loops in order; [false] when one of
    them raised (the exception is re-raised after the session closes). *)
Definition load_efficacy_from_db (dbt : DBTables) (T : EngineTables) : EngineTables * bool :=
  let '(ce, ok1) := query_loop efficacy_row_fetchable load_efficacy_row (component_efficacy T)
                      (component_efficacy_rows dbt) in
  let T1 := mkEngineTables ce (position_effects T) (weights T) (model_adjustments T)
              (domain_adjustments T) in
  if negb ok1 then (T1, false) else
  let '(pe, ok2) := query_loop position_row_fetchable load_position_row (position_effects T1)
                      (position_effect_rows dbt) in
  let T2 := mkEngineTables (component_efficacy T1) pe (weights T1) (model_adjustments T1)
              (domain_adjustments T1) in
  if negb ok2 then (T2, false) else
  let '(ma, ok3) := query_loop model_row_fetchable load_model_row (model_adjustments T2)
                      (model_efficacy_rows dbt) in
  let T3 := mkEngineTables (component_efficacy T2) (position_effects T2) (weights T2) ma
              (domain_adjustments T2) in
  if negb ok3 then (T3, false) else
  let '(da, ok4) := query_loop domain_row_fetchable load_domain_row (domain_adjustments T3)
                      (domain_efficacy_rows dbt) in
  (mkEngineTables (component_efficacy T3) (position_effects T3) (weights T3)
     (model_adjustments T3) da, ok4).

(** The tables of [ASPEngine(load_from_db)]: [__init__] logs and swallows
    an exception of the load, keeping what was loaded before it. *)
Definition engine_tables (load_from_db : bool) (dbt : DBTables) : EngineTables :=
  if load_from_db then fst (load_efficacy_from_db dbt default_tables) else default_tables.

End Loader.

(** ** The HTTP endpoints ([app/api/optimizer.py]) *)
Module Api.
Import Optimizer.

(** JSON values of a request body: [json.loads] reads a number without
    fraction or exponent as an [int] and any other number as a [float];
    of a list or an object only the size matters here. *)
Inductive JVal :=
| JStr (s : string)
| JInt (z : Z)
| JFloat (q : Q)
| JBool (b : bool)
| JNull
| JContainer (size : nat).

(** Python truthiness. *)
Definition jtruthy (v : JVal) : bool :=
  match v with
  | JStr s => negb (String.eqb s "")
  | JInt z => negb (Z.eqb z 0)
  | JFloat q => negb (Qeq_bool q 0)
  | JBool b => b
  | JNull => false
  | JContainer n => negb (Nat.eqb n 0)
  end.

(** [feedback.get(k)]: [None] for a missing key. *)
Definition py_get (feedback : list (string * JVal)) (k : string) : JVal :=
  match assoc String.eqb k feedback with
  | Some v => v
  | None => JNull
  end.

Definition has_key (feedback : list (string * JVal)) (k : string) : bool :=
  match assoc String.eqb k feedback with
  | Some _ => true
  | None => false
  end.

(** [ComponentType(v)] and the like: only a string equal to a value
    converts; anything else raises [ValueError]. *)
Definition enum_of {A : Type} (parse : string -> option A) (v : JVal) : option A :=
  match v with
  | JStr s => parse s
  | _ => None
  end.

Inductive FloatResult :=
| FloatOk (q : Q)
| FloatValueError
| FloatTypeError
| FloatOverflowError.

(** Half-way between the largest double, 2^1024 - 2^971, and 2^1024:
    [float()] rounds an [int] of at least this size (ties to even) past
    the largest double and raises [OverflowError]. *)
Definition int_float_limit : Z := (2 ^ 1024 - 2 ^ 970)%Z.

(** [float(v)]; [float_of_string] is [float] on a string, [None] for a
    string it rejects. [None] and containers raise [TypeError], an [int]
    out of the double range [OverflowError]. *)
Definition py_float (float_of_string : string -> option Q) (v : JVal) : FloatResult :=
  match v with
  | JInt z => if Z.ltb (Z.abs z) int_float_limit then FloatOk (inject_Z z)
              else FloatOverflowError
  | JFloat q => FloatOk q
  | JBool b => FloatOk (if b then 1%Q else 0%Q)
  | JStr s => match float_of_string s with
              | Some q => FloatOk q
              | None => FloatValueError
              end
  | JNull | JContainer _ => FloatTypeError
  end.

(** The response: the success body, or the status of the [HTTPException]. *)
Inductive FeedbackResponse :=
| FeedbackRecorded (component_type : string) (effectiveness : Q)
| FeedbackError (status_code : nat).

(** [POST /api/v1/feedback] on the optimizer state [w]. A
    [ValueError] inside the [try] block gives 400; any other exception,
    including the [HTTPException(500)] raised there, gives 500. *)
Definition provide_feedback_endpoint (float_of_string : string -> option Q)
    (storage_ok : bool) (feedback : list (string * JVal)) (w : World)
    : World * FeedbackResponse :=
  if negb (has_key feedback "component_type" && has_key feedback "effectiveness")
  then (w, FeedbackError 400)
  else if negb (has_key feedback "task_type") && negb (has_key feedback "behavior_type")
  then (w, FeedbackError 400)
  else
    match enum_of ComponentType_of_value (py_get feedback "component_type") with
    | None => (w, FeedbackError 400)
    | Some component_type =>
        let task_or_behavior :=
          if jtruthy (py_get feedback "task_type")
          then option_map Task (enum_of TaskType_of_value (py_get feedback "task_type"))
          else option_map Behavior
                 (enum_of BehaviorType_of_value (py_get feedback "behavior_type")) in
        match task_or_behavior with
        | None => (w, FeedbackError 400)
        | Some tb =>
            match py_float float_of_string (py_get feedback "effectiveness") with
            | FloatValueError => (w, FeedbackError 400)
            | FloatTypeError | FloatOverflowError => (w, FeedbackError 500)
            | FloatOk effectiveness =>
                let '(w', ok) := provide_feedback storage_ok component_type tb effectiveness w in
                if ok then (w', FeedbackRecorded (ComponentType_value component_type) effectiveness)
                else (w', FeedbackError 500)
            end
        end
    end.

(** A row of [OptimizedPromptDB]. *)
Record OptimizedPromptRow := mkOptimizedPromptRow {
  row_id : nat;
  row_user_prompt : string;
  row_target_model : string;
  row_effectiveness_score : Q;
  row_created_at : string
}.

Record HistoryPage := mkHistoryPage {
  total : nat;
  page_offset : nat;
  page_limit : nat;
  items : list OptimizedPromptRow
}.

(** The list view of a prompt: [s[:100] + "..." if len(s) > 100 else s]
    (one Rocq character per Python character). *)
Definition user_prompt_preview (s : string) : string :=
  if Nat.ltb 100 (String.length s) then substring 0 100 s ++ "..." else s.

(** [GET /api/v1/history]. [rows] are the table's rows in the order of
    [ORDER BY created_at DESC]; [None] is the 422 of the [Query] bounds
    [1 <= limit <= 100], which FastAPI checks before the handler runs. *)
Definition get_history (rows : list OptimizedPromptRow) (limit offset : nat)
    (model : option string) : option HistoryPage :=
  if negb (Nat.leb 1 limit && Nat.leb limit 100) then None else
  let query := match model with
               | Some m => if String.eqb m "" then rows
                           else filter (fun r => String.eqb (row_target_model r) m) rows
               | None => rows
               end in
  let prompts := firstn limit (skipn offset query) in
  Some (mkHistoryPage (List.length query) offset limit
          (map (fun p => mkOptimizedPromptRow (row_id p) (user_prompt_preview (row_user_prompt p))
                           (row_target_model p) (row_effectiveness_score p) (row_created_at p))
               prompts)).

End Api.

(** * Theorems *)

(** ** The structure solver *)

(** C2. When clingo raises, or reports no model, [solve] does not
    propagate anything: it returns the five components instruction,
    context, example, constraint, output_format at positions 1..5 (with
    their placeholder contents) and the score 100. *)
Theorem solve_failure_fallback (outcome : ASP.ClingoOutcome)
    (tasks : list TaskType) (behaviors : list BehaviorType)
    (target_model domain : option string)
    (Hfail : outcome = ASP.ClingoRaises \/ outcome = ASP.ClingoModels []) :
  ASP.solve outcome tasks behaviors target_model domain =
  ([mkPromptComponent INSTRUCTION "[INSTRUCTION CONTENT]" 1;
    mkPromptComponent CONTEXT "[CONTEXT CONTENT]" 2;
    mkPromptComponent EXAMPLE "[EXAMPLE CONTENT]" 3;
    mkPromptComponent CONSTRAINT "[CONSTRAINT CONTENT]" 4;
    mkPromptComponent OUTPUT_FORMAT "[OUTPUT_FORMAT CONTENT]" 5], 100%Q).
Proof.
  destruct Hfail as [-> | ->]; reflexivity.
Qed.

Lemma solve_failure_fallback_witness :
  ASP.solve ASP.ClingoRaises [DEDUCTION] [] (Some "gpt-4") None =
  ([mkPromptComponent INSTRUCTION "[INSTRUCTION CONTENT]" 1;
    mkPromptComponent CONTEXT "[CONTEXT CONTENT]" 2;
    mkPromptComponent EXAMPLE "[EXAMPLE CONTENT]" 3;
    mkPromptComponent CONSTRAINT "[CONSTRAINT CONTENT]" 4;
    mkPromptComponent OUTPUT_FORMAT "[OUTPUT_FORMAT CONTENT]" 5], 100%Q).
Proof.
  apply (solve_failure_fallback ASP.ClingoRaises [DEDUCTION] [] (Some "gpt-4") None).
  left. reflexivity.
Defined.

(** ** Generic facts on the dict and enum encodings *)

Lemma ComponentType_eqb_refl (c : ComponentType) : ComponentType_eqb c c = true.
Proof. destruct c; reflexivity. Qed.

Lemma TaskOrBehavior_eqb_refl (x : TaskOrBehavior) : TaskOrBehavior_eqb x x = true.
Proof.
  destruct x; simpl; unfold TaskType_eqb, BehaviorType_eqb; apply String.eqb_refl.
Qed.

Lemma efficacy_key_eqb_refl (k : ComponentType * TaskOrBehavior) :
  efficacy_key_eqb k k = true.
Proof.
  destruct k; unfold efficacy_key_eqb; simpl.
  rewrite ComponentType_eqb_refl, TaskOrBehavior_eqb_refl. reflexivity.
Qed.

Lemma dict_set_idem {K V : Type} (eqb : K -> K -> bool) (k : K) (v : V)
    (l : list (K * V)) :
  eqb k k = true -> dict_set eqb k v (dict_set eqb k v l) = dict_set eqb k v l.
Proof.
  intros Hrefl. induction l as [|[k' v'] l IH]; simpl.
  - rewrite Hrefl. reflexivity.
  - destruct (eqb k' k) eqn:E; simpl; rewrite E; [reflexivity|].
    rewrite IH. reflexivity.
Qed.

Lemma assoc_dict_set {K V : Type} (eqb : K -> K -> bool) (k : K) (v : V)
    (l : list (K * V)) :
  eqb k k = true -> assoc eqb k (dict_set eqb k v l) = Some v.
Proof.
  intros Hrefl. induction l as [|[k' v'] l IH]; simpl.
  - rewrite Hrefl. reflexivity.
  - destruct (eqb k' k) eqn:E; simpl; rewrite E; [reflexivity|exact IH].
Qed.

Lemma dict_set_length {K V : Type} (eqb : K -> K -> bool) (k : K) (v : V)
    (l : list (K * V)) :
  List.length (dict_set eqb k v l) <= S (List.length l).
Proof.
  induction l as [|[k' v'] l IH]; simpl; [lia|].
  destruct (eqb k' k); simpl; lia.
Qed.

(** ** The efficacy store *)

Lemma matches_new_row c tb v : Store.matches c tb (Store.new_row c tb v) = true.
Proof.
  destruct tb; unfold Store.matches, Store.new_row; simpl;
    rewrite !String.eqb_refl; reflexivity.
Qed.

Lemma find_app_none {A : Type} (f : A -> bool) (l : list A) (x : A) :
  find f l = None -> f x = true -> find f (l ++ [x])%list = Some x.
Proof.
  induction l as [|y l IH]; simpl; intros Hn Hx.
  - rewrite Hx. reflexivity.
  - destruct (f y); [discriminate|]. apply IH; assumption.
Qed.

Lemma update_first_app_none f g l x :
  find f l = None -> f x = true -> Store.update_first f g (l ++ [x])%list = (l ++ [g x])%list.
Proof.
  induction l as [|y l IH]; simpl; intros Hn Hx.
  - rewrite Hx. reflexivity.
  - destruct (f y); [discriminate|]. rewrite IH; auto.
Qed.

Lemma find_update_first f g l r :
  find f l = Some r -> (forall x, f (g x) = f x) ->
  exists r', find f (Store.update_first f g l) = Some r'.
Proof.
  induction l as [|y l IH]; simpl; intros Hf Hg; [discriminate|].
  destruct (f y) eqn:Ey.
  - exists (g y). simpl. rewrite Hg, Ey. reflexivity.
  - simpl. rewrite Ey. apply IH; assumption.
Qed.

Lemma update_first_idem f g l :
  (forall x, f (g x) = f x) -> (forall x, g (g x) = g x) ->
  Store.update_first f g (Store.update_first f g l) = Store.update_first f g l.
Proof.
  intros Hf Hg. induction l as [|y l IH]; simpl; auto.
  destruct (f y) eqn:Ey; simpl.
  - rewrite Hf, Ey, Hg. reflexivity.
  - rewrite Ey, IH. reflexivity.
Qed.

Lemma db_upsert_idem c tb v db :
  Store.db_upsert c tb v (Store.db_upsert c tb v db) = Store.db_upsert c tb v db.
Proof.
  unfold Store.db_upsert.
  set (g := fun r : Store.ComponentEfficacyDB =>
              Store.mkComponentEfficacyDB (Store.db_component_type r)
                (Store.db_task_type r) (Store.db_behavior_type r) v).
  assert (Hf : forall x, Store.matches c tb (g x) = Store.matches c tb x)
    by (intros x; destruct tb; reflexivity).
  assert (Hg : forall x, g (g x) = g x) by (intros x; reflexivity).
  destruct (find (Store.matches c tb) db) as [r|] eqn:E.
  - destruct (find_update_first _ g _ _ E Hf) as [r' E'].
    rewrite E'. apply update_first_idem; assumption.
  - rewrite (find_app_none _ _ _ E (matches_new_row c tb v)).
    rewrite (update_first_app_none _ _ _ _ E (matches_new_row c tb v)).
    f_equal. f_equal. destruct tb; reflexivity.
Qed.

(** C7. Two successive [update_efficacy] calls with the same arguments
    (and the same behaviour of durable storage) leave the in-memory
    efficacy map, the facts cache and the efficacy table as one call does,
    and report the same outcome. *)
Theorem update_efficacy_idempotent (storage_ok : bool) (component : ComponentType)
    (tb : TaskOrBehavior) (v : Q) (e : Store.EngineState) :
  Store.update_efficacy storage_ok component tb v
    (fst (Store.update_efficacy storage_ok component tb v e))
  = Store.update_efficacy storage_ok component tb v e.
Proof.
  unfold Store.update_efficacy.
  destruct storage_ok; simpl;
    rewrite (dict_set_idem _ _ _ _ (efficacy_key_eqb_refl (component, tb))).
  - rewrite db_upsert_idem. reflexivity.
  - reflexivity.
Qed.

(** C10. Whenever [provide_feedback] reports [false] (durable storage
    failed inside [update_efficacy]), the in-memory efficacy map already
    holds the new value for the key and the facts cache is already empty:
    only the efficacy table was rolled back. *)
Theorem provide_feedback_false_not_rolled_back (storage_ok : bool)
    (component : ComponentType) (tb : TaskOrBehavior) (v : Q) (w : Optimizer.World)
    (Hfalse : snd (Optimizer.provide_feedback storage_ok component tb v w) = false) :
  let w' := fst (Optimizer.provide_feedback storage_ok component tb v w) in
  storage_ok = false /\
  assoc efficacy_key_eqb (component, tb)
    (component_efficacy (Store.tables (Optimizer.engine w'))) = Some v /\
  Store.facts_cache (Optimizer.engine w') = [] /\
  Store.db (Optimizer.engine w') = Store.db (Optimizer.engine w).
Proof.
  unfold Optimizer.provide_feedback, Store.update_efficacy in *.
  destruct storage_ok; simpl in *; [discriminate|].
  repeat split; auto.
  apply assoc_dict_set, efficacy_key_eqb_refl.
Qed.

Lemma provide_feedback_false_not_rolled_back_witness :
  snd (Optimizer.provide_feedback false INSTRUCTION (Behavior PRECISION) (95 # 100)
         Scenarios.empty_world) = false /\
  (let w' := fst (Optimizer.provide_feedback false INSTRUCTION (Behavior PRECISION)
                   (95 # 100) Scenarios.empty_world) in
   false = false /\
   assoc efficacy_key_eqb (INSTRUCTION, Behavior PRECISION)
     (component_efficacy (Store.tables (Optimizer.engine w'))) = Some (95 # 100) /\
   Store.facts_cache (Optimizer.engine w') = [] /\
   Store.db (Optimizer.engine w') = Store.db (Optimizer.engine Scenarios.empty_world)).
Proof.
  split; [reflexivity|].
  apply (provide_feedback_false_not_rolled_back false INSTRUCTION (Behavior PRECISION)
           (95 # 100) Scenarios.empty_world).
  reflexivity.
Defined.

(** C5 (the failing path). When durable storage fails, [provide_feedback]
    returns [false] without clearing the result cache: the key cached
    before the call is still a hit afterwards. *)
Lemma provide_feedback_failure_keeps_cache :
  let '(w', result) := Optimizer.provide_feedback false INSTRUCTION (Behavior PRECISION)
                         (95 # 100) Scenarios.cached_world in
  result = false /\
  assoc String.eqb Scenarios.key_q (Optimizer.optimization_cache w') = Some ([], 100%Q).
Proof. vm_compute. split; reflexivity. Qed.

(** ** The optimizer: failure policy and cache keys *)

(** C3 (as amended). Whenever a step of the [try] block of [optimize]
    raises (analysis, content generation, assembly or rationale; the
    structure step never raises), [optimize] returns, instead of raising,
    one [instruction] component at position 1 whose content is
    ["Please respond to the following query: " ++ user_prompt], a
    full_prompt equal to that content, the rationale
    ["Fallback optimization due to error in processing."] (which starts
    with "Fallback") and the score 50. *)
Theorem optimize_failure_fallback (llm : Optimizer.Collaborators)
    (request : Optimizer.OptimizationRequest) (w w' : Optimizer.World)
    (Hfail : Optimizer.optimize_body llm request w = (w', None)) :
  let p := snd (Optimizer.optimize llm request w) in
  fst (Optimizer.optimize llm request w) = w' /\
  Optimizer.components p =
    [mkPromptComponent INSTRUCTION
       ("Please respond to the following query: " ++ Optimizer.user_prompt request) 1] /\
  Optimizer.full_prompt p =
    "Please respond to the following query: " ++ Optimizer.user_prompt request /\
  Optimizer.rationale p = "Fallback optimization due to error in processing." /\
  String.prefix "Fallback" (Optimizer.rationale p) = true /\
  Optimizer.effectiveness_score p = 50%Q.
Proof.
  unfold Optimizer.optimize. rewrite Hfail. simpl.
  repeat split; reflexivity.
Qed.

Lemma optimize_failure_fallback_witness :
  Optimizer.optimize_body Scenarios.failing_analyzer Scenarios.request_q
    Scenarios.empty_world = (Scenarios.empty_world, None) /\
  (let p := snd (Optimizer.optimize Scenarios.failing_analyzer Scenarios.request_q
                   Scenarios.empty_world) in
   fst (Optimizer.optimize Scenarios.failing_analyzer Scenarios.request_q
          Scenarios.empty_world) = Scenarios.empty_world /\
   Optimizer.components p =
     [mkPromptComponent INSTRUCTION
        ("Please respond to the following query: " ++
         Optimizer.user_prompt Scenarios.request_q) 1] /\
   Optimizer.full_prompt p =
     "Please respond to the following query: " ++ Optimizer.user_prompt Scenarios.request_q /\
   Optimizer.rationale p = "Fallback optimization due to error in processing." /\
   String.prefix "Fallback" (Optimizer.rationale p) = true /\
   Optimizer.effectiveness_score p = 50%Q).
Proof.
  split; [reflexivity|].
  apply (optimize_failure_fallback Scenarios.failing_analyzer Scenarios.request_q
           Scenarios.empty_world Scenarios.empty_world).
  reflexivity.
Defined.

(** C3 (counterexample). With an analyzer that raises on the prompt "q",
    the single fallback component reads
    "Please respond to the following query: q", not "please respond to: q". *)
Lemma optimize_fallback_content_differs :
  map content (Optimizer.components
    (snd (Optimizer.optimize Scenarios.failing_analyzer Scenarios.request_q
            Scenarios.empty_world)))
  <> ["please respond to: q"].
Proof. vm_compute. discriminate. Qed.

(** C4 (the cache-miss path). On a miss, [optimize] caches the very
    component objects that step 3 then overwrites: after the call the
    entry cached under the key holds the generated contents returned to
    the caller, no longer the placeholders that [solve] produced. *)
Lemma miss_cached_components_overwritten :
  let '(w1, p1) := Optimizer.optimize Scenarios.echo_llm Scenarios.request_q
                     Scenarios.empty_world in
  Optimizer.cached_contents w1 Scenarios.key_q = Some (map content (Optimizer.components p1)) /\
  Optimizer.cached_contents w1 Scenarios.key_q <>
    Some (map placeholder_content [INSTRUCTION; CONTEXT; EXAMPLE; CONSTRAINT; OUTPUT_FORMAT]).
Proof. vm_compute. split; [reflexivity | discriminate]. Qed.

(** ** The optimizer: result cache *)
Module OptimizerFacts.
Import Optimizer.

Lemma set_content_typepos h l c l' :
  typepos (read (set_content h l c) l') = typepos (read h l').
Proof.
  revert l l'. induction h as [|x h IH]; intros [|l] [|l']; simpl; auto.
  unfold read in *. simpl. apply IH.
Qed.

Lemma set_content_length h l c : List.length (set_content h l c) = List.length h.
Proof.
  revert l. induction h as [|x h IH]; intros [|l]; simpl; auto.
Qed.

Lemma fill_contents_frame llm an p ls w :
  let w' := fst (fill_contents llm an p ls w) in
  optimization_cache w' = optimization_cache w /\
  solver_calls w' = solver_calls w /\
  List.length (heap w') = List.length (heap w) /\
  (forall l, typepos (read (heap w') l) = typepos (read (heap w) l)).
Proof.
  revert w. induction ls as [|l ls IH]; intros w; simpl; [auto|].
  unfold bind, get, lift, put.
  destruct (generate_component_content llm _ an p) as [c|]; simpl; [|auto].
  destruct (IH (mkWorld (set_content (heap w) l c) (optimization_cache w)
                 (solver_calls w) (engine w))) as (H1 & H2 & H3 & H4).
  simpl in *. repeat split.
  - exact H1.
  - exact H2.
  - rewrite H3. apply set_content_length.
  - intros l'. rewrite H4. apply set_content_typepos.
Qed.

Lemma resolve_structure_some llm key ts bs m d w :
  exists ls s, snd (resolve_structure llm key ts bs m d w) = Some (ls, s).
Proof.
  unfold resolve_structure.
  destruct (assoc String.eqb key (optimization_cache w)) as [[cached s]|].
  - unfold alloc_all. simpl. eauto.
  - destruct (asp_solve llm ts bs m d) as [cs s].
    unfold alloc_all. simpl. eauto.
Qed.
Lemma optimize_body_decomp llm r w an
    (Ha : analyze_task llm (user_prompt r) = Some an) :
  exists ls s,
    snd (resolve_structure llm
           (generate_cache_key (resolved_tasks r an) (resolved_behaviors r an)
              (target_model r) (resolved_domain r an))
           (resolved_tasks r an) (resolved_behaviors r an) (target_model r)
           (resolved_domain r an) w) = Some (ls, s) /\
    fst (optimize_body llm r w) =
      fst (fill_contents llm an (user_prompt r) ls
             (fst (resolve_structure llm
                     (generate_cache_key (resolved_tasks r an) (resolved_behaviors r an)
                        (target_model r) (resolved_domain r an))
                     (resolved_tasks r an) (resolved_behaviors r an) (target_model r)
                     (resolved_domain r an) w))) /\
    (forall p, snd (optimize_body llm r w) = Some p ->
       components p = read_all (heap (fst (optimize_body llm r w))) ls /\
       effectiveness_score p = s).
Proof.
  unfold optimize_body, bind, lift, get, ret. rewrite Ha.
  destruct (resolve_structure llm _ _ _ _ _ w) as [wr o] eqn:Er.
  destruct (resolve_structure_some llm
     (generate_cache_key (resolved_tasks r an) (resolved_behaviors r an)
              (target_model r) (resolved_domain r an))
     (resolved_tasks r an) (resolved_behaviors r an) (target_model r)
     (resolved_domain r an) w) as (ls & s & Hr).
  rewrite Er in Hr. simpl in Hr. subst o.
  exists ls, s. split; [reflexivity|]. simpl.
  destruct (fill_contents llm an (user_prompt r) ls wr) as [wf [[]|]] eqn:Ef; simpl;
    [|split; [reflexivity | intros ? ?; discriminate]].
  destruct (assemble_prompt llm (read_all (heap wf) ls)); simpl;
    [|split; [reflexivity | intros ? ?; discriminate]].
  destruct (generate_rationale llm (read_all (heap wf) ls) an s); simpl;
    [|split; [reflexivity | intros ? ?; discriminate]].
  split; [reflexivity|]. intros p Hp. injection Hp as <-. simpl. auto.
Qed.

Lemma read_app h cs l : l < List.length h -> read (h ++ cs)%list l = read h l.
Proof. intros Hl. unfold read. apply app_nth1. exact Hl. Qed.

Lemma read_alloc cs h :
  map (read (h ++ cs)%list) (seq (List.length h) (List.length cs)) = cs.
Proof.
  revert h. induction cs as [|c cs IH]; intros h; simpl; auto.
  unfold read at 1. rewrite app_nth2 by lia. replace (List.length h - List.length h) with 0 by lia. simpl. f_equal.
  replace (h ++ c :: cs)%list with ((h ++ [c]) ++ cs)%list by (rewrite <- app_assoc; reflexivity).
  replace (S (List.length h)) with (List.length (h ++ [c])%list)
    by (rewrite length_app; simpl; lia).
  apply IH.
Qed.

Lemma structure_alloc h cs :
  structure (h ++ cs)%list (seq (List.length h) (List.length cs)) = map typepos cs.
Proof.
  unfold structure. rewrite <- (map_map (read _) typepos), read_alloc. reflexivity.
Qed.

Lemma structure_app h cs ls :
  Forall (fun l => l < List.length h) ls ->
  structure (h ++ cs)%list ls = structure h ls.
Proof.
  intros H. unfold structure. apply map_ext_Forall.
  eapply Forall_impl; [|exact H]. intros l Hl. simpl. rewrite read_app; auto.
Qed.

Lemma Forall_lt_mono (ls : list loc) n m :
  n <= m -> Forall (fun l => l < n) ls -> Forall (fun l => l < m) ls.
Proof. intros Hnm. apply Forall_impl. intros; lia. Qed.

Lemma Forall_dict_set {K V : Type} (P : V -> Prop) eqb k v (l : list (K * V)) :
  Forall (fun e => P (snd e)) l -> P v ->
  Forall (fun e => P (snd e)) (dict_set eqb k v l).
Proof.
  intros Hl Hv. induction Hl as [|[k' v'] l Hx Hl IH]; simpl.
  - constructor; auto.
  - destruct (eqb k' k); constructor; auto.
Qed.

Lemma Forall_tl {A : Type} (P : A -> Prop) (l : list A) : Forall P l -> Forall P (tl l).
Proof. intros H. destruct H; simpl; auto. Qed.

Lemma cache_wf_grow (c : list (string * (list loc * Q))) n m :
  n <= m ->
  Forall (fun e => Forall (fun l => l < n) (fst (snd e))) c ->
  Forall (fun e => Forall (fun l => l < m) (fst (snd e))) c.
Proof.
  intros Hnm. apply Forall_impl. intros e. apply Forall_lt_mono. exact Hnm.
Qed.

Lemma resolve_hit llm key ts bs m d w cached s :
  cache_wf w ->
  assoc String.eqb key (optimization_cache w) = Some (cached, s) ->
  let '(w', o) := resolve_structure llm key ts bs m d w in
  optimization_cache w' = optimization_cache w /\
  solver_calls w' = solver_calls w /\
  exists ls, o = Some (ls, s) /\ structure (heap w') ls = structure (heap w) cached.
Proof.
  intros Hwf Hc. unfold resolve_structure. rewrite Hc. simpl.
  repeat split; auto. eexists; split; [reflexivity|].
  rewrite structure_alloc. unfold structure. rewrite map_map. reflexivity.
Qed.

Lemma resolve_cached llm key ts bs m d w w' ls s :
  cache_wf w ->
  resolve_structure llm key ts bs m d w = (w', Some (ls, s)) ->
  cache_wf w' /\
  exists cached, assoc String.eqb key (optimization_cache w') = Some (cached, s) /\
                 structure (heap w') cached = structure (heap w') ls.
Proof.
  intros Hwf Hr. unfold resolve_structure in Hr.
  destruct (assoc String.eqb key (optimization_cache w)) as [[cached s0]|] eqn:Hc.
  - injection Hr as <- <- <-. unfold cache_wf in *. simpl. split.
    + eapply cache_wf_grow; [|exact Hwf]. rewrite length_app. lia.
    + exists cached. split; [exact Hc|].
      assert (Hcw : Forall (fun l => l < List.length (heap w)) cached).
      { apply Forall_forall. intros l Hl.
        induction (optimization_cache w) as [|[k [c sc]] rest IH];
          simpl in Hc; [discriminate|].
        inversion Hwf as [|? ? Hhd Htl]; subst.
        destruct (String.eqb k key).
        - injection Hc as -> ->. simpl in Hhd. rewrite Forall_forall in Hhd. auto.
        - apply IH; auto. }
      rewrite structure_app by exact Hcw.
      rewrite structure_alloc. unfold structure. rewrite map_map. reflexivity.
  - destruct (asp_solve llm ts bs m d) as [cs s0].
    injection Hr as <- <- <-. unfold cache_wf in *. simpl. split.
    + unfold cache_put.
      apply (Forall_dict_set (fun x => Forall (fun l => l < _) (fst x))).
      * destruct (Nat.leb OPTIMIZATION_CACHE_SIZE (List.length (optimization_cache w)));
          [apply Forall_tl|]; eapply cache_wf_grow; try exact Hwf;
          rewrite length_app; lia.
      * simpl. apply Forall_forall. intros l Hl. apply in_seq in Hl.
        rewrite length_app. lia.
    + exists (seq (List.length (heap w)) (List.length cs)). split; [|reflexivity].
      unfold cache_put. apply assoc_dict_set. apply String.eqb_refl.
Qed.

Lemma string_compare_trans (s1 s2 s3 : string) :
  String.compare s1 s2 <> Gt -> String.compare s2 s3 <> Gt ->
  String.compare s1 s3 <> Gt.
Proof.
  revert s2 s3. induction s1 as [|a s1 IH]; intros [|b s2] [|c s3]; simpl;
    try congruence.
  unfold Ascii.compare.
  destruct (N.compare_spec (N_of_ascii a) (N_of_ascii b)) as [E1|L1|G1];
  destruct (N.compare_spec (N_of_ascii b) (N_of_ascii c)) as [E2|L2|G2];
    intros H1 H2; try congruence.
  - rewrite E1, E2, N.compare_refl. apply (IH s2); assumption.
  - assert (N.compare (N_of_ascii a) (N_of_ascii c) = Lt) as -> by (apply N.compare_lt_iff; lia). congruence.
  - assert (N.compare (N_of_ascii a) (N_of_ascii c) = Lt) as -> by (apply N.compare_lt_iff; lia). congruence.
  - assert (N.compare (N_of_ascii a) (N_of_ascii c) = Lt) as -> by (apply N.compare_lt_iff; lia). congruence.
Qed.

Lemma string_leb_trans (s1 s2 s3 : string) :
  String.leb s1 s2 = true -> String.leb s2 s3 = true -> String.leb s1 s3 = true.
Proof.
  unfold String.leb.
  pose proof (string_compare_trans s1 s2 s3).
  destruct (String.compare s1 s2), (String.compare s2 s3), (String.compare s1 s3);
    intuition congruence.
Qed.

Lemma insert_str_swap (x y : string) (l : list string) :
  Optimizer.insert_str x (Optimizer.insert_str y l) =
  Optimizer.insert_str y (Optimizer.insert_str x l).
Proof.
  induction l as [|z l IH]; simpl.
  - destruct (String.leb x y) eqn:Exy, (String.leb y x) eqn:Eyx; auto.
    + rewrite (String.leb_antisym _ _ Exy Eyx). reflexivity.
    + destruct (String.leb_total x y); congruence.
  - destruct (String.leb y z) eqn:Eyz, (String.leb x z) eqn:Exz; simpl;
      rewrite ?Eyz, ?Exz.
    + destruct (String.leb x y) eqn:Exy, (String.leb y x) eqn:Eyx; simpl;
        rewrite ?Exz, ?Eyz; auto.
      * rewrite (String.leb_antisym _ _ Exy Eyx). reflexivity.
      * destruct (String.leb_total x y); congruence.
    + destruct (String.leb x y) eqn:Exy; simpl; rewrite ?Exz; auto.
      rewrite (string_leb_trans _ _ _ Exy Eyz) in Exz. discriminate.
    + destruct (String.leb y x) eqn:Eyx; simpl; rewrite ?Eyz; auto.
      rewrite (string_leb_trans _ _ _ Eyx Exz) in Eyz. discriminate.
    + rewrite IH. reflexivity.
Qed.

Lemma sorted_perm (l1 l2 : list string) :
  Permutation l1 l2 -> Optimizer.sorted l1 = Optimizer.sorted l2.
Proof.
  induction 1; simpl; auto.
  - rewrite IHPermutation. reflexivity.
  - apply insert_str_swap.
  - congruence.
Qed.

Lemma cache_key_perm ts1 ts2 bs1 bs2 m d :
  Permutation ts1 ts2 -> Permutation bs1 bs2 ->
  generate_cache_key ts1 bs1 m d = generate_cache_key ts2 bs2 m d.
Proof.
  intros Ht Hb. unfold generate_cache_key.
  rewrite (sorted_perm _ _ (Permutation_map TaskType_value Ht)).
  rewrite (sorted_perm _ _ (Permutation_map BehaviorType_value Hb)).
  reflexivity.
Qed.

Lemma optimize_world llm r w : fst (optimize llm r w) = fst (optimize_body llm r w).
Proof. unfold optimize. destruct (optimize_body llm r w) as [w' [p|]]; reflexivity. Qed.

Lemma structure_read_all h ls : map typepos (read_all h ls) = structure h ls.
Proof. unfold read_all, structure. apply map_map. Qed.

Lemma structure_frame h h' ls :
  (forall l, typepos (read h' l) = typepos (read h l)) -> structure h' ls = structure h ls.
Proof. intros H. unfold structure. apply map_ext. exact H. Qed.

(** Two [optimize] calls that compute the same cache key: the second,
    made on the state the first left, does not invoke the solver, and
    when neither call falls back both return the same component types and
    positions and the same effectiveness score. *)
Lemma same_key_cached (llm1 llm2 : Collaborators)
    (r1 r2 : OptimizationRequest) (w : World) (an1 an2 : Analysis)
    (Hwf : cache_wf w)
    (Ha1 : analyze_task llm1 (user_prompt r1) = Some an1)
    (Ha2 : analyze_task llm2 (user_prompt r2) = Some an2)
    (Hkey : generate_cache_key (resolved_tasks r1 an1) (resolved_behaviors r1 an1)
              (target_model r1) (resolved_domain r1 an1) =
            generate_cache_key (resolved_tasks r2 an2) (resolved_behaviors r2 an2)
              (target_model r2) (resolved_domain r2 an2)) :
  let w1 := fst (optimize llm1 r1 w) in
  solver_calls (fst (optimize llm2 r2 w1)) = solver_calls w1 /\
  (forall p1 p2, snd (optimize_body llm1 r1 w) = Some p1 ->
     snd (optimize_body llm2 r2 w1) = Some p2 ->
     map typepos (components p1) = map typepos (components p2) /\
     effectiveness_score p1 = effectiveness_score p2).
Proof.
  intros w1.
  (* first call *)
  destruct (optimize_body_decomp llm1 r1 w an1 Ha1) as (ls1 & s1 & Hr1 & Hw1 & Hp1).
  destruct (resolve_structure llm1 _ _ _ _ _ w) as [wr1 o1] eqn:Er1.
  simpl in Hr1, Hw1. subst o1.
  destruct (resolve_cached _ _ _ _ _ _ _ _ _ _ Hwf Er1) as (Hwfr1 & cached & Hc1 & Hs1).
  destruct (fill_contents_frame llm1 an1 (user_prompt r1) ls1 wr1) as (Fc1 & Fs1 & Fl1 & Ft1).
  assert (Ew1 : w1 = fst (fill_contents llm1 an1 (user_prompt r1) ls1 wr1))
    by (unfold w1; rewrite optimize_world; exact Hw1).
  rewrite <- Ew1 in Fc1, Fs1, Fl1, Ft1.
  assert (Hwf1 : cache_wf w1) by (unfold cache_wf; rewrite Fc1, Fl1; exact Hwfr1).
  (* second call *)
  destruct (optimize_body_decomp llm2 r2 w1 an2 Ha2) as (ls2 & s2 & Hr2 & Hw2 & Hp2).
  rewrite <- Hkey in Hr2, Hw2.
  rewrite <- Fc1 in Hc1.
  pose proof (resolve_hit llm2
    (generate_cache_key (resolved_tasks r1 an1) (resolved_behaviors r1 an1)
       (target_model r1) (resolved_domain r1 an1))
    (resolved_tasks r2 an2) (resolved_behaviors r2 an2) (target_model r2)
    (resolved_domain r2 an2) w1 cached s1 Hwf1 Hc1) as Hhit.
  destruct (resolve_structure llm2 _ _ _ _ _ w1) as [wr2 o2] eqn:Er2.
  destruct Hhit as (Hc2 & Hs2 & ls2' & Ho2 & Hst2).
  simpl in Hr2, Hw2. subst o2. injection Ho2 as <- <-.
  destruct (fill_contents_frame llm2 an2 (user_prompt r2) ls2 wr2) as (Fc2 & Fs2 & Fl2 & Ft2).
  split.
  - rewrite optimize_world, Hw2, Fs2. exact Hs2.
  - intros p1 p2 Hq1 Hq2.
    destruct (Hp1 p1 Hq1) as (Hcomp1 & Hsc1).
    destruct (Hp2 p2 Hq2) as (Hcomp2 & Hsc2).
    rewrite Hsc1, Hsc2. split; [|reflexivity].
    rewrite Hcomp1, Hcomp2, !structure_read_all, Hw2.
    fold w1. rewrite <- optimize_world in Hw1. fold w1 in Hw1.
    rewrite (structure_frame _ _ _ Ft2), Hst2.
    rewrite (structure_frame _ _ cached Ft1), Hs1.
    rewrite <- optimize_world. fold w1.
    rewrite (structure_frame _ _ ls1 Ft1). reflexivity.
Qed.


(** C6. Two [optimize] calls whose resolved task lists and behavior lists
    are permutations of each other, with equal target model and resolved
    domain, compute the same cache key; the second call, made on the state
    the first left, does not invoke the solver, and when neither call falls
    back both return the same component types and positions and the same
    effectiveness score. (The first call must get past the analysis step,
    the one step before the cache is consulted; cached locations are
    assumed to point into the heap, which every call preserves.) *)
Theorem same_key_second_call_cached (llm1 llm2 : Collaborators)
    (r1 r2 : OptimizationRequest) (w : World) (an1 an2 : Analysis)
    (Hwf : cache_wf w)
    (Ha1 : analyze_task llm1 (user_prompt r1) = Some an1)
    (Ha2 : analyze_task llm2 (user_prompt r2) = Some an2)
    (Ht : Permutation (resolved_tasks r1 an1) (resolved_tasks r2 an2))
    (Hb : Permutation (resolved_behaviors r1 an1) (resolved_behaviors r2 an2))
    (Hm : target_model r1 = target_model r2)
    (Hd : resolved_domain r1 an1 = resolved_domain r2 an2) :
  let w1 := fst (optimize llm1 r1 w) in
  generate_cache_key (resolved_tasks r1 an1) (resolved_behaviors r1 an1)
    (target_model r1) (resolved_domain r1 an1) =
  generate_cache_key (resolved_tasks r2 an2) (resolved_behaviors r2 an2)
    (target_model r2) (resolved_domain r2 an2) /\
  solver_calls (fst (optimize llm2 r2 w1)) = solver_calls w1 /\
  (forall p1 p2, snd (optimize_body llm1 r1 w) = Some p1 ->
     snd (optimize_body llm2 r2 w1) = Some p2 ->
     map typepos (components p1) = map typepos (components p2) /\
     effectiveness_score p1 = effectiveness_score p2).
Proof.
  assert (Hkey : generate_cache_key (resolved_tasks r1 an1) (resolved_behaviors r1 an1)
                   (target_model r1) (resolved_domain r1 an1) =
                 generate_cache_key (resolved_tasks r2 an2) (resolved_behaviors r2 an2)
                   (target_model r2) (resolved_domain r2 an2)).
  { rewrite Hm, Hd. apply cache_key_perm; assumption. }
  split; [exact Hkey|].
  exact (same_key_cached llm1 llm2 r1 r2 w an1 an2 Hwf Ha1 Ha2 Hkey).
Qed.

(** C9. A call whose resolved domain is absent ([None]) and one whose
    resolved domain is the string "none", with the same tasks and
    behaviors (in any order) and the same target model, compute the same
    cache key ([... or 'none']): the second call, made on the state the
    first left, is served the first one's cache entry, without invoking
    the solver, with the same component types and positions and the same
    effectiveness score. *)
Theorem domain_none_literal_shares_entry (llm1 llm2 : Collaborators)
    (r1 r2 : OptimizationRequest) (w : World) (an1 an2 : Analysis)
    (Hwf : cache_wf w)
    (Ha1 : analyze_task llm1 (user_prompt r1) = Some an1)
    (Ha2 : analyze_task llm2 (user_prompt r2) = Some an2)
    (Ht : Permutation (resolved_tasks r1 an1) (resolved_tasks r2 an2))
    (Hb : Permutation (resolved_behaviors r1 an1) (resolved_behaviors r2 an2))
    (Hm : target_model r1 = target_model r2)
    (Hd : (resolved_domain r1 an1 = None /\ resolved_domain r2 an2 = Some "none") \/
          (resolved_domain r1 an1 = Some "none" /\ resolved_domain r2 an2 = None)) :
  let w1 := fst (optimize llm1 r1 w) in
  generate_cache_key (resolved_tasks r1 an1) (resolved_behaviors r1 an1)
    (target_model r1) (resolved_domain r1 an1) =
  generate_cache_key (resolved_tasks r2 an2) (resolved_behaviors r2 an2)
    (target_model r2) (resolved_domain r2 an2) /\
  solver_calls (fst (optimize llm2 r2 w1)) = solver_calls w1 /\
  (forall p1 p2, snd (optimize_body llm1 r1 w) = Some p1 ->
     snd (optimize_body llm2 r2 w1) = Some p2 ->
     map typepos (components p1) = map typepos (components p2) /\
     effectiveness_score p1 = effectiveness_score p2).
Proof.
  assert (Hkey : generate_cache_key (resolved_tasks r1 an1) (resolved_behaviors r1 an1)
                   (target_model r1) (resolved_domain r1 an1) =
                 generate_cache_key (resolved_tasks r2 an2) (resolved_behaviors r2 an2)
                   (target_model r2) (resolved_domain r2 an2)).
  { rewrite Hm, (cache_key_perm _ _ _ _ (target_model r2) (resolved_domain r1 an1) Ht Hb).
    destruct Hd as [[-> ->] | [-> ->]]; reflexivity. }
  split; [exact Hkey|].
  exact (same_key_cached llm1 llm2 r1 r2 w an1 an2 Hwf Ha1 Ha2 Hkey).
Qed.

Lemma cache_put_bounded key v c :
  List.length c <= OPTIMIZATION_CACHE_SIZE ->
  List.length (cache_put key v c) <= OPTIMIZATION_CACHE_SIZE.
Proof.
  unfold cache_put. intros Hc.
  pose proof (dict_set_length String.eqb key v
    (if Nat.leb OPTIMIZATION_CACHE_SIZE (List.length c) then tl c else c)) as Hd.
  destruct (Nat.leb OPTIMIZATION_CACHE_SIZE (List.length c)) eqn:E.
  - apply Nat.leb_le in E. destruct c as [|e c]; simpl in *; [unfold OPTIMIZATION_CACHE_SIZE in E; lia|].
    lia.
  - apply Nat.leb_gt in E. lia.
Qed.

Lemma resolve_bounded llm key ts bs m d w :
  List.length (optimization_cache w) <= OPTIMIZATION_CACHE_SIZE ->
  List.length (optimization_cache (fst (resolve_structure llm key ts bs m d w)))
    <= OPTIMIZATION_CACHE_SIZE.
Proof.
  intros Hw. unfold resolve_structure.
  destruct (assoc String.eqb key (optimization_cache w)) as [[cached s]|]; simpl; auto.
  destruct (asp_solve llm ts bs m d) as [cs s]. simpl.
  apply cache_put_bounded. exact Hw.
Qed.

Lemma optimize_bounded llm r w :
  List.length (optimization_cache w) <= OPTIMIZATION_CACHE_SIZE ->
  List.length (optimization_cache (fst (optimize llm r w))) <= OPTIMIZATION_CACHE_SIZE.
Proof.
  intros Hw. rewrite optimize_world.
  destruct (analyze_task llm (user_prompt r)) as [an|] eqn:Ha.
  - destruct (optimize_body_decomp llm r w an Ha) as (ls & s & _ & Hw1 & _).
    rewrite Hw1.
    destruct (fill_contents_frame llm an (user_prompt r) ls
                (fst (resolve_structure llm
                        (generate_cache_key (resolved_tasks r an) (resolved_behaviors r an)
                           (target_model r) (resolved_domain r an))
                        (resolved_tasks r an) (resolved_behaviors r an) (target_model r)
                        (resolved_domain r an) w))) as (Fc & _).
    rewrite Fc. apply resolve_bounded. exact Hw.
  - unfold optimize_body, bind, lift. rewrite Ha. exact Hw.
Qed.

Lemma provide_feedback_bounded ok c tb v w :
  List.length (optimization_cache w) <= OPTIMIZATION_CACHE_SIZE ->
  List.length (optimization_cache (fst (provide_feedback ok c tb v w)))
    <= OPTIMIZATION_CACHE_SIZE.
Proof.
  intros Hw. unfold provide_feedback.
  destruct (Store.update_efficacy ok c tb v (engine w)) as [e' [u|]]; simpl; auto. lia.
Qed.

(** C8. From any state whose result cache holds at most 32 entries, every
    sequence of [optimize] and [provide_feedback] calls leaves at most 32
    entries: an insertion into a full cache first pops its oldest key. *)
Theorem cache_never_exceeds_capacity (ops : list Op) (w : World)
    (Hw : List.length (optimization_cache w) <= OPTIMIZATION_CACHE_SIZE) :
  List.length (optimization_cache (run ops w)) <= OPTIMIZATION_CACHE_SIZE.
Proof.
  unfold run. revert w Hw. induction ops as [|op ops IH]; intros w Hw; simpl; auto.
  apply IH. destruct op; simpl.
  - apply optimize_bounded. exact Hw.
  - apply provide_feedback_bounded. exact Hw.
Qed.

Lemma same_key_second_call_cached_witness :
  let w1 := fst (optimize Scenarios.echo_llm Scenarios.request_cd Scenarios.empty_world) in
  generate_cache_key [COMPARISON; DEDUCTION] [PRECISION] "gpt-4" None =
  generate_cache_key [DEDUCTION; COMPARISON] [PRECISION] "gpt-4" None /\
  solver_calls (fst (optimize Scenarios.echo_llm Scenarios.request_dc w1)) = solver_calls w1 /\
  (forall p1 p2,
     snd (optimize_body Scenarios.echo_llm Scenarios.request_cd Scenarios.empty_world) = Some p1 ->
     snd (optimize_body Scenarios.echo_llm Scenarios.request_dc w1) = Some p2 ->
     map typepos (components p1) = map typepos (components p2) /\
     effectiveness_score p1 = effectiveness_score p2).
Proof.
  apply (same_key_second_call_cached Scenarios.echo_llm Scenarios.echo_llm
           Scenarios.request_cd Scenarios.request_dc Scenarios.empty_world
           (mkAnalysis [DEDUCTION] [PRECISION] None)
           (mkAnalysis [DEDUCTION] [PRECISION] None)).
  - constructor.
  - reflexivity.
  - reflexivity.
  - simpl. apply perm_swap.
  - simpl. apply Permutation_refl.
  - reflexivity.
  - reflexivity.
Defined.

Lemma domain_none_literal_shares_entry_witness :
  let w1 := fst (optimize Scenarios.echo_llm Scenarios.request_q Scenarios.empty_world) in
  generate_cache_key [DEDUCTION] [PRECISION] "gpt-4" None =
  generate_cache_key [DEDUCTION] [PRECISION] "gpt-4" (Some "none") /\
  solver_calls (fst (optimize Scenarios.echo_llm Scenarios.request_q_none w1)) = solver_calls w1 /\
  (forall p1 p2,
     snd (optimize_body Scenarios.echo_llm Scenarios.request_q Scenarios.empty_world) = Some p1 ->
     snd (optimize_body Scenarios.echo_llm Scenarios.request_q_none w1) = Some p2 ->
     map typepos (components p1) = map typepos (components p2) /\
     effectiveness_score p1 = effectiveness_score p2).
Proof.
  apply (domain_none_literal_shares_entry Scenarios.echo_llm Scenarios.echo_llm
           Scenarios.request_q Scenarios.request_q_none Scenarios.empty_world
           (mkAnalysis [DEDUCTION] [PRECISION] None)
           (mkAnalysis [DEDUCTION] [PRECISION] None)).
  - constructor.
  - reflexivity.
  - reflexivity.
  - apply Permutation_refl.
  - apply Permutation_refl.
  - reflexivity.
  - left. split; reflexivity.
Defined.

Lemma cache_never_exceeds_capacity_witness :
  List.length (optimization_cache
    (run [OpOptimize Scenarios.echo_llm Scenarios.request_q;
          OpOptimize Scenarios.echo_llm Scenarios.request_cd;
          OpFeedback false INSTRUCTION (Behavior PRECISION) (95 # 100)]
         Scenarios.empty_world)) <= OPTIMIZATION_CACHE_SIZE.
Proof.
  apply cache_never_exceeds_capacity. simpl. unfold OPTIMIZATION_CACHE_SIZE. lia.
Defined.

End OptimizerFacts.

(** ** Assembling the prompt ([MetaLLMAnalyzer.assemble_prompt]) *)
Module SortFacts.


Lemma Permutation_filter' {A : Type} (f : A -> bool) (l l' : list A) :
  Permutation l l' -> Permutation (filter f l) (filter f l').
Proof.
  induction 1; simpl; auto.
  - destruct (f x); auto.
  - destruct (f x), (f y); auto. apply perm_swap.
  - eapply Permutation_trans; eauto.
Qed.

Lemma insert_perm x l : Permutation (PySort.insert x l) (x :: l).
Proof.
  induction l as [|y l IH]; simpl; auto.
  destruct (Nat.leb (position x) (position y)); auto.
  eapply Permutation_trans; [apply perm_skip, IH|]. apply perm_swap.
Qed.

Lemma sorted_by_position_perm l : Permutation (PySort.sorted_by_position l) l.
Proof.
  induction l as [|x l IH]; simpl; auto.
  eapply Permutation_trans; [apply insert_perm|]. auto.
Qed.

Lemma insert_sorted x l :
  Sorted PySort.pos_le l -> Sorted PySort.pos_le (PySort.insert x l).
Proof.
  induction 1 as [|y l Hl IH Hhd]; simpl.
  - repeat constructor.
  - destruct (Nat.leb (position x) (position y)) eqn:E.
    + apply Nat.leb_le in E. constructor; [constructor; auto|]. constructor. exact E.
    + apply Nat.leb_gt in E. constructor; [exact IH|].
      destruct l as [|z l]; simpl.
      * constructor. unfold PySort.pos_le. lia.
      * inversion Hhd; subst. destruct (Nat.leb (position x) (position z));
          constructor; unfold PySort.pos_le in *; lia.
Qed.

Lemma sorted_by_position_sorted l : Sorted PySort.pos_le (PySort.sorted_by_position l).
Proof.
  induction l as [|x l IH]; simpl; [constructor|]. apply insert_sorted. exact IH.
Qed.

Lemma filter_insert p x l :
  filter (PySort.at_pos p) (PySort.insert x l) =
  if PySort.at_pos p x then x :: filter (PySort.at_pos p) l else filter (PySort.at_pos p) l.
Proof.
  induction l as [|y l IH]; simpl.
  - destruct (PySort.at_pos p x); reflexivity.
  - destruct (Nat.leb (position x) (position y)) eqn:E; simpl.
    + reflexivity.
    + rewrite IH. apply Nat.leb_gt in E. unfold PySort.at_pos.
      destruct (Nat.eqb (position x) p) eqn:Ex, (Nat.eqb (position y) p) eqn:Ey; auto.
      apply Nat.eqb_eq in Ex, Ey. lia.
Qed.

Lemma sorted_by_position_stable p l :
  filter (PySort.at_pos p) (PySort.sorted_by_position l) = filter (PySort.at_pos p) l.
Proof.
  induction l as [|x l IH]; simpl; auto.
  rewrite filter_insert, IH. reflexivity.
Qed.

Lemma insert_sorted_id x l :
  Sorted PySort.pos_le (x :: l) -> PySort.insert x l = x :: l.
Proof.
  intros H. inversion H as [|? ? Hl Hhd]; subst.
  destruct l as [|y l]; simpl; auto.
  inversion Hhd; subst. unfold PySort.pos_le in *.
  replace (Nat.leb (position x) (position y)) with true by (symmetry; apply Nat.leb_le; lia).
  reflexivity.
Qed.

Lemma sorted_by_position_id l : Sorted PySort.pos_le l -> PySort.sorted_by_position l = l.
Proof.
  induction l as [|x l IH]; intros H; simpl; auto.
  rewrite IH by (inversion H; auto). apply insert_sorted_id. exact H.
Qed.

Lemma Sorted_head_min x l c :
  Sorted PySort.pos_le (x :: l) -> In c l -> position x <= position c.
Proof.
  intros H Hc. apply Sorted_StronglySorted in H.
  - inversion H as [|? ? _ Hall]; subst. rewrite Forall_forall in Hall. apply Hall, Hc.
  - unfold Relations_1.Transitive, PySort.pos_le. intros; lia.
Qed.

Lemma at_pos_refl c : PySort.at_pos (position c) c = true.
Proof. apply Nat.eqb_refl. Qed.

Lemma sorted_filter_unique s1 s2 :
  Sorted PySort.pos_le s1 -> Sorted PySort.pos_le s2 ->
  (forall p, filter (PySort.at_pos p) s1 = filter (PySort.at_pos p) s2) -> s1 = s2.
Proof.
  revert s2. induction s1 as [|x s1 IH]; intros s2 H1 H2 Hf.
  - destruct s2 as [|y s2]; auto.
    specialize (Hf (position y)). simpl in Hf. rewrite at_pos_refl in Hf. discriminate.
  - destruct s2 as [|y s2].
    + specialize (Hf (position x)). simpl in Hf. rewrite at_pos_refl in Hf. discriminate.
    + assert (Hxy : position x = position y).
      { assert (Hle1 : position y <= position x).
        { pose proof (Hf (position x)) as Hx. simpl in Hx. rewrite at_pos_refl in Hx.
          assert (Hin : In x (filter (PySort.at_pos (position x)) (y :: s2))) by (simpl; rewrite <- Hx; left; auto).
          apply filter_In in Hin. destruct Hin as [[<-|Hin] _]; [lia|].
          apply (Sorted_head_min y s2 x H2 Hin). }
        assert (Hle2 : position x <= position y).
        { pose proof (Hf (position y)) as Hy. simpl in Hy. rewrite (at_pos_refl y) in Hy.
          assert (Hin : In y (filter (PySort.at_pos (position y)) (x :: s1))) by (simpl; rewrite Hy; left; auto).
          apply filter_In in Hin. destruct Hin as [[->|Hin] _]; [lia|].
          apply (Sorted_head_min x s1 y H1 Hin). }
        lia. }
      pose proof (Hf (position x)) as Hx. simpl in Hx.
      rewrite at_pos_refl in Hx. rewrite Hxy, at_pos_refl in Hx.
      injection Hx as <- Hrest.
      f_equal. apply IH.
      * inversion H1; auto.
      * inversion H2; auto.
      * intros p. pose proof (Hf p) as Hp. simpl in Hp.
        destruct (PySort.at_pos p x) eqn:E.
        -- unfold PySort.at_pos in E. apply Nat.eqb_eq in E. subst p. exact Hrest.
        -- exact Hp.
Qed.

Lemma filter_at_pos_small p l :
  NoDup (map position l) -> List.length (filter (PySort.at_pos p) l) <= 1.
Proof.
  induction l as [|x l IH]; intros H; simpl; [lia|].
  inversion H as [|? ? Hx Hl]; subst.
  destruct (PySort.at_pos p x) eqn:E; simpl; [|auto].
  assert (filter (PySort.at_pos p) l = []) as ->; [|simpl; lia].
  destruct (filter (PySort.at_pos p) l) as [|c r] eqn:Ef; auto.
  exfalso. assert (Hc : In c (filter (PySort.at_pos p) l)) by (rewrite Ef; left; auto).
  apply filter_In in Hc. destruct Hc as [Hc Hcp]. unfold PySort.at_pos in *.
  apply Nat.eqb_eq in E, Hcp. apply Hx. rewrite E, <- Hcp. apply in_map, Hc.
Qed.

Lemma perm_small_eq {A : Type} (l l' : list A) :
  Permutation l l' -> List.length l <= 1 -> l = l'.
Proof.
  intros Hp Hl. destruct l as [|a [|b l]]; simpl in Hl; try lia.
  - symmetry. apply Permutation_nil, Hp.
  - symmetry. apply Permutation_length_1_inv, Hp.
Qed.

(** [assemble_prompt] joins, with blank lines between them, the contents
    of a stable sort of its input by position: a permutation of the
    input, ordered by position, in which components of equal position
    keep their input order. *)
Theorem assemble_prompt_stable_sort (components : list PromptComponent) :
  exists s,
    MetaLLM.assemble_prompt components = String.concat (nl ++ nl) (map content s) /\
    Permutation s components /\
    Sorted (fun a b => position a <= position b) s /\
    (forall p, filter (fun c => Nat.eqb (position c) p) s =
               filter (fun c => Nat.eqb (position c) p) components).
Proof.
  exists (PySort.sorted_by_position components). split; [reflexivity|].
  split; [apply sorted_by_position_perm|].
  split; [apply sorted_by_position_sorted|].
  intros p. apply (sorted_by_position_stable p).
Qed.

(** When the components have pairwise distinct positions, the order in
    which they are passed does not change the assembled prompt. *)
Theorem assemble_prompt_order_independent (l l' : list PromptComponent)
    (Hperm : Permutation l l') (Hdistinct : NoDup (map position l)) :
  MetaLLM.assemble_prompt l = MetaLLM.assemble_prompt l'.
Proof.
  unfold MetaLLM.assemble_prompt. f_equal. f_equal.
  apply sorted_filter_unique; try apply sorted_by_position_sorted.
  intros p. rewrite !sorted_by_position_stable.
  apply perm_small_eq; [apply Permutation_filter', Hperm|].
  apply filter_at_pos_small, Hdistinct.
Qed.

(** Components already ordered by position are joined as given, ties
    included. *)
Theorem assemble_prompt_sorted_input (l : list PromptComponent)
    (Hsorted : Sorted (fun a b => position a <= position b) l) :
  MetaLLM.assemble_prompt l = String.concat (nl ++ nl) (map content l).
Proof.
  unfold MetaLLM.assemble_prompt. rewrite sorted_by_position_id by exact Hsorted.
  reflexivity.
Qed.

Lemma assemble_prompt_order_independent_witness :
  MetaLLM.assemble_prompt [mkPromptComponent EXAMPLE "e" 2; mkPromptComponent INSTRUCTION "i" 1] =
  MetaLLM.assemble_prompt [mkPromptComponent INSTRUCTION "i" 1; mkPromptComponent EXAMPLE "e" 2].
Proof.
  apply assemble_prompt_order_independent.
  - apply perm_swap.
  - simpl. constructor; [simpl; intuition discriminate|].
    constructor; [simpl; auto|constructor].
Defined.

Lemma assemble_prompt_sorted_input_witness :
  MetaLLM.assemble_prompt [mkPromptComponent INSTRUCTION "i" 1; mkPromptComponent EXAMPLE "e" 2;
                           mkPromptComponent CONSTRAINT "c" 2] =
  String.concat (nl ++ nl) ["i"; "e"; "c"].
Proof.
  apply (assemble_prompt_sorted_input
           [mkPromptComponent INSTRUCTION "i" 1; mkPromptComponent EXAMPLE "e" 2;
            mkPromptComponent CONSTRAINT "c" 2]).
  repeat constructor; simpl; lia.
Defined.

End SortFacts.

(** ** The components [ASPEngine.solve] returns *)
Module SolveFacts.

Lemma insert_by_position_perm x l : Permutation (ASP.insert_by_position x l) (x :: l).
Proof.
  induction l as [|y l IH]; simpl; auto.
  destruct (Nat.ltb (position x) (position y)); auto.
  eapply Permutation_trans; [apply perm_skip, IH|]. apply perm_swap.
Qed.

Lemma sort_by_position_perm l : Permutation (ASP.sort_by_position l) l.
Proof.
  induction l as [|x l IH]; simpl; auto.
  eapply Permutation_trans; [apply insert_by_position_perm|]. auto.
Qed.

Lemma insert_agree x l :
  ~ In (position x) (map position l) ->
  ASP.insert_by_position x l = PySort.insert x l.
Proof.
  induction l as [|y l IH]; intros H; simpl; auto.
  simpl in H.
  destruct (Nat.ltb (position x) (position y)) eqn:E1,
           (Nat.leb (position x) (position y)) eqn:E2; auto.
  - apply Nat.ltb_lt in E1. apply Nat.leb_gt in E2. lia.
  - apply Nat.ltb_ge in E1. apply Nat.leb_le in E2. exfalso. apply H. left. lia.
  - f_equal. apply IH. auto.
Qed.

(** On components with pairwise distinct positions the solver's sort is
    Python's stable sort. *)
Lemma sort_by_position_stable_distinct l :
  NoDup (map position l) -> ASP.sort_by_position l = PySort.sorted_by_position l.
Proof.
  induction l as [|x l IH]; intros H; simpl; auto.
  inversion H as [|? ? Hx Hl]; subst. rewrite <- IH by exact Hl.
  apply insert_agree. intros Hin. apply Hx.
  apply (Permutation_in _ (Permutation_map position (sort_by_position_perm l))), Hin.
Qed.

Definition placeholder_of (cp : ComponentType * nat) : PromptComponent :=
  mkPromptComponent (fst cp) (placeholder_content (fst cp)) (snd cp).

Lemma extract_effectiveness zs acc s :
  fst (ASP.extract (map ASP.effectiveness zs) acc s) = acc.
Proof. revert s. induction zs; intros s; simpl; auto. Qed.

Lemma extract_positions a zs acc s :
  fst (ASP.extract (map (fun cp => ASP.prompt_position (fst cp) (snd cp)) a ++
                    map ASP.effectiveness zs)%list acc s) = (acc ++ map placeholder_of a)%list.
Proof.
  revert acc s. induction a as [|cp a IH]; intros acc s.
  - rewrite app_nil_r. apply extract_effectiveness.
  - cbn [map app ASP.extract]. rewrite IH, <- app_assoc. reflexivity.
Qed.

Lemma extract_shown a acc s :
  fst (ASP.extract (ASP.shown a) acc s) = (acc ++ map placeholder_of a)%list.
Proof. apply extract_positions. Qed.

Lemma choices_fst cs a : In a (ASP.choices cs) -> map fst a = cs.
Proof.
  revert a. induction cs as [|c cs IH]; intros a Ha.
  - destruct Ha as [<-|[]]. reflexivity.
  - cbn [ASP.choices] in Ha. apply in_flat_map in Ha. destruct Ha as (p & _ & Hp).
    apply in_map_iff in Hp. destruct Hp as (rest & <- & Hr). simpl. f_equal. auto.
Qed.

Lemma solve_models_fst models m tasks behaviors tm dom :
  fst (ASP.solve (ASP.ClingoModels (models ++ [m])%list) tasks behaviors tm dom) =
  ASP.sort_by_position (fst (ASP.extract m [] 0%Q)).
Proof.
  unfold ASP.solve. destruct (models ++ [m])%list as [|m0 ms] eqn:E.
  - destruct models; discriminate.
  - rewrite <- E, last_last. destruct (ASP.extract m [] 0%Q). reflexivity.
Qed.

(** Whenever the solver raises, finds no model, or its last model is an
    answer set of the base program, [solve] returns the five component
    types once each, at positions 1 to 5 in this order, each with its
    placeholder content. *)
Theorem solve_five_components (outcome : ASP.ClingoOutcome) (tasks : list TaskType)
    (behaviors : list BehaviorType) (target_model domain : option string)
    (Hout : outcome = ASP.ClingoRaises \/ outcome = ASP.ClingoModels [] \/
            exists models a, In a ASP.answer_sets /\
                             outcome = ASP.ClingoModels (models ++ [ASP.shown a])%list) :
  let cs := fst (ASP.solve outcome tasks behaviors target_model domain) in
  map position cs = [1; 2; 3; 4; 5] /\
  Permutation (map ptype cs) ASP.components /\
  map content cs = map (fun c => placeholder_content (ptype c)) cs.
Proof.
  destruct Hout as [-> | [-> | (models & a & Ha & ->)]];
    [simpl; repeat split; apply Permutation_refl ..|].
  cbv zeta. rewrite solve_models_fst, extract_shown. simpl app.
  assert (Hall : forallb (fun a =>
            if list_eq_dec Nat.eq_dec
                 (map position (ASP.sort_by_position (map placeholder_of a))) [1; 2; 3; 4; 5]
            then true else false) ASP.answer_sets = true)
    by (vm_compute; reflexivity).
  rewrite forallb_forall in Hall. specialize (Hall a Ha).
  destruct (list_eq_dec _ _ _) as [Hpos|]; [|discriminate].
  pose proof (sort_by_position_perm (map placeholder_of a)) as Hp.
  split; [exact Hpos|]. split.
  - eapply Permutation_trans; [apply Permutation_map, Hp|].
    rewrite map_map. change (map (fun x => ptype (placeholder_of x)) a) with (map fst a).
    unfold ASP.answer_sets in Ha. apply filter_In in Ha.
    rewrite (choices_fst _ _ (proj1 Ha)). apply Permutation_refl.
  - apply map_ext_in. intros c Hc.
    apply (Permutation_in _ Hp) in Hc. apply in_map_iff in Hc.
    destruct Hc as (cp & <- & _). reflexivity.
Qed.

Lemma solve_five_components_witness :
  (ASP.ClingoModels [ASP.shown ASP.hardcoded_structure] = ASP.ClingoRaises \/
   ASP.ClingoModels [ASP.shown ASP.hardcoded_structure] = ASP.ClingoModels [] \/
   exists models a, In a ASP.answer_sets /\
     ASP.ClingoModels [ASP.shown ASP.hardcoded_structure] =
     ASP.ClingoModels (models ++ [ASP.shown a])%list) /\
  (let cs := fst (ASP.solve (ASP.ClingoModels [ASP.shown ASP.hardcoded_structure])
                   [DEDUCTION] [PRECISION] (Some "gpt-4") None) in
   map position cs = [1; 2; 3; 4; 5] /\
   Permutation (map ptype cs) ASP.components /\
   map content cs = map (fun c => placeholder_content (ptype c)) cs).
Proof.
  assert (H : exists models a, In a ASP.answer_sets /\
     ASP.ClingoModels [ASP.shown ASP.hardcoded_structure] =
     ASP.ClingoModels (models ++ [ASP.shown a])%list).
  { exists [], ASP.hardcoded_structure. split; [|reflexivity].
    apply nth_error_In with 0. vm_compute. reflexivity. }
  split; [right; right; exact H|].
  apply (solve_five_components _ [DEDUCTION] [PRECISION] (Some "gpt-4") None).
  right; right; exact H.
Defined.

End SolveFacts.

(** ** The task analysis ([MetaLLMAnalyzer.analyze_task]) *)
Module MetaLLMFacts.
Import Optimizer.

Lemma map_option_fail {A B : Type} (f : A -> option B) l :
  (exists x, In x l /\ f x = None) -> map_option f l = None.
Proof.
  intros (x & Hx & Hf). induction l as [|y l IH]; simpl in *; [contradiction|].
  destruct Hx as [<-|Hx].
  - rewrite Hf. reflexivity.
  - destruct (f y); [|reflexivity]. rewrite IH by exact Hx. reflexivity.
Qed.


(** When the object's ["reasoning_tasks"] is iterable and yields an item
    that is no task value (a value that is no string, a string that is
    no value, or a character of a non-empty string), [analyze_task]
    drops the whole reply, domain included, and returns the mock
    analysis; the same holds for ["output_behaviors"] once the tasks
    have converted. *)
Theorem analyze_task_invalid_value_discards_reply (py_str : MetaLLM.Json -> string)
    (m : list (string * MetaLLM.Json))
    (Hbad :
       (exists items,
          MetaLLM.py_iter (MetaLLM.get_or_empty m "reasoning_tasks") = Some items /\
          exists x, In x items /\ MetaLLM.enum_of_json TaskType_of_value x = None) \/
       (exists items dt items',
          MetaLLM.py_iter (MetaLLM.get_or_empty m "reasoning_tasks") = Some items /\
          map_option (MetaLLM.enum_of_json TaskType_of_value) items = Some dt /\
          MetaLLM.py_iter (MetaLLM.get_or_empty m "output_behaviors") = Some items' /\
          exists x, In x items' /\ MetaLLM.enum_of_json BehaviorType_of_value x = None)) :
  MetaLLM.analyze_task py_str false (MetaLLM.ReplyJson (MetaLLM.JObject m)) =
  Some (mkAnalysis [DEDUCTION] [PRECISION; STEP_BY_STEP] None).
Proof.
  unfold MetaLLM.analyze_task. cbn iota beta.
  destruct Hbad as [(items & Ht & Hx) | (items & dt & items' & Ht & Hdt & Hb & Hx)].
  - rewrite Ht, (map_option_fail _ _ Hx). reflexivity.
  - rewrite Ht, Hdt, Hb, (map_option_fail _ _ Hx). reflexivity.
Qed.

Lemma analyze_task_invalid_value_discards_reply_witness :
  ((exists items,
      MetaLLM.py_iter (MetaLLM.get_or_empty
        [("reasoning_tasks", MetaLLM.JString "deduction");
         ("output_behaviors", MetaLLM.JArray [MetaLLM.JString "precision"]);
         ("domain", MetaLLM.JString "legal")] "reasoning_tasks") = Some items /\
      exists x, In x items /\ MetaLLM.enum_of_json TaskType_of_value x = None) \/
   (exists items dt items',
      MetaLLM.py_iter (MetaLLM.get_or_empty
        [("reasoning_tasks", MetaLLM.JString "deduction");
         ("output_behaviors", MetaLLM.JArray [MetaLLM.JString "precision"]);
         ("domain", MetaLLM.JString "legal")] "reasoning_tasks") = Some items /\
      map_option (MetaLLM.enum_of_json TaskType_of_value) items = Some dt /\
      MetaLLM.py_iter (MetaLLM.get_or_empty
        [("reasoning_tasks", MetaLLM.JString "deduction");
         ("output_behaviors", MetaLLM.JArray [MetaLLM.JString "precision"]);
         ("domain", MetaLLM.JString "legal")] "output_behaviors") = Some items' /\
      exists x, In x items' /\ MetaLLM.enum_of_json BehaviorType_of_value x = None)) /\
  MetaLLM.analyze_task (fun _ => "") false
    (MetaLLM.ReplyJson (MetaLLM.JObject
       [("reasoning_tasks", MetaLLM.JString "deduction");
        ("output_behaviors", MetaLLM.JArray [MetaLLM.JString "precision"]);
        ("domain", MetaLLM.JString "legal")])) =
  Some (mkAnalysis [DEDUCTION] [PRECISION; STEP_BY_STEP] None).
Proof.
  assert (H :
   (exists items,
      MetaLLM.py_iter (MetaLLM.get_or_empty
        [("reasoning_tasks", MetaLLM.JString "deduction");
         ("output_behaviors", MetaLLM.JArray [MetaLLM.JString "precision"]);
         ("domain", MetaLLM.JString "legal")] "reasoning_tasks") = Some items /\
      exists x, In x items /\ MetaLLM.enum_of_json TaskType_of_value x = None) \/
   (exists items dt items',
      MetaLLM.py_iter (MetaLLM.get_or_empty
        [("reasoning_tasks", MetaLLM.JString "deduction");
         ("output_behaviors", MetaLLM.JArray [MetaLLM.JString "precision"]);
         ("domain", MetaLLM.JString "legal")] "reasoning_tasks") = Some items /\
      map_option (MetaLLM.enum_of_json TaskType_of_value) items = Some dt /\
      MetaLLM.py_iter (MetaLLM.get_or_empty
        [("reasoning_tasks", MetaLLM.JString "deduction");
         ("output_behaviors", MetaLLM.JArray [MetaLLM.JString "precision"]);
         ("domain", MetaLLM.JString "legal")] "output_behaviors") = Some items' /\
      exists x, In x items' /\ MetaLLM.enum_of_json BehaviorType_of_value x = None)).
  { left. eexists. split; [reflexivity|].
    exists (MetaLLM.JString "d"). split; [simpl; auto | reflexivity]. }
  split; [exact H|].
  apply (analyze_task_invalid_value_discards_reply (fun _ => "") _ H).
Defined.

(** A reply whose JSON value is no object escapes [analyze_task], and
    [optimize] returns its fallback result without changing the cache,
    the heap or the engine. *)
Theorem non_object_reply_falls_back (fmt2 : Q -> string) (py_str : MetaLLM.Json -> string)
    (analysis_reply : string -> MetaLLM.AnalysisReply)
    (content_reply : string -> string -> option string) (rationale_reply : option string)
    (outcome : ASP.ClingoOutcome) (request : OptimizationRequest) (w : World)
    (v : MetaLLM.Json)
    (Hreply : analysis_reply (user_prompt request) = MetaLLM.ReplyJson v)
    (Hv : forall m, v <> MetaLLM.JObject m) :
  optimize (MetaLLM.collaborators fmt2 py_str false analysis_reply content_reply
              rationale_reply outcome) request w
  = (w, fallback_prompt (user_prompt request)).
Proof.
  unfold optimize, optimize_body, bind, lift. simpl. rewrite Hreply.
  destruct v as [| | | | |m]; try reflexivity. exfalso. exact (Hv m eq_refl).
Qed.

Lemma non_object_reply_falls_back_witness :
  (fun _ : string => MetaLLM.ReplyJson (MetaLLM.JArray [MetaLLM.JString "deduction"]))
    (user_prompt Scenarios.request_q) =
    MetaLLM.ReplyJson (MetaLLM.JArray [MetaLLM.JString "deduction"]) /\
  (forall m, MetaLLM.JArray [MetaLLM.JString "deduction"] <> MetaLLM.JObject m) /\
  optimize (MetaLLM.collaborators (fun _ => "100.00") (fun _ => "") false
              (fun _ => MetaLLM.ReplyJson (MetaLLM.JArray [MetaLLM.JString "deduction"]))
              (fun _ _ => None) None ASP.ClingoRaises)
    Scenarios.request_q Scenarios.empty_world
  = (Scenarios.empty_world, fallback_prompt (user_prompt Scenarios.request_q)).
Proof.
  assert (Hv : forall m, MetaLLM.JArray [MetaLLM.JString "deduction"] <> MetaLLM.JObject m)
    by (intros m; discriminate).
  split; [reflexivity|]. split; [exact Hv|].
  apply (non_object_reply_falls_back (fun _ => "100.00") (fun _ => "")
           (fun _ => MetaLLM.ReplyJson (MetaLLM.JArray [MetaLLM.JString "deduction"]))
           (fun _ _ => None) None ASP.ClingoRaises Scenarios.request_q Scenarios.empty_world
           _ eq_refl Hv).
Defined.

End MetaLLMFacts.

(** ** Step 3 of [optimize] and the mock-mode result *)
Module HeapFacts.
Import Optimizer.

Lemma read_set_same h l c :
  l < List.length h ->
  read (set_content h l c) l = mkPromptComponent (ptype (read h l)) c (position (read h l)).
Proof.
  revert l. induction h as [|x h IH]; intros [|l] Hl; simpl in *; try lia; auto.
  unfold read in *. simpl. apply IH. lia.
Qed.

Lemma read_set_other h l l' c : l <> l' -> read (set_content h l c) l' = read h l'.
Proof.
  revert l l'. induction h as [|x h IH]; intros [|l] [|l'] Hne; simpl; auto; try congruence.
  unfold read in *. simpl. apply IH. congruence.
Qed.

Lemma fill_contents_frame_read llm an p ls w l :
  ~ In l ls -> read (heap (fst (fill_contents llm an p ls w))) l = read (heap w) l.
Proof.
  revert w. induction ls as [|l0 ls IH]; intros w Hl; simpl; auto.
  unfold bind, get, lift, put.
  destruct (generate_component_content llm _ an p) as [c|]; simpl; auto.
  rewrite IH by (intros H; apply Hl; right; exact H). simpl.
  apply read_set_other. intros ->. apply Hl. left. reflexivity.
Qed.

Lemma fill_contents_all llm an p (g : string -> string) ls w
    (Hg : forall ty, generate_component_content llm ty an p = Some (g ty))
    (Hnd : NoDup ls) (Hin : Forall (fun l => l < List.length (heap w)) ls) :
  snd (fill_contents llm an p ls w) = Some tt /\
  read_all (heap (fst (fill_contents llm an p ls w))) ls =
  map (fun c => mkPromptComponent (ptype c) (g (ComponentType_value (ptype c))) (position c))
      (read_all (heap w) ls).
Proof.
  revert w Hin. induction ls as [|l ls IH]; intros w Hin; simpl; [auto|].
  inversion Hnd as [|? ? Hl Hnd']; subst. inversion Hin as [|? ? Hlt Hin']; subst.
  unfold bind, get, lift, put. rewrite Hg. simpl.
  set (w1 := mkWorld (set_content (heap w) l (g (ComponentType_value (ptype (read (heap w) l)))))
               (optimization_cache w) (solver_calls w) (engine w)).
  assert (Hin1 : Forall (fun l => l < List.length (heap w1)) ls).
  { unfold w1. simpl. rewrite OptimizerFacts.set_content_length. exact Hin'. }
  destruct (IH Hnd' w1 Hin1) as [Hs Hr].
  split; [exact Hs|]. unfold read_all in *. simpl. f_equal.
  - rewrite fill_contents_frame_read by exact Hl. unfold w1. simpl.
    apply read_set_same. exact Hlt.
  - rewrite Hr. f_equal. apply map_ext_in. intros l' Hl'. unfold w1. simpl.
    apply read_set_other. intros ->. contradiction.
Qed.

End HeapFacts.

Module MockFacts.
Import Optimizer.

(** In mock mode, with the solver failing or finding no model and an
    empty cache, [optimize] returns the five mock contents at positions
    1 to 5 (the instruction quoting the prompt), joined by blank lines,
    the mock rationale naming that order, and score 100. *)
Theorem mock_optimize_result (fmt2 : Q -> string) (py_str : MetaLLM.Json -> string)
    (analysis_reply : string -> MetaLLM.AnalysisReply)
    (content_reply : string -> string -> option string) (rationale_reply : option string)
    (outcome : ASP.ClingoOutcome) (request : OptimizationRequest) (w : World)
    (Hout : outcome = ASP.ClingoRaises \/ outcome = ASP.ClingoModels [])
    (Hcache : optimization_cache w = []) :
  let comps :=
    [mkPromptComponent INSTRUCTION
       ("Follow these instructions carefully to answer the query: " ++ user_prompt request) 1;
     mkPromptComponent CONTEXT
       "Consider all relevant information and constraints before responding." 2;
     mkPromptComponent EXAMPLE
       "Here's an example of a good response: [Example response that demonstrates desired qualities]" 3;
     mkPromptComponent CONSTRAINT
       "Important: Your response must be factual, precise, and include step-by-step reasoning." 4;
     mkPromptComponent OUTPUT_FORMAT
       "Format your response as follows: 1) Initial analysis, 2) Step-by-step reasoning, 3) Final answer" 5] in
  snd (optimize (MetaLLM.collaborators fmt2 py_str true analysis_reply content_reply rationale_reply
                   outcome) request w) =
  mkOptimizedPrompt comps (String.concat (nl ++ nl) (map content comps))
    ("This prompt structure (ordering: instruction, context, example, constraint, output_format) was chosen because it optimizes for the detected reasoning tasks and desired behaviors. The effectiveness score is "
     ++ fmt2 100%Q ++ ".")
    100%Q.
Proof.
  intros comps.
  set (llm := MetaLLM.collaborators fmt2 py_str true analysis_reply content_reply rationale_reply outcome).
  set (an := MetaLLM.mock_analysis).
  set (cs := fst (ASP.fallback_solve [] [] None None)).
  assert (Hsolve : forall ts bs m d, asp_solve llm ts bs m d = (cs, 100%Q)).
  { intros. unfold llm, MetaLLM.collaborators. simpl.
    destruct Hout as [-> | ->]; reflexivity. }
  unfold optimize, optimize_body, bind, lift, get, ret.
  change (analyze_task llm (user_prompt request)) with (Some an). cbv iota beta.
  unfold resolve_structure at 1. rewrite Hcache. cbn [assoc]. rewrite Hsolve.
  unfold alloc_all. cbv iota beta zeta.
  set (g := fun ty => MetaLLM.generate_component_content true
                        (content_reply ty (user_prompt request)) ty (user_prompt request)).
  match goal with
  | |- context [fill_contents llm an (user_prompt request) ?ls ?w1] =>
      destruct (HeapFacts.fill_contents_all llm an (user_prompt request) g ls w1)
        as [Hs Hr];
      [ intros ty; reflexivity
      | apply seq_NoDup
      | apply Forall_forall; intros l Hl; apply in_seq in Hl; simpl;
        rewrite length_app; lia
      | destruct (fill_contents llm an (user_prompt request) ls w1) as [w2 o] eqn:Ef ]
  end.
  cbn [fst snd] in Hs, Hr. subst o. rewrite Hr. cbn [heap].
  unfold read_all. rewrite OptimizerFacts.read_alloc.
  reflexivity.
Qed.

Lemma mock_optimize_result_witness :
  let comps :=
    [mkPromptComponent INSTRUCTION
       ("Follow these instructions carefully to answer the query: " ++ "q") 1;
     mkPromptComponent CONTEXT
       "Consider all relevant information and constraints before responding." 2;
     mkPromptComponent EXAMPLE
       "Here's an example of a good response: [Example response that demonstrates desired qualities]" 3;
     mkPromptComponent CONSTRAINT
       "Important: Your response must be factual, precise, and include step-by-step reasoning." 4;
     mkPromptComponent OUTPUT_FORMAT
       "Format your response as follows: 1) Initial analysis, 2) Step-by-step reasoning, 3) Final answer" 5] in
  snd (optimize (MetaLLM.collaborators (fun _ => "100.00") (fun _ => "") true
                   (fun _ => MetaLLM.ReplyApiError) (fun _ _ => None) None ASP.ClingoRaises)
          Scenarios.request_q Scenarios.empty_world) =
  mkOptimizedPrompt comps (String.concat (nl ++ nl) (map content comps))
    ("This prompt structure (ordering: instruction, context, example, constraint, output_format) was chosen because it optimizes for the detected reasoning tasks and desired behaviors. The effectiveness score is "
     ++ "100.00" ++ ".")
    100%Q.
Proof.
  apply (mock_optimize_result (fun _ => "100.00") (fun _ => "") (fun _ => MetaLLM.ReplyApiError)
           (fun _ _ => None) None ASP.ClingoRaises Scenarios.request_q Scenarios.empty_world).
  - left. reflexivity.
  - reflexivity.
Defined.

End MockFacts.

(** ** The efficacy table in memory and in the database, and its reload *)
Module StoreFacts.

Lemma ComponentType_eqb_eq a b : ComponentType_eqb a b = true <-> a = b.
Proof. destruct a, b; simpl; split; congruence. Qed.

Lemma TaskType_eqb_eq a b : TaskType_eqb a b = true <-> a = b.
Proof.
  destruct a, b; split; intros H;
    (reflexivity || discriminate || (vm_compute in H; discriminate)).
Qed.

Lemma BehaviorType_eqb_eq a b : BehaviorType_eqb a b = true <-> a = b.
Proof.
  destruct a, b; split; intros H;
    (reflexivity || discriminate || (vm_compute in H; discriminate)).
Qed.

Lemma efficacy_key_eqb_eq x y : efficacy_key_eqb x y = true <-> x = y.
Proof.
  destruct x as [c tb], y as [c' tb']. unfold efficacy_key_eqb. simpl.
  rewrite andb_true_iff, ComponentType_eqb_eq.
  destruct tb as [t|b], tb' as [t'|b']; simpl;
    try rewrite TaskType_eqb_eq; try rewrite BehaviorType_eqb_eq.
  - split; [intros [-> ->]; reflexivity | intros H; injection H as -> ->; auto].
  - split; [intros [_ H]; discriminate | intros H; discriminate].
  - split; [intros [_ H]; discriminate | intros H; discriminate].
  - split; [intros [-> ->]; reflexivity | intros H; injection H as -> ->; auto].
Qed.

Lemma assoc_dict_set_other {K V : Type} (eqb : K -> K -> bool) k k' (v : V) l :
  (forall x y, eqb x y = true <-> x = y) -> k <> k' ->
  assoc eqb k' (dict_set eqb k v l) = assoc eqb k' l.
Proof.
  intros Heq Hne. induction l as [|[k0 v0] l IH]; simpl.
  - destruct (eqb k k') eqn:E; [apply Heq in E; congruence | reflexivity].
  - destruct (eqb k0 k) eqn:E0; simpl.
    + apply Heq in E0. subst k0.
      destruct (eqb k k') eqn:E; [apply Heq in E; congruence | reflexivity].
    + destruct (eqb k0 k'); [reflexivity | exact IH].
Qed.

Lemma assoc_dict_set_eqb {K V : Type} (eqb : K -> K -> bool) k k' (v : V) l :
  (forall x y, eqb x y = true <-> x = y) ->
  assoc eqb k' (dict_set eqb k v l) = if eqb k k' then Some v else assoc eqb k' l.
Proof.
  intros Heq. destruct (eqb k k') eqn:E.
  - apply Heq in E. subst k'. apply assoc_dict_set. apply Heq. reflexivity.
  - apply assoc_dict_set_other; [exact Heq|]. intros Hkk. subst k'.
    rewrite (proj2 (Heq _ _) eq_refl) in E. discriminate.
Qed.

Lemma find_split {A : Type} (f : A -> bool) l x :
  find f l = Some x ->
  exists pre post, l = (pre ++ x :: post)%list /\
    Forall (fun y => f y = false) pre /\ f x = true.
Proof.
  induction l as [|y l IH]; simpl; intros H; [discriminate|].
  destruct (f y) eqn:Ey.
  - injection H as <-. exists [], l. auto.
  - destruct (IH H) as (pre & post & -> & Hpre & Hx).
    exists (y :: pre), post. simpl. auto.
Qed.

Lemma find_app_false {A : Type} (f : A -> bool) pre l :
  Forall (fun y => f y = false) pre -> find f (pre ++ l)%list = find f l.
Proof. induction 1 as [|y pre Hy _ IH]; simpl; [reflexivity|]. rewrite Hy. exact IH. Qed.

Lemma update_first_split f g pre x post :
  Forall (fun y => f y = false) pre -> f x = true ->
  Store.update_first f g (pre ++ x :: post)%list = (pre ++ g x :: post)%list.
Proof.
  intros Hpre Hx. induction Hpre as [|y pre Hy _ IH]; simpl.
  - rewrite Hx. reflexivity.
  - rewrite Hy, IH. reflexivity.
Qed.

(** [update_efficacy] sets the in-memory efficacy of its key and leaves
    every other key as it was, whether or not storage works. *)
Theorem update_efficacy_lookup (storage_ok : bool) (c : ComponentType) (tb : TaskOrBehavior)
    (v : Q) (e : Store.EngineState) (k : ComponentType * TaskOrBehavior) :
  assoc efficacy_key_eqb k
    (component_efficacy (Store.tables (fst (Store.update_efficacy storage_ok c tb v e)))) =
  if efficacy_key_eqb (c, tb) k then Some v
  else assoc efficacy_key_eqb k (component_efficacy (Store.tables e)).
Proof.
  unfold Store.update_efficacy.
  destruct storage_ok; simpl; apply assoc_dict_set_eqb, efficacy_key_eqb_eq.
Qed.

(** With working storage, [update_efficacy] upserts one row: the rows the
    query does not select are kept in order, a row is appended only when
    none was selected, and the first selected row then holds the new
    value. *)
Theorem update_efficacy_db_upsert (c : ComponentType) (tb : TaskOrBehavior) (v : Q)
    (e : Store.EngineState) :
  let db' := Store.db (fst (Store.update_efficacy true c tb v e)) in
  filter (fun r => negb (Store.matches c tb r)) db' =
    filter (fun r => negb (Store.matches c tb r)) (Store.db e) /\
  List.length db' = List.length (Store.db e) +
    match find (Store.matches c tb) (Store.db e) with Some _ => 0 | None => 1 end /\
  exists r, find (Store.matches c tb) db' = Some r /\ Store.efficacy_value r = v.
Proof.
  unfold Store.update_efficacy, Store.db_upsert. cbn [Store.db fst].
  set (g := fun r : Store.ComponentEfficacyDB =>
              Store.mkComponentEfficacyDB (Store.db_component_type r)
                (Store.db_task_type r) (Store.db_behavior_type r) v).
  assert (Hg : forall x, Store.matches c tb (g x) = Store.matches c tb x)
    by (intros x; destruct tb; reflexivity).
  destruct (find (Store.matches c tb) (Store.db e)) as [r|] eqn:E.
  - destruct (find_split _ _ _ E) as (pre & post & Hdb & Hpre & Hr).
    rewrite Hdb, (update_first_split _ _ _ _ _ Hpre Hr).
    rewrite !filter_app. cbn [filter]. rewrite Hg, Hr. cbn [negb].
    split; [reflexivity|]. split.
    + rewrite !length_app. simpl. lia.
    + exists (g r). split; [|reflexivity].
      rewrite (find_app_false _ _ _ Hpre). simpl. rewrite Hg, Hr. reflexivity.
  - split; [|split].
    + rewrite filter_app. simpl. rewrite matches_new_row. simpl. apply app_nil_r.
    + rewrite length_app. simpl. lia.
    + exists (Store.new_row c tb v). split.
      * apply find_app_none; [exact E | apply matches_new_row].
      * destruct tb; reflexivity.
Qed.

End StoreFacts.

Module LoaderFacts.
Import StoreFacts.

Lemma ComponentType_of_value_inv s c :
  ComponentType_of_value s = Some c -> s = ComponentType_value c.
Proof.
  unfold ComponentType_of_value. intros H. apply find_some in H.
  destruct H as [_ H]. symmetry. apply String.eqb_eq. exact H.
Qed.

Lemma TaskType_of_value_inv s t : TaskType_of_value s = Some t -> s = TaskType_value t.
Proof.
  unfold TaskType_of_value. intros H. apply find_some in H.
  destruct H as [_ H]. symmetry. apply String.eqb_eq. exact H.
Qed.

Lemma BehaviorType_of_value_inv s b :
  BehaviorType_of_value s = Some b -> s = BehaviorType_value b.
Proof.
  unfold BehaviorType_of_value. intros H. apply find_some in H.
  destruct H as [_ H]. symmetry. apply String.eqb_eq. exact H.
Qed.

Lemma ComponentType_of_value_value c : ComponentType_of_value (ComponentType_value c) = Some c.
Proof. destruct c; reflexivity. Qed.

Lemma TaskType_of_value_value t : TaskType_of_value (TaskType_value t) = Some t.
Proof. destruct t; reflexivity. Qed.

Lemma BehaviorType_of_value_value b : BehaviorType_of_value (BehaviorType_value b) = Some b.
Proof. destruct b; reflexivity. Qed.

Lemma ComponentType_value_inj a b :
  String.eqb (ComponentType_value a) (ComponentType_value b) = true -> a = b.
Proof. intros H; destruct a, b; (reflexivity || (vm_compute in H; discriminate)). Qed.

Lemma TaskType_value_inj a b :
  String.eqb (TaskType_value a) (TaskType_value b) = true -> a = b.
Proof. intros H; destruct a, b; (reflexivity || (vm_compute in H; discriminate)). Qed.

Lemma BehaviorType_value_inj a b :
  String.eqb (BehaviorType_value a) (BehaviorType_value b) = true -> a = b.
Proof. intros H; destruct a, b; (reflexivity || (vm_compute in H; discriminate)). Qed.

Lemma truthy_TaskType_value t : Loader.truthy (Some (TaskType_value t)) = true.
Proof. destruct t; reflexivity. Qed.

Lemma truthy_BehaviorType_value b : Loader.truthy (Some (BehaviorType_value b)) = true.
Proof. destruct b; reflexivity. Qed.

Lemma parse_opt_inv {A : Type} (parse : string -> option A) o x :
  Loader.parse_opt parse o = Some x -> exists s, o = Some s /\ parse s = Some x.
Proof. destruct o; simpl; [eauto | discriminate]. Qed.

(** A row that the query of [update_efficacy] does not select for a key
    leaves the loaded value of that key alone. *)
Lemma load_efficacy_row_other ce r c tb :
  Store.matches c tb r = false ->
  assoc efficacy_key_eqb (c, tb) (fst (Loader.load_efficacy_row ce r)) =
  assoc efficacy_key_eqb (c, tb) ce.
Proof.
  intros Hm. unfold Loader.load_efficacy_row.
  destruct (Loader.truthy (Store.db_task_type r)).
  - destruct (ComponentType_of_value (Store.db_component_type r)) as [c'|] eqn:Ec;
      [|reflexivity].
    destruct (Loader.parse_opt TaskType_of_value (Store.db_task_type r)) as [t'|] eqn:Et;
      [|reflexivity].
    simpl. apply assoc_dict_set_other; [apply efficacy_key_eqb_eq|].
    intros Hk. injection Hk as <- <-.
    apply ComponentType_of_value_inv in Ec.
    destruct (parse_opt_inv _ _ _ Et) as (s & Hs & Hp). apply TaskType_of_value_inv in Hp.
    subst s. unfold Store.matches in Hm. rewrite Ec, Hs in Hm. simpl in Hm.
    rewrite !String.eqb_refl in Hm. discriminate.
  - destruct (Loader.truthy (Store.db_behavior_type r)); [|reflexivity].
    destruct (ComponentType_of_value (Store.db_component_type r)) as [c'|] eqn:Ec;
      [|reflexivity].
    destruct (Loader.parse_opt BehaviorType_of_value (Store.db_behavior_type r))
      as [b'|] eqn:Eb; [|reflexivity].
    simpl. apply assoc_dict_set_other; [apply efficacy_key_eqb_eq|].
    intros Hk. injection Hk as <- <-.
    apply ComponentType_of_value_inv in Ec.
    destruct (parse_opt_inv _ _ _ Eb) as (s & Hs & Hp). apply BehaviorType_of_value_inv in Hp.
    subst s. unfold Store.matches in Hm. rewrite Ec, Hs in Hm. simpl in Hm.
    rewrite !String.eqb_refl in Hm. discriminate.
Qed.

Lemma for_rows_other ce rows c tb :
  Forall (fun r => Store.matches c tb r = false) rows ->
  assoc efficacy_key_eqb (c, tb) (fst (Loader.for_rows Loader.load_efficacy_row ce rows)) =
  assoc efficacy_key_eqb (c, tb) ce.
Proof.
  intros H. revert ce. induction H as [|r rows Hr _ IH]; intros ce; simpl; [reflexivity|].
  pose proof (load_efficacy_row_other ce r c tb Hr) as Hstep.
  destruct (Loader.load_efficacy_row ce r) as [ce' ok]. simpl in Hstep.
  destruct ok; simpl; [rewrite IH|]; exact Hstep.
Qed.

Lemma query_loop_other ce rows c tb :
  Forall (fun r => Store.matches c tb r = false) rows ->
  assoc efficacy_key_eqb (c, tb)
    (fst (Loader.query_loop Loader.efficacy_row_fetchable Loader.load_efficacy_row ce rows)) =
  assoc efficacy_key_eqb (c, tb) ce.
Proof.
  intros H. unfold Loader.query_loop.
  destruct (forallb Loader.efficacy_row_fetchable rows); [|reflexivity].
  apply for_rows_other. exact H.
Qed.

Lemma load_component_efficacy dbt T :
  component_efficacy (fst (Loader.load_efficacy_from_db dbt T)) =
  fst (Loader.query_loop Loader.efficacy_row_fetchable Loader.load_efficacy_row
         (component_efficacy T) (Loader.component_efficacy_rows dbt)).
Proof.
  unfold Loader.load_efficacy_from_db.
  destruct (Loader.query_loop Loader.efficacy_row_fetchable Loader.load_efficacy_row _ _)
    as [ce []]; simpl; [|reflexivity].
  destruct (Loader.query_loop Loader.position_row_fetchable Loader.load_position_row _ _)
    as [pe []]; simpl; [|reflexivity].
  destruct (Loader.query_loop Loader.model_row_fetchable Loader.load_model_row _ _)
    as [ma []]; simpl; [|reflexivity].
  destruct (Loader.query_loop Loader.domain_row_fetchable Loader.load_domain_row _ _)
    as [da ok]; reflexivity.
Qed.

Lemma for_rows_app {S R : Type} (body : S -> R -> S * bool) s l1 l2 :
  Loader.for_rows body s (l1 ++ l2)%list =
  let '(s1, ok) := Loader.for_rows body s l1 in
  if ok then Loader.for_rows body s1 l2 else (s1, false).
Proof.
  revert s. induction l1 as [|r l1 IH]; intros s; simpl; [reflexivity|].
  destruct (body s r) as [s' []]; [apply IH | reflexivity].
Qed.

(** The rows [update_efficacy] writes: a known component type and exactly
    one of a known task type and a known behavior type. *)
Lemma load_efficacy_row_wf ce r :
  (exists c, Store.db_component_type r = ComponentType_value c /\
     ((exists t, Store.db_task_type r = Some (TaskType_value t) /\
                 Store.db_behavior_type r = None) \/
      (exists b, Store.db_task_type r = None /\
                 Store.db_behavior_type r = Some (BehaviorType_value b)))) ->
  snd (Loader.load_efficacy_row ce r) = true /\
  forall c tb, Store.matches c tb r = true ->
    assoc efficacy_key_eqb (c, tb) (fst (Loader.load_efficacy_row ce r)) =
    Some (Store.efficacy_value r).
Proof.
  intros (c0 & Hc & [(t0 & Ht & Hb) | (b0 & Ht & Hb)]);
    unfold Loader.load_efficacy_row; rewrite Hc, Ht, Hb.
  - rewrite truthy_TaskType_value. simpl.
    rewrite ComponentType_of_value_value, TaskType_of_value_value. split; [reflexivity|].
    intros c tb Hm. unfold Store.matches in Hm. rewrite Hc, Ht, Hb in Hm.
    apply andb_true_iff in Hm as [Hm1 Hm2]. apply ComponentType_value_inj in Hm1.
    subst c. destruct tb as [t|b]; simpl in Hm2; [|discriminate].
    apply TaskType_value_inj in Hm2. subst t.
    apply assoc_dict_set. apply efficacy_key_eqb_refl.
  - rewrite truthy_BehaviorType_value. simpl.
    rewrite ComponentType_of_value_value, BehaviorType_of_value_value.
    split; [reflexivity|].
    intros c tb Hm. unfold Store.matches in Hm. rewrite Hc, Ht, Hb in Hm.
    apply andb_true_iff in Hm as [Hm1 Hm2]. apply ComponentType_value_inj in Hm1.
    subst c. destruct tb as [t|b]; simpl in Hm2; [discriminate|].
    apply BehaviorType_value_inj in Hm2. subst b.
    apply assoc_dict_set. apply efficacy_key_eqb_refl.
Qed.

Lemma for_rows_wf_ok ce rows :
  Forall (fun r => exists c, Store.db_component_type r = ComponentType_value c /\
     ((exists t, Store.db_task_type r = Some (TaskType_value t) /\
                 Store.db_behavior_type r = None) \/
      (exists b, Store.db_task_type r = None /\
                 Store.db_behavior_type r = Some (BehaviorType_value b)))) rows ->
  snd (Loader.for_rows Loader.load_efficacy_row ce rows) = true.
Proof.
  intros H. revert ce. induction H as [|r rows Hr _ IH]; intros ce; simpl; [reflexivity|].
  destruct (load_efficacy_row_wf ce r Hr) as [Hok _].
  destruct (Loader.load_efficacy_row ce r) as [ce' ok]. simpl in Hok. subst ok. apply IH.
Qed.

Lemma wf_fetchable rows :
  Forall (fun r => exists c, Store.db_component_type r = ComponentType_value c /\
     ((exists t, Store.db_task_type r = Some (TaskType_value t) /\
                 Store.db_behavior_type r = None) \/
      (exists b, Store.db_task_type r = None /\
                 Store.db_behavior_type r = Some (BehaviorType_value b)))) rows ->
  forallb Loader.efficacy_row_fetchable rows = true.
Proof.
  intros H. apply forallb_forall. intros r Hr. rewrite Forall_forall in H.
  destruct (H r Hr) as (c & Hc & [(t & Ht & Hb) | (b & Ht & Hb)]);
    unfold Loader.efficacy_row_fetchable, Loader.opt_enum_ok, Loader.enum_ok;
    rewrite Hc, Ht, Hb, ComponentType_of_value_value;
    [rewrite TaskType_of_value_value | rewrite BehaviorType_of_value_value]; reflexivity.
Qed.

Lemma filter_length_0 {A : Type} (f : A -> bool) l :
  List.length (filter f l) = 0 -> Forall (fun y => f y = false) l.
Proof.
  induction l as [|y l IH]; simpl; intros H; constructor;
    destruct (f y) eqn:Ey; simpl in H; try discriminate; auto.
Qed.

(** With storage working, the value [update_efficacy] writes is the one
    [load_efficacy_from_db] reads back from the table into a fresh engine,
    provided the table's rows have the form [update_efficacy] writes and
    at most one of them is selected by its query. *)
Theorem reload_after_update (c : ComponentType) (tb : TaskOrBehavior) (v : Q)
    (e : Store.EngineState) (dbt : Loader.DBTables) (T : EngineTables)
    (Hwf : Forall (fun r => exists c', Store.db_component_type r = ComponentType_value c' /\
              ((exists t, Store.db_task_type r = Some (TaskType_value t) /\
                          Store.db_behavior_type r = None) \/
               (exists b, Store.db_task_type r = None /\
                          Store.db_behavior_type r = Some (BehaviorType_value b))))
            (Store.db e))
    (Hone : List.length (filter (Store.matches c tb) (Store.db e)) <= 1)
    (Hdbt : Loader.component_efficacy_rows dbt =
            Store.db (fst (Store.update_efficacy true c tb v e))) :
  assoc efficacy_key_eqb (c, tb)
    (component_efficacy (fst (Loader.load_efficacy_from_db dbt T))) = Some v.
Proof.
  rewrite load_component_efficacy, Hdbt.
  unfold Store.update_efficacy, Store.db_upsert. cbn [Store.db fst].
  set (g := fun r : Store.ComponentEfficacyDB =>
              Store.mkComponentEfficacyDB (Store.db_component_type r)
                (Store.db_task_type r) (Store.db_behavior_type r) v).
  assert (Hsplit : exists pre x post,
             (match find (Store.matches c tb) (Store.db e) with
              | Some _ => Store.update_first (Store.matches c tb) g (Store.db e)
              | None => (Store.db e ++ [Store.new_row c tb v])%list
              end) = (pre ++ x :: post)%list /\
             Forall (fun r => exists c', Store.db_component_type r = ComponentType_value c' /\
              ((exists t, Store.db_task_type r = Some (TaskType_value t) /\
                          Store.db_behavior_type r = None) \/
               (exists b, Store.db_task_type r = None /\
                          Store.db_behavior_type r = Some (BehaviorType_value b)))) (pre ++ x :: post)%list /\
             Store.matches c tb x = true /\ Store.efficacy_value x = v /\
             Forall (fun r => Store.matches c tb r = false) post).
  { destruct (find (Store.matches c tb) (Store.db e)) as [r|] eqn:E.
    - destruct (find_split _ _ _ E) as (pre & post & Hdb & Hpre & Hr).
      exists pre, (g r), post. rewrite Hdb in Hwf, Hone |- *.
      rewrite (update_first_split _ _ _ _ _ Hpre Hr).
      apply Forall_app in Hwf as [Hwpre Hwpost]. inversion Hwpost as [|? ? Hwr Hwt]; subst.
      split; [reflexivity|]. split; [|split; [|split]].
      + apply Forall_app. split; [exact Hwpre|]. constructor; [exact Hwr | exact Hwt].
      + destruct tb; exact Hr.
      + reflexivity.
      + rewrite filter_app, length_app in Hone. simpl in Hone. rewrite Hr in Hone.
        simpl in Hone. apply filter_length_0. lia.
    - exists (Store.db e), (Store.new_row c tb v), []. split; [reflexivity|].
      split; [|split; [apply matches_new_row|split; [destruct tb; reflexivity|constructor]]].
      apply Forall_app. split; [exact Hwf|]. constructor; [|constructor].
      exists c. destruct tb as [t|b]; simpl; split; auto; [left|right]; eauto. }
  destruct Hsplit as (pre & x & post & -> & Hw & Hx & Hv & Hpost).
  unfold Loader.query_loop. rewrite (wf_fetchable _ Hw).
  apply Forall_app in Hw as [Hwpre Hwx]. inversion Hwx as [|? ? Hwx' _]; subst.
  rewrite for_rows_app.
  pose proof (for_rows_wf_ok (component_efficacy T) pre Hwpre) as Hok.
  destruct (Loader.for_rows Loader.load_efficacy_row (component_efficacy T) pre) as [ce1 ok1].
  simpl in Hok. subst ok1. simpl.
  destruct (load_efficacy_row_wf ce1 x Hwx') as [Hok2 Hset].
  specialize (Hset c tb Hx).
  destruct (Loader.load_efficacy_row ce1 x) as [ce2 ok2]. simpl in Hok2, Hset. subst ok2.
  rewrite for_rows_other by exact Hpost. exact Hset.
Qed.

(** [load_efficacy_from_db] changes the efficacy of a key only through a
    row selected for that key: with no such row the value in the engine
    (a default, say) is kept, whatever the other rows hold and whether or
    not one of them makes the load raise. *)
Theorem load_keeps_unselected_key (dbt : Loader.DBTables) (T : EngineTables)
    (c : ComponentType) (tb : TaskOrBehavior)
    (Hnone : Forall (fun r => Store.matches c tb r = false) (Loader.component_efficacy_rows dbt)) :
  assoc efficacy_key_eqb (c, tb) (component_efficacy (fst (Loader.load_efficacy_from_db dbt T))) =
  assoc efficacy_key_eqb (c, tb) (component_efficacy T).
Proof. rewrite load_component_efficacy. apply query_loop_other. exact Hnone. Qed.


Lemma reload_after_update_witness :
  List.length (filter (Store.matches CONTEXT (Task DEDUCTION))
    [Store.new_row CONTEXT (Task DEDUCTION) (1 # 2);
     Store.new_row EXAMPLE (Behavior PRECISION) (3 # 10)]) <= 1 /\
  assoc efficacy_key_eqb (CONTEXT, Task DEDUCTION)
    (component_efficacy (fst (Loader.load_efficacy_from_db
       (Loader.mkDBTables
          (Store.db (fst (Store.update_efficacy true CONTEXT (Task DEDUCTION) (9 # 10)
             (Store.mkEngineState default_tables []
                [Store.new_row CONTEXT (Task DEDUCTION) (1 # 2);
                 Store.new_row EXAMPLE (Behavior PRECISION) (3 # 10)]))))
          [] [] [])
       default_tables))) = Some (9 # 10).
Proof.
  split; [vm_compute; lia|].
  apply (reload_after_update CONTEXT (Task DEDUCTION) (9 # 10)
           (Store.mkEngineState default_tables []
              [Store.new_row CONTEXT (Task DEDUCTION) (1 # 2);
               Store.new_row EXAMPLE (Behavior PRECISION) (3 # 10)])
           (Loader.mkDBTables
              (Store.db (fst (Store.update_efficacy true CONTEXT (Task DEDUCTION) (9 # 10)
                 (Store.mkEngineState default_tables []
                    [Store.new_row CONTEXT (Task DEDUCTION) (1 # 2);
                     Store.new_row EXAMPLE (Behavior PRECISION) (3 # 10)]))))
              [] [] [])
           default_tables).
  - constructor; [|constructor; [|constructor]].
    + exists CONTEXT. split; [reflexivity|]. left. exists DEDUCTION. split; reflexivity.
    + exists EXAMPLE. split; [reflexivity|]. right. exists PRECISION. split; reflexivity.
  - vm_compute. lia.
  - reflexivity.
Defined.

Lemma load_keeps_unselected_key_witness :
  Forall (fun r => Store.matches CONTEXT (Task ABDUCTION) r = false)
    [Store.new_row INSTRUCTION (Task DEDUCTION) (1 # 2);
     Store.mkComponentEfficacyDB "context" (Some "bogus") None (1 # 3)] /\
  assoc efficacy_key_eqb (CONTEXT, Task ABDUCTION)
    (component_efficacy (fst (Loader.load_efficacy_from_db
       (Loader.mkDBTables
          [Store.new_row INSTRUCTION (Task DEDUCTION) (1 # 2);
           Store.mkComponentEfficacyDB "context" (Some "bogus") None (1 # 3)] [] [] [])
       default_tables))) = assoc efficacy_key_eqb (CONTEXT, Task ABDUCTION)
                             (component_efficacy default_tables).
Proof.
  assert (H : Forall (fun r => Store.matches CONTEXT (Task ABDUCTION) r = false)
    [Store.new_row INSTRUCTION (Task DEDUCTION) (1 # 2);
     Store.mkComponentEfficacyDB "context" (Some "bogus") None (1 # 3)])
    by (constructor; [reflexivity|constructor; [reflexivity|constructor]]).
  split; [exact H|].
  apply (load_keeps_unselected_key
           (Loader.mkDBTables
              [Store.new_row INSTRUCTION (Task DEDUCTION) (1 # 2);
               Store.mkComponentEfficacyDB "context" (Some "bogus") None (1 # 3)] [] [] [])
           default_tables CONTEXT (Task ABDUCTION) H).
Defined.

(** A first [ModelEfficacyDB] row that names a new model and has a NULL
    [behavior_type] (in a table whose rows all convert when fetched)
    makes the load raise after [model_adjustments[name] = {}]:
    [BehaviorType(None)] raises [ValueError]. The engine built by
    [ASPEngine(load_from_db=True)] then treats that model as a
    recognized target with no adjustments, and no domain row is loaded. *)
Theorem failed_model_row_registers_model (float_repr : Q -> string)
    (dbt : Loader.DBTables) (r : Loader.ModelEfficacyDB) (rest : list Loader.ModelEfficacyDB)
    (name : string)
    (Hce : snd (Loader.query_loop Loader.efficacy_row_fetchable Loader.load_efficacy_row
                  (component_efficacy default_tables)
                  (Loader.component_efficacy_rows dbt)) = true)
    (Hpe : snd (Loader.query_loop Loader.position_row_fetchable Loader.load_position_row
                  (position_effects default_tables) (Loader.position_effect_rows dbt)) = true)
    (Hrows : Loader.model_efficacy_rows dbt = r :: rest)
    (Hfetch : forallb Loader.model_row_fetchable (r :: rest) = true)
    (Hname : Loader.me_model_name r = Some name)
    (Hne : name <> "")
    (Hnew : assoc String.eqb name (model_adjustments default_tables) = None)
    (Hnull : Loader.me_behavior_type r = None) :
  AspFacts.adjustment_facts float_repr (Some name)
    (model_adjustments (Loader.engine_tables true dbt)) "target_model" "model_specific_efficacy"
  = ["target_model(" ++ name ++ ")"] /\
  domain_adjustments (Loader.engine_tables true dbt) = domain_adjustments default_tables.
Proof.
  unfold Loader.engine_tables, Loader.load_efficacy_from_db.
  destruct (Loader.query_loop Loader.efficacy_row_fetchable Loader.load_efficacy_row _ _)
    as [ce ok1].
  cbn [snd] in Hce. subst ok1. cbn [negb position_effects].
  destruct (Loader.query_loop Loader.position_row_fetchable Loader.load_position_row _ _)
    as [pe ok2].
  cbn [snd] in Hpe. subst ok2. cbn [negb model_adjustments].
  rewrite Hrows. unfold Loader.query_loop. rewrite Hfetch. cbn [Loader.for_rows].
  assert (Hstep : Loader.load_model_row (model_adjustments default_tables) r =
                  (dict_set String.eqb name [] (model_adjustments default_tables), false)).
  { unfold Loader.load_model_row, Loader.load_adjustment. rewrite Hname, Hnew, Hnull.
    cbn [Loader.parse_opt].
    destruct (ComponentType_of_value (Loader.me_component_type r)); reflexivity. }
  rewrite Hstep. cbn [negb fst model_adjustments domain_adjustments].
  split; [|reflexivity].
  unfold AspFacts.adjustment_facts.
  destruct (String.eqb name "") eqn:E; [apply String.eqb_eq in E; contradiction|].
  rewrite assoc_dict_set by apply String.eqb_refl. reflexivity.
Qed.

Lemma failed_model_row_registers_model_witness :
  forallb Loader.model_row_fetchable
    [Loader.mkModelEfficacyDB (Some "mistral") "instruction" None (1 # 2)] = true /\
  AspFacts.adjustment_facts (fun _ => "0.5") (Some "mistral")
    (model_adjustments (Loader.engine_tables true
       (Loader.mkDBTables [] []
          [Loader.mkModelEfficacyDB (Some "mistral") "instruction" None (1 # 2)]
          [Loader.mkDomainEfficacyDB "legal" "context" (Some "precision") (1 # 5)])))
    "target_model" "model_specific_efficacy"
  = ["target_model(" ++ "mistral" ++ ")"] /\
  domain_adjustments (Loader.engine_tables true
       (Loader.mkDBTables [] []
          [Loader.mkModelEfficacyDB (Some "mistral") "instruction" None (1 # 2)]
          [Loader.mkDomainEfficacyDB "legal" "context" (Some "precision") (1 # 5)]))
  = domain_adjustments default_tables.
Proof.
  split; [reflexivity|].
  apply (failed_model_row_registers_model (fun _ => "0.5")
           (Loader.mkDBTables [] []
              [Loader.mkModelEfficacyDB (Some "mistral") "instruction" None (1 # 2)]
              [Loader.mkDomainEfficacyDB "legal" "context" (Some "precision") (1 # 5)])
           (Loader.mkModelEfficacyDB (Some "mistral") "instruction" None (1 # 2))
           [] "mistral"); try reflexivity.
  discriminate.
Defined.

End LoaderFacts.

(** ** The ASP facts and the cache hit path *)
Module AspFactsFacts.

Lemma string_app_assoc (x y z : string) : (x ++ y) ++ z = x ++ (y ++ z).
Proof. induction x as [|a x IH]; simpl; [reflexivity|]. rewrite IH. reflexivity. Qed.

Lemma ends_app (x y : string) :
  (exists s, y = s ++ ")") -> exists s, x ++ y = s ++ ")".
Proof. intros [s ->]. exists (x ++ s). symmetry. apply string_app_assoc. Qed.

Ltac closes := repeat apply ends_app; exists ""; reflexivity.

Lemma adjustment_facts_closed fr name table head body :
  Forall (fun line => exists s, line = s ++ ")")
    (AspFacts.adjustment_facts fr name table head body).
Proof.
  unfold AspFacts.adjustment_facts.
  destruct name as [n|]; [|constructor].
  destruct (String.eqb n ""); [constructor|].
  destruct (assoc String.eqb n table) as [adj|]; [|constructor].
  constructor; [closes|]. apply Forall_map, Forall_forall. intros e _. closes.
Qed.

Lemma load_weights dbt T : weights (fst (Loader.load_efficacy_from_db dbt T)) = weights T.
Proof.
  unfold Loader.load_efficacy_from_db.
  destruct (Loader.query_loop Loader.efficacy_row_fetchable Loader.load_efficacy_row _ _)
    as [ce []]; simpl; [|reflexivity].
  destruct (Loader.query_loop Loader.position_row_fetchable Loader.load_position_row _ _)
    as [pe []]; simpl; [|reflexivity].
  destruct (Loader.query_loop Loader.model_row_fetchable Loader.load_model_row _ _)
    as [ma []]; simpl; [|reflexivity].
  destruct (Loader.query_loop Loader.domain_row_fetchable Loader.load_domain_row _ _)
    as [da ok]; reflexivity.
Qed.

Lemma fact_lines_closed (float_repr : Q -> string) (load_from_db : bool)
    (dbt : Loader.DBTables) (tasks : list TaskType) (behaviors : list BehaviorType)
    (target_model domain : option string) :
  let lines := AspFacts.facts float_repr (Loader.engine_tables load_from_db dbt)
                 tasks behaviors target_model domain in
  lines <> [] /\ Forall (fun line => exists s, line = s ++ ")") lines.
Proof.
  intros lines. split.
  - unfold lines, AspFacts.facts. cbn [List.concat].
    assert (Hw : weights (Loader.engine_tables load_from_db dbt) = weights default_tables)
      by (unfold Loader.engine_tables; destruct load_from_db; [apply load_weights|reflexivity]).
    rewrite Hw. intros H.
    do 4 (apply app_eq_nil in H; destruct H as [_ H]).
    apply app_eq_nil in H. destruct H as [H _]. simpl in H. discriminate.
  - unfold lines, AspFacts.facts. cbn [List.concat].
    repeat (apply Forall_app; split);
      try (apply Forall_map, Forall_forall; intros e _; closes);
      try apply adjustment_facts_closed; try constructor.
Qed.

(** Every line [generate_asp_facts] emits for an engine ends with [")"]:
    none carries the ["."] that ends an ASP fact; and there is always at
    least one line, as the weight table is never emptied by the load. *)
Theorem asp_fact_lines_unterminated (float_repr : Q -> string) (load_from_db : bool)
    (dbt : Loader.DBTables) (tasks : list TaskType) (behaviors : list BehaviorType)
    (target_model domain : option string) :
  let lines := AspFacts.facts float_repr (Loader.engine_tables load_from_db dbt)
                 tasks behaviors target_model domain in
  lines <> [] /\ Forall (fun line => exists s, line = s ++ ")") lines.
Proof. exact (fact_lines_closed float_repr load_from_db dbt tasks behaviors target_model domain). Qed.

Lemma adjustment_facts_unknown fr name table head body :
  (forall n, name = Some n -> n = "" \/ assoc String.eqb n table = None) ->
  AspFacts.adjustment_facts fr name table head body = [].
Proof.
  intros H. unfold AspFacts.adjustment_facts. destruct name as [n|]; [|reflexivity].
  destruct (String.eqb n "") eqn:E; [reflexivity|].
  destruct (H n eq_refl) as [Hn|Hn].
  - subst n. discriminate.
  - rewrite Hn. reflexivity.
Qed.

(** A model or domain that is empty or not a key of its adjustment table
    contributes no fact: the facts are those of the request without it. *)
Theorem generate_asp_facts_unknown_names (float_repr : Q -> string) (T : EngineTables)
    (tasks : list TaskType) (behaviors : list BehaviorType) (target_model domain : option string)
    (Hm : forall n, target_model = Some n -> n = "" \/ assoc String.eqb n (model_adjustments T) = None)
    (Hd : forall n, domain = Some n -> n = "" \/ assoc String.eqb n (domain_adjustments T) = None) :
  AspFacts.generate_asp_facts float_repr T tasks behaviors target_model domain =
  AspFacts.generate_asp_facts float_repr T tasks behaviors None None.
Proof.
  unfold AspFacts.generate_asp_facts, AspFacts.facts.
  rewrite (adjustment_facts_unknown float_repr target_model _ _ _ Hm).
  rewrite (adjustment_facts_unknown float_repr domain _ _ _ Hd).
  reflexivity.
Qed.

Lemma generate_asp_facts_unknown_names_witness :
  AspFacts.generate_asp_facts (fun _ => "1.0") default_tables [DEDUCTION] [PRECISION]
    (Some "mistral") (Some "") =
  AspFacts.generate_asp_facts (fun _ => "1.0") default_tables [DEDUCTION] [PRECISION] None None.
Proof.
  apply (generate_asp_facts_unknown_names (fun _ => "1.0") default_tables [DEDUCTION] [PRECISION]
           (Some "mistral") (Some "")).
  - intros n Hn. injection Hn as <-. right. reflexivity.
  - intros n Hn. injection Hn as <-. left. reflexivity.
Defined.

End AspFactsFacts.

(** ** What [control.add] receives *)
Module EngineFacts.
Import Engine.

Lemma list_ascii_of_string_app (x y : string) :
  list_ascii_of_string (x ++ y) = (list_ascii_of_string x ++ list_ascii_of_string y)%list.
Proof. induction x as [|a x IH]; simpl; [reflexivity|]. rewrite IH. reflexivity. Qed.

Lemma no_percent_app (x y : string) :
  no_percent (x ++ y) = no_percent x && no_percent y.
Proof. unfold no_percent. rewrite list_ascii_of_string_app. apply forallb_app. Qed.

Lemma digit_not_percent (n : nat) :
  Ascii.eqb (ascii_of_nat (48 + n mod 10)) percent_char = false.
Proof.
  apply Bool.not_true_iff_false. intros H. apply Ascii.eqb_eq in H.
  apply (f_equal nat_of_ascii) in H. unfold percent_char in H.
  pose proof (Nat.mod_upper_bound n 10 ltac:(lia)).
  rewrite !nat_ascii_embedding in H by lia. lia.
Qed.

Lemma no_percent_digits (fuel n : nat) (acc : string) :
  no_percent acc = true -> no_percent (AspFacts.digits fuel n acc) = true.
Proof.
  revert n acc. induction fuel as [|fuel IH]; intros n acc H; [exact H|].
  assert (H' : no_percent (String (ascii_of_nat (48 + n mod 10)) acc) = true).
  { unfold no_percent in *. cbn [list_ascii_of_string forallb].
    rewrite digit_not_percent. exact H. }
  cbn [AspFacts.digits]. destruct (Nat.ltb n 10); [exact H'|]. apply IH. exact H'.
Qed.

Lemma no_percent_str_of_nat (n : nat) : no_percent (AspFacts.str_of_nat n) = true.
Proof. apply no_percent_digits. reflexivity. Qed.

Lemma no_percent_ComponentType_value c : no_percent (ComponentType_value c) = true.
Proof. destruct c; reflexivity. Qed.

Lemma no_percent_TaskType_value t : no_percent (TaskType_value t) = true.
Proof. destruct t; reflexivity. Qed.

Lemma no_percent_BehaviorType_value b : no_percent (BehaviorType_value b) = true.
Proof. destruct b; reflexivity. Qed.

Lemma no_percent_TaskOrBehavior_value x : no_percent (AspFacts.TaskOrBehavior_value x) = true.
Proof. destruct x as [t|b]; [destruct t|destruct b]; reflexivity. Qed.

Lemma no_percent_WeightKey_str k : no_percent (AspFacts.WeightKey_str k) = true.
Proof. destruct k as [|t|b]; [|destruct t|destruct b]; reflexivity. Qed.

Ltac no_percent_line :=
  repeat rewrite no_percent_app;
  rewrite ?no_percent_ComponentType_value, ?no_percent_TaskType_value,
    ?no_percent_BehaviorType_value, ?no_percent_TaskOrBehavior_value,
    ?no_percent_WeightKey_str, ?no_percent_str_of_nat;
  reflexivity.

Section NoPercent.
Variable float_repr : Q -> string.
Hypothesis Hrepr : forall q, no_percent (float_repr q) = true.

Lemma adjustment_facts_no_percent name table head body :
  (forall n, name = Some n -> no_percent n = true) ->
  no_percent head = true -> no_percent body = true ->
  Forall (fun line => no_percent line = true)
    (AspFacts.adjustment_facts float_repr name table head body).
Proof.
  intros Hname Hh Hb. unfold AspFacts.adjustment_facts.
  destruct name as [n|]; [|constructor].
  specialize (Hname n eq_refl).
  destruct (String.eqb n ""); [constructor|].
  destruct (assoc String.eqb n table) as [adj|]; [|constructor].
  constructor.
  - rewrite !no_percent_app, Hh, Hname. reflexivity.
  - apply Forall_map, Forall_forall. intros e _.
    rewrite !no_percent_app, Hb, Hname, Hrepr. no_percent_line.
Qed.

Lemma fact_lines_no_percent T tasks behaviors target_model domain :
  (forall n, target_model = Some n -> no_percent n = true) ->
  (forall n, domain = Some n -> no_percent n = true) ->
  Forall (fun line => no_percent line = true)
    (AspFacts.facts float_repr T tasks behaviors target_model domain).
Proof.
  intros Hm Hd. unfold AspFacts.facts. cbn [List.concat].
  repeat (apply Forall_app; split);
    try (apply Forall_map, Forall_forall; intros e _; rewrite ?no_percent_app, ?Hrepr;
         no_percent_line);
    try (apply adjustment_facts_no_percent; [assumption|reflexivity|reflexivity]);
    try constructor.
Qed.

End NoPercent.

Lemma concat_no_percent (lines : list string) :
  Forall (fun line => no_percent line = true) lines ->
  no_percent (String.concat nl lines) = true.
Proof.
  induction lines as [|x xs IH]; intros H; [reflexivity|].
  inversion H as [|? ? Hx Hxs]; subst.
  destruct xs as [|y ys]; [exact Hx|].
  change (String.concat nl (x :: y :: ys)) with (x ++ nl ++ String.concat nl (y :: ys)).
  rewrite !no_percent_app, Hx, (IH Hxs). reflexivity.
Qed.

Lemma concat_closed (lines : list string) :
  lines <> [] -> Forall (fun line => exists s, line = s ++ ")") lines ->
  exists s, String.concat nl lines = s ++ ")".
Proof.
  induction lines as [|x xs IH]; intros Hne H; [congruence|].
  inversion H as [|? ? Hx Hxs]; subst.
  destruct xs as [|y ys]; [exact Hx|].
  change (String.concat nl (x :: y :: ys)) with (x ++ nl ++ String.concat nl (y :: ys)).
  apply AspFactsFacts.ends_app, AspFactsFacts.ends_app, IH; [discriminate|exact Hxs].
Qed.

Lemma scan_no_percent (l : list ascii) (st : ScanState) :
  forallb (fun a => negb (Ascii.eqb a percent_char)) l = true ->
  after_percent st = false -> line_percent st = false ->
  let st' := fold_left scan_char l st in
  after_percent st' = false /\ block_comment st' = block_comment st /\ line_percent st' = false.
Proof.
  revert st. induction l as [|a l IH]; intros st Hl Ha Hlp; simpl; [auto|].
  simpl in Hl. apply andb_prop in Hl. destruct Hl as [Hna Hl].
  apply negb_true_iff in Hna.
  assert (Hstep : scan_char st a =
    if Ascii.eqb a newline_char then mkScan false (block_comment st) false None
    else mkScan false (block_comment st) (line_percent st)
           (if is_blank a then last_char st else Some a)).
  { unfold scan_char. rewrite Hna, Ha. cbn [andb].
    destruct (Ascii.eqb a newline_char); [reflexivity|]. rewrite orb_false_r. reflexivity. }
  rewrite Hstep. destruct (Ascii.eqb a newline_char).
  - destruct (IH (mkScan false (block_comment st) false None) Hl eq_refl eq_refl)
      as (H1 & H2 & H3). simpl in H2. auto.
  - destruct (IH (mkScan false (block_comment st) (line_percent st)
                    (if is_blank a then last_char st else Some a)) Hl eq_refl Hlp)
      as (H1 & H2 & H3). simpl in H2. auto.
Qed.

Lemma scan_base_program : scan base_program = mkScan false false false None.
Proof. vm_compute. reflexivity. Qed.

(** A program made of [base_program] and a text with no ['%'] that ends
    with [")"] is rejected by [control.add]. *)
Lemma add_raises_closed_facts (facts s : string) :
  no_percent facts = true -> facts = s ++ ")" ->
  add_raises (base_program ++ nl ++ facts) = true.
Proof.
  intros Hnp Hs. subst facts.
  rewrite no_percent_app in Hnp. apply andb_prop in Hnp. destruct Hnp as [Hnp _].
  unfold add_raises, scan.
  rewrite !list_ascii_of_string_app, !fold_left_app.
  change (fold_left scan_char (list_ascii_of_string base_program) scan_init)
    with (scan base_program).
  rewrite scan_base_program.
  change (fold_left scan_char (list_ascii_of_string nl) (mkScan false false false None))
    with (mkScan false false false None).
  destruct (scan_no_percent (list_ascii_of_string s) (mkScan false false false None)
              Hnp eq_refl eq_refl) as (H1 & H2 & H3).
  destruct (fold_left scan_char (list_ascii_of_string s) (mkScan false false false None))
    as [ap bc lp lc].
  simpl in H1, H2, H3. subst. reflexivity.
Qed.



End EngineFacts.

Module CacheHitFacts.
Import Optimizer.

Lemma resolve_hit_shape llm key ts bs m d w cached s :
  assoc String.eqb key (optimization_cache w) = Some (cached, s) ->
  exists cs, resolve_structure llm key ts bs m d w =
    (mkWorld (heap w ++ cs)%list (optimization_cache w) (solver_calls w) (engine w),
     Some (seq (List.length (heap w)) (List.length cs), s)).
Proof. intros H. unfold resolve_structure. rewrite H. eexists. reflexivity. Qed.

Lemma cache_wf_assoc w key ls s :
  cache_wf w -> assoc String.eqb key (optimization_cache w) = Some (ls, s) ->
  Forall (fun l => l < List.length (heap w)) ls.
Proof.
  unfold cache_wf. intros Hwf.
  induction Hwf as [|[k [c sc]] rest Hhd _ IH]; simpl; [discriminate|].
  destruct (String.eqb k key); [intros H; injection H as -> ->; exact Hhd | exact IH].
Qed.

(** On a cache hit [optimize] works on fresh copies: it leaves the cache,
    the solver and the contents of every cached component as they were,
    and its result has the cached effectiveness score unless it is the
    fallback of a failed step. *)
Theorem cache_hit_keeps_cached_components (llm : Collaborators) (r : OptimizationRequest)
    (w : World) (an : Analysis) (cached : list loc) (s : Q)
    (Hwf : cache_wf w)
    (Ha : analyze_task llm (user_prompt r) = Some an)
    (Hhit : assoc String.eqb
              (generate_cache_key (resolved_tasks r an) (resolved_behaviors r an)
                 (target_model r) (resolved_domain r an))
              (optimization_cache w) = Some (cached, s)) :
  let w' := fst (optimize llm r w) in
  optimization_cache w' = optimization_cache w /\
  solver_calls w' = solver_calls w /\
  (forall key, cached_contents w' key = cached_contents w key) /\
  (effectiveness_score (snd (optimize llm r w)) = s \/
   snd (optimize llm r w) = fallback_prompt (user_prompt r)).
Proof.
  destruct (OptimizerFacts.optimize_body_decomp llm r w an Ha) as (ls & s' & Hres & Hfst & Hsnd).
  destruct (resolve_hit_shape llm _ (resolved_tasks r an) (resolved_behaviors r an)
              (target_model r) (resolved_domain r an) w cached s Hhit) as [cs Hr].
  rewrite Hr in Hres, Hfst. cbn [snd fst] in Hres, Hfst. injection Hres as <- <-.
  intros w'. unfold w'. rewrite OptimizerFacts.optimize_world, Hfst.
  destruct (OptimizerFacts.fill_contents_frame llm an (user_prompt r)
              (seq (List.length (heap w)) (List.length cs))
              (mkWorld (heap w ++ cs)%list (optimization_cache w) (solver_calls w) (engine w)))
    as (Hc & Hn & _ & _).
  cbn [optimization_cache solver_calls] in Hc, Hn.
  split; [exact Hc|]. split; [exact Hn|]. split.
  - intros key. unfold cached_contents. rewrite Hc.
    destruct (assoc String.eqb key (optimization_cache w)) as [[ls0 s0]|] eqn:Ek; [|reflexivity].
    f_equal. apply map_ext_Forall.
    eapply Forall_impl; [|exact (cache_wf_assoc w key ls0 s0 Hwf Ek)].
    intros l Hl. cbn beta.
    rewrite HeapFacts.fill_contents_frame_read.
    + cbn [heap]. rewrite OptimizerFacts.read_app by exact Hl. reflexivity.
    + intros Hin. apply in_seq in Hin. cbv beta in Hl, Hin. lia.
  - unfold optimize. destruct (optimize_body _ _ _) as [wb [p|]] eqn:Eb.
    + left. exact (proj2 (Hsnd p eq_refl)).
    + right. reflexivity.
Qed.

Lemma cache_hit_keeps_cached_components_witness :
  let w1 := fst (optimize Scenarios.echo_llm Scenarios.request_q Scenarios.empty_world) in
  cache_wf w1 /\
  let w2 := fst (optimize Scenarios.echo_llm Scenarios.request_q w1) in
  optimization_cache w2 = optimization_cache w1 /\
  solver_calls w2 = solver_calls w1 /\
  (forall key, cached_contents w2 key = cached_contents w1 key) /\
  (effectiveness_score (snd (optimize Scenarios.echo_llm Scenarios.request_q w1)) = 100%Q \/
   snd (optimize Scenarios.echo_llm Scenarios.request_q w1) =
     fallback_prompt (user_prompt Scenarios.request_q)).
Proof.
  intros w1.
  assert (Hwf : cache_wf w1) by (unfold w1, cache_wf; vm_compute; repeat constructor).
  split; [exact Hwf|].
  apply (cache_hit_keeps_cached_components Scenarios.echo_llm Scenarios.request_q w1
           (mkAnalysis [DEDUCTION] [PRECISION] None) [0; 1; 2; 3; 4] 100%Q Hwf).
  - reflexivity.
  - vm_compute. reflexivity.
Defined.

End CacheHitFacts.

(** ** The feedback and history endpoints *)
Module ApiFacts.
Import Optimizer.

Lemma py_get_has_key fb k : Api.py_get fb k <> Api.JNull -> Api.has_key fb k = true.
Proof. unfold Api.py_get, Api.has_key. destruct (assoc String.eqb k fb); congruence. Qed.

Lemma py_get_missing fb k : Api.has_key fb k = false -> Api.py_get fb k = Api.JNull.
Proof. unfold Api.py_get, Api.has_key. destruct (assoc String.eqb k fb); congruence. Qed.

(** A body without ["component_type"] or ["effectiveness"], or with
    neither ["task_type"] nor ["behavior_type"], is answered 400 and
    nothing is recorded. *)
Theorem feedback_missing_fields_rejected (float_of_string : string -> option Q)
    (storage_ok : bool) (feedback : list (string * Api.JVal)) (w : World)
    (Hmissing : Api.has_key feedback "component_type" = false \/
                Api.has_key feedback "effectiveness" = false \/
                (Api.has_key feedback "task_type" = false /\
                 Api.has_key feedback "behavior_type" = false)) :
  Api.provide_feedback_endpoint float_of_string storage_ok feedback w = (w, Api.FeedbackError 400).
Proof.
  unfold Api.provide_feedback_endpoint.
  destruct Hmissing as [H|[H|[H1 H2]]].
  - rewrite H. reflexivity.
  - rewrite H, andb_false_r. reflexivity.
  - rewrite H1, H2. destruct (Api.has_key feedback "component_type" &&
                              Api.has_key feedback "effectiveness"); reflexivity.
Qed.

(** A falsy ["task_type"] (empty string, [null], [0], ...) with no
    ["behavior_type"] is answered 400 and nothing is recorded, even
    though the field check passes. *)
Theorem feedback_falsy_task_without_behavior_rejected (float_of_string : string -> option Q)
    (storage_ok : bool) (feedback : list (string * Api.JVal)) (w : World)
    (Htask : Api.jtruthy (Api.py_get feedback "task_type") = false)
    (Hbeh : Api.has_key feedback "behavior_type" = false) :
  Api.provide_feedback_endpoint float_of_string storage_ok feedback w = (w, Api.FeedbackError 400).
Proof.
  unfold Api.provide_feedback_endpoint.
  destruct (negb (Api.has_key feedback "component_type" && Api.has_key feedback "effectiveness"));
    [reflexivity|].
  destruct (negb (Api.has_key feedback "task_type") && negb (Api.has_key feedback "behavior_type"));
    [reflexivity|].
  destruct (Api.enum_of ComponentType_of_value (Api.py_get feedback "component_type"));
    [|reflexivity].
  rewrite Htask, (py_get_missing _ _ Hbeh). reflexivity.
Qed.

(** With a valid ["component_type"] and a truthy, valid ["task_type"],
    the feedback is recorded for that task whatever ["behavior_type"]
    says; the status then follows [float(effectiveness)]: a rejected
    string gives 400; [null], a container or an integer beyond the
    double range gives 500; any other number is recorded, the response
    being 500 when storage fails. *)
Theorem feedback_task_type_dispatch (float_of_string : string -> option Q)
    (storage_ok : bool) (feedback : list (string * Api.JVal)) (w : World)
    (c : ComponentType) (t : TaskType)
    (Hc : Api.py_get feedback "component_type" = Api.JStr (ComponentType_value c))
    (Ht : Api.py_get feedback "task_type" = Api.JStr (TaskType_value t))
    (He : Api.has_key feedback "effectiveness" = true) :
  Api.provide_feedback_endpoint float_of_string storage_ok feedback w =
  match Api.py_float float_of_string (Api.py_get feedback "effectiveness") with
  | Api.FloatOk q =>
      let '(w', ok) := provide_feedback storage_ok c (Task t) q w in
      (w', if ok then Api.FeedbackRecorded (ComponentType_value c) q else Api.FeedbackError 500)
  | Api.FloatValueError => (w, Api.FeedbackError 400)
  | Api.FloatTypeError | Api.FloatOverflowError => (w, Api.FeedbackError 500)
  end.
Proof.
  unfold Api.provide_feedback_endpoint.
  rewrite (py_get_has_key feedback "component_type") by (rewrite Hc; discriminate).
  rewrite (py_get_has_key feedback "task_type") by (rewrite Ht; discriminate).
  rewrite He. cbn [andb negb].
  rewrite Hc, Ht. cbn [Api.enum_of].
  rewrite LoaderFacts.ComponentType_of_value_value.
  assert (Htr : Api.jtruthy (Api.JStr (TaskType_value t)) = true) by (destruct t; reflexivity).
  rewrite Htr. cbn [Api.enum_of]. rewrite LoaderFacts.TaskType_of_value_value. cbn [option_map].
  destruct (Api.py_float float_of_string (Api.py_get feedback "effectiveness")); try reflexivity.
  destruct (provide_feedback storage_ok c (Task t) q w) as [w' []]; reflexivity.
Qed.

Lemma feedback_missing_fields_rejected_witness :
  Api.has_key [("component_type", Api.JStr "instruction"); ("task_type", Api.JStr "deduction")]
    "effectiveness" = false /\
  Api.provide_feedback_endpoint (fun _ => None) true
    [("component_type", Api.JStr "instruction"); ("task_type", Api.JStr "deduction")]
    Scenarios.empty_world = (Scenarios.empty_world, Api.FeedbackError 400).
Proof.
  split; [reflexivity|].
  apply (feedback_missing_fields_rejected (fun _ => None) true
           [("component_type", Api.JStr "instruction"); ("task_type", Api.JStr "deduction")]
           Scenarios.empty_world).
  right; left; reflexivity.
Defined.

Lemma feedback_falsy_task_without_behavior_rejected_witness :
  Api.provide_feedback_endpoint (fun _ => None) true
    [("component_type", Api.JStr "instruction"); ("task_type", Api.JStr "");
     ("effectiveness", Api.JFloat (1 # 2))]
    Scenarios.empty_world = (Scenarios.empty_world, Api.FeedbackError 400).
Proof.
  apply (feedback_falsy_task_without_behavior_rejected (fun _ => None) true
           [("component_type", Api.JStr "instruction"); ("task_type", Api.JStr "");
            ("effectiveness", Api.JFloat (1 # 2))]
           Scenarios.empty_world); reflexivity.
Defined.

Lemma feedback_task_type_dispatch_witness :
  Api.provide_feedback_endpoint (fun _ => None) true
    [("component_type", Api.JStr "example"); ("task_type", Api.JStr "induction");
     ("behavior_type", Api.JStr "bogus"); ("effectiveness", Api.JInt (2 ^ 1024)%Z)]
    Scenarios.empty_world = (Scenarios.empty_world, Api.FeedbackError 500).
Proof.
  apply (feedback_task_type_dispatch (fun _ => None) true
           [("component_type", Api.JStr "example"); ("task_type", Api.JStr "induction");
            ("behavior_type", Api.JStr "bogus"); ("effectiveness", Api.JInt (2 ^ 1024)%Z)]
           Scenarios.empty_world EXAMPLE INDUCTION); reflexivity.
Defined.

Lemma In_firstn {A : Type} (x : A) n l : In x (firstn n l) -> In x l.
Proof. intros H. rewrite <- (firstn_skipn n l). apply in_or_app. left. exact H. Qed.

Lemma In_skipn {A : Type} (x : A) n l : In x (skipn n l) -> In x l.
Proof. intros H. rewrite <- (firstn_skipn n l). apply in_or_app. right. exact H. Qed.

Lemma string_length_app (a b : string) : String.length (a ++ b) = String.length a + String.length b.
Proof. induction a as [|x a IH]; simpl; [reflexivity|]. rewrite IH. reflexivity. Qed.

Lemma substring_0_length (n : nat) (s : string) : String.length (substring 0 n s) <= n.
Proof.
  revert s. induction n as [|n IH]; intros [|a s]; simpl; try lia.
  specialize (IH s). lia.
Qed.

Lemma user_prompt_preview_length (s : string) :
  String.length (Api.user_prompt_preview s) <= 103.
Proof.
  unfold Api.user_prompt_preview. destruct (Nat.ltb 100 (String.length s)) eqn:E.
  - rewrite string_length_app. pose proof (substring_0_length 100 s). simpl. lia.
  - apply Nat.ltb_ge in E. lia.
Qed.

(** [GET /history] answers only for [1 <= limit <= 100]; a page then
    echoes [offset] and [limit], counts the rows of the (filtered)
    query, holds [min limit (total - offset)] items whose previews have
    at most 103 characters, and with a non-empty [model] only rows of
    that model. *)
Theorem get_history_page (rows : list Api.OptimizedPromptRow) (limit offset : nat)
    (model : option string) (page : Api.HistoryPage)
    (H : Api.get_history rows limit offset model = Some page) :
  1 <= limit <= 100 /\
  Api.page_offset page = offset /\ Api.page_limit page = limit /\
  Api.total page <= List.length rows /\
  List.length (Api.items page) = Nat.min limit (Api.total page - offset) /\
  Forall (fun it => String.length (Api.row_user_prompt it) <= 103) (Api.items page) /\
  (forall m, model = Some m -> m <> "" ->
     Forall (fun it => Api.row_target_model it = m) (Api.items page)).
Proof.
  unfold Api.get_history in H.
  destruct (Nat.leb 1 limit && Nat.leb limit 100) eqn:Eb; [|discriminate].
  apply andb_true_iff in Eb as [E1 E2]. apply Nat.leb_le in E1, E2.
  cbn [negb] in H. injection H as <-. cbn [Api.page_offset Api.page_limit Api.total Api.items].
  set (query := match model with
                | Some m => if String.eqb m "" then rows
                            else filter (fun r => String.eqb (Api.row_target_model r) m) rows
                | None => rows
                end).
  assert (Hq : List.length query <= List.length rows).
  { unfold query. destruct model as [m|]; [destruct (String.eqb m "")|]; auto.
    apply filter_length_le. }
  split; [lia|]. split; [reflexivity|]. split; [reflexivity|]. split; [exact Hq|].
  split; [|split].
  - rewrite length_map, length_firstn, length_skipn. reflexivity.
  - apply Forall_map, Forall_forall. intros p _. apply user_prompt_preview_length.
  - intros m -> Hne. apply Forall_map, Forall_forall. intros p Hp. cbn [Api.row_target_model].
    apply In_firstn, In_skipn in Hp. unfold query in Hp.
    destruct (String.eqb m "") eqn:Em; [apply String.eqb_eq in Em; contradiction|].
    apply filter_In in Hp as [_ Hp]. apply String.eqb_eq. exact Hp.
Qed.

Lemma get_history_page_witness :
  Api.get_history
    [Api.mkOptimizedPromptRow 3 "c" "gpt-4" 100 "2025-01-03";
     Api.mkOptimizedPromptRow 2 "b" "claude" 100 "2025-01-02";
     Api.mkOptimizedPromptRow 1 "a" "gpt-4" 50 "2025-01-01"] 1 1 (Some "gpt-4") =
  Some (Api.mkHistoryPage 2 1 1 [Api.mkOptimizedPromptRow 1 "a" "gpt-4" 50 "2025-01-01"]) /\
  List.length [Api.mkOptimizedPromptRow 1 "a" "gpt-4" 50 "2025-01-01"] = Nat.min 1 (2 - 1).
Proof.
  assert (H : Api.get_history
    [Api.mkOptimizedPromptRow 3 "c" "gpt-4" 100 "2025-01-03";
     Api.mkOptimizedPromptRow 2 "b" "claude" 100 "2025-01-02";
     Api.mkOptimizedPromptRow 1 "a" "gpt-4" 50 "2025-01-01"] 1 1 (Some "gpt-4") =
    Some (Api.mkHistoryPage 2 1 1 [Api.mkOptimizedPromptRow 1 "a" "gpt-4" 50 "2025-01-01"]))
    by reflexivity.
  split; [exact H|].
  exact (proj1 (proj2 (proj2 (proj2 (proj2 (get_history_page _ _ _ _ _ H)))))).
Defined.

End ApiFacts.
